(** * The MTP transaction engine of [mtp/device_direct.go]

    A shallow embedding of [DeviceDirect]: the container codec ([sendReq],
    [fetchPacket], [decodeRep]), bulk reassembly ([bulkRead], [bulkWrite]),
    the transaction engine ([runTransaction], [RunTransaction]), teardown
    ([Close]) and session set-up ([Open], [Configure]).

    Go's pointer receivers and out-parameters become explicit state passing:
    every method takes the [DeviceDirect] value and returns the updated one
    when it mutates it; the USB bus is a [World] threaded through a small
    state monad with an abrupt [Panic] outcome for Go run-time panics,
    which keeps the bus as the panic found it.  Logging ([log.*],
    [dataPrint]) has no effect on the results and is left out.

    Go's [int] and [int64] are taken as 64 bits wide.  The sizes and
    lengths computed here are [Z]; the one sum that can leave the range of
    an [int64] for an argument within it, [size + usbHdrLen] in
    [bulkWrite], is wrapped; the [uint32] and [uint16] fields are [Z] too,
    with the conversions written out.  The USB library (hanwen/usb) is the
    environment: its transfers are answered by the [World], which every
    theorem quantifies over.  So is the [io.Reader] a transaction is
    given: a source is the script of what its reads return. *)

From Stdlib Require Import ZArith String List Bool Lia.
From Stdlib Require Import Strings.Byte.
Import ListNotations.
Local Open Scope Z_scope.

(** ** Bytes and little-endian words *)

Definition byte := Byte.byte.

(** Go's [byte(v)]: the low eight bits. *)
Definition byte_of_Z (v : Z) : byte :=
  match Byte.of_N (Z.to_N (Z.land v 255)) with
  | Some b => b
  | None => Byte.x00
  end.

Definition Z_of_byte (b : byte) : Z := Z.of_N (Byte.to_N b).

(** The conversion [uint32(v)]. *)
Definition uint32 (v : Z) : Z := v mod 2 ^ 32.

(** An [int64] result: two's complement wrap-around. *)
Definition int64 (v : Z) : Z := (v + 2 ^ 63) mod 2 ^ 64 - 2 ^ 63.

(** Go's [len], as an [int]. *)
Definition len {A : Type} (l : list A) : Z := Z.of_nat (List.length l).

(** [s[:k]] and [s[k:]] for in-range [k]. *)
Definition take {A : Type} (k : Z) (l : list A) : list A := firstn (Z.to_nat k) l.
Definition drop {A : Type} (k : Z) (l : list A) : list A := skipn (Z.to_nat k) l.

(** [binary.LittleEndian.PutUint16 / PutUint32]. *)
Definition PutUint16 (v : Z) : list byte :=
  [byte_of_Z v; byte_of_Z (Z.shiftr v 8)].

Definition PutUint32 (v : Z) : list byte :=
  [byte_of_Z v; byte_of_Z (Z.shiftr v 8);
   byte_of_Z (Z.shiftr v 16); byte_of_Z (Z.shiftr v 24)].

Definition at_ (b : list byte) (i : nat) : Z := Z_of_byte (nth i b Byte.x00).

(** [binary.LittleEndian.Uint16 / Uint32] on the first bytes of [b]. *)
Definition Uint16 (b : list byte) : Z :=
  Z.lor (at_ b 0) (Z.shiftl (at_ b 1) 8).

Definition Uint32 (b : list byte) : Z :=
  Z.lor (Z.lor (Z.lor (at_ b 0) (Z.shiftl (at_ b 1) 8))
               (Z.shiftl (at_ b 2) 16))
        (Z.shiftl (at_ b 3) 24).

(** ** Data model *)

(** Modelled from the spec: [usbHdrLen] is declared outside
    device_direct.go; the PacketHeader is "12 bytes total". *)
Definition usbHdrLen : Z := 12.

(** Modelled from the spec: the container types are declared outside
    device_direct.go; "COMMAND=1, DATA=2, RESPONSE=3". *)
Definition USB_CONTAINER_COMMAND : Z := 1.
Definition USB_CONTAINER_DATA : Z := 2.
Definition USB_CONTAINER_RESPONSE : Z := 3.

(** Modelled from the spec: [usbBulkHeader], declared outside
    device_direct.go: "length:u32, type:u16, code:u16, transactionId:u32". *)
Record usbBulkHeader := mkHeader {
  hLength : Z;
  hType : Z;
  hCode : Z;
  hTransactionID : Z
}.

(** Modelled from the spec: [Container], declared outside device_direct.go:
    a 16-bit code, 32-bit session and transaction ids and the parameters. *)
Record Container := mkContainer {
  Code : Z;
  SessionID : Z;
  TransactionID : Z;
  Param : list Z
}.

(** Modelled from the spec: [sessionData], declared outside
    device_direct.go: the session id and the transaction counter. *)
Record sessionData := mkSession {
  tid : Z;
  sid : Z
}.

(** The constants of the package that device_direct.go uses but does not
    declare: response and operation codes, and the size of the scratch
    array of [bulkRead] and [bulkWrite]. *)
Class Constants := {
  RC_OK : Z;
  RC_SessionAlreadyOpened : Z;
  OC_CloseSession : Z;
  rwBufSize : Z;
  rwBufSize_pos : 0 < rwBufSize
}.

(** [usb.Error] is an integer code; a read that times out returns
    LIBUSB_ERROR_TIMEOUT. *)
Definition usb_Error := Z.
Definition ERROR_TIMEOUT : usb_Error := -7.

(** The arguments of the formatted messages, in place of their text. *)
Inductive sync_msg :=
| GotType (ty : Z)                    (* "got type %d (%s) in response, want CONTAINER_RESPONSE." *)
| UnexpectedData (code : Z)           (* "unexpected data for code %s" *)
| TidMismatch (got want : Z).         (* "transaction ID mismatch got %x want %x" *)

Inductive plain_msg :=
| HeaderSpecified (restLen have : Z)  (* "header specified 0x%x bytes, but have 0x%x" *)
| CannotRun (code : Z)                (* "mtp: cannot run operation %v, device is not open" *)
| ErrEOF                              (* io.EOF *)
| ErrUnexpectedEOF                    (* io.ErrUnexpectedEOF *)
| DeviceNotOpen                       (* "device not open" *)
| AlreadyOpen                         (* "already open" *)
| FailedToOpen (e : usb_Error)        (* "failed to open: %w" *)
| FailedToClaim (e : usb_Error)       (* "failed to claim: %w" *)
| NoMTPExtensions (ext : string)      (* "mtp: no MTP extensions in '%s'" *)
| NoMTPInInterface.                   (* "has no MTP in interface string" *)

(** Modelled from the spec: the error types [SyncError] and [RCError] are
    declared outside device_direct.go; the spec's taxonomy has the
    "protocol desync", the "device-response error" carrying the response
    code, and the "transport fault", which is [usb.Error].  These are the
    dynamic types an [error] value has in this file. *)
Inductive error :=
| SyncError (m : sync_msg)
| RCError (code : Z)
| UsbError (e : usb_Error)
| PlainError (m : plain_msg)          (* fmt.Errorf, io errors *)
| OpeningAfterReset (e : error)       (* "opening after reset: %v" *)
| OpenSessionAfterReset (e : error).  (* "openSession after reset: %v" *)

Definition isSyncError (e : error) : bool :=
  match e with SyncError _ => true | _ => false end.

Definition isUsbError (e : error) : bool :=
  match e with UsbError _ => true | _ => false end.

(** [err == RCError(c)]. *)
Definition isRCError (c : Z) (err : option error) : bool :=
  match err with Some (RCError c') => c' =? c | _ => false end.

Definition isNil {A : Type} (o : option A) : bool :=
  match o with None => true | Some _ => false end.

(** Modelled from the spec: [NullWriter] is declared outside
    device_direct.go; its bytes are "discarded".  The other [io.Writer]
    here collects what it is given; neither fails. *)
Inductive Writer :=
| NullWriter
| Buffer (contents : list byte).

Definition Write (wr : Writer) (p : list byte) : Writer * Z * option error :=
  match wr with
  | NullWriter => (NullWriter, len p, None)
  | Buffer c => (Buffer (c ++ p), len p, None)
  end.

(** [io.Reader]: a source is the script of what its reads return.  Each
    entry is a burst of bytes with the error that comes with its last
    byte.  A read takes from the first burst what fits the buffer and
    returns the error once the burst is used up: a read may return fewer
    bytes than the buffer holds, bytes together with an error, or no byte
    and no error.  Past the last burst a read returns [io.EOF]. *)
Definition Reader := list (list byte * option error).

Definition Read (r : Reader) (k : Z) : list byte * Reader * option error :=
  match r with
  | [] => ([], [], Some (PlainError ErrEOF))
  | (c, e) :: tl =>
    if len c <=? k then (c, tl, e)
    else (take k c, (drop k c, e) :: tl, None)
  end.

(** A source over bytes held in memory ([bytes.Reader], [bytes.Buffer]):
    every read fills the buffer as far as bytes remain, and [io.EOF]
    comes once none does. *)
Definition fromBytes (b : list byte) : Reader :=
  match b with
  | [] => []
  | _ => [(b, None)]
  end.

(** A source that delivers the given bursts, one read at most for each,
    and then [io.EOF]. *)
Definition fromBursts (bs : list (list byte)) : Reader :=
  map (fun c => (c, None)) bs.

(** [io.CopyN(buf, r, n)] into a [bytes.Buffer]: the buffer reads from
    the source, through an [io.LimitedReader], until [n] bytes are in or
    a read returns an error; the bytes that come with the error are
    kept.  The bytes copied and the source as it is left; the error is
    overwritten by the caller. *)
Fixpoint CopyN (r : Reader) (n : Z) : list byte * Reader :=
  if n <=? 0 then ([], r)
  else
    match r with
    | [] => ([], [])
    | (c, e) :: tl =>
      if len c <=? n then
        match e with
        | Some _ => (c, tl)
        | None => let '(b, r') := CopyN tl (n - len c) in (c ++ b, r')
        end
      else (take n c, (drop n c, e) :: tl)
    end.

Inductive DeviceHandle := Handle.

Record Device := mkDevice {
  GetMaxPacketSize : Z -> Z
}.

Record InterfaceDescriptor := mkIface {
  InterfaceNumber : Z;
  InterfaceStringIndex : Z
}.

(** The fields of [DeviceDirect] that the modelled methods read or write
    ([devDescr], [eventEP], [configValue] and [Debug] are not among them). *)
Record DeviceDirect := mkDeviceDirect {
  h : option DeviceHandle;
  dev : Device;
  claimed : bool;
  ifaceDescr : InterfaceDescriptor;
  sendEP : Z;
  fetchEP : Z;
  Timeout : Z;
  SeparateHeader : bool;
  session : option sessionData
}.

Definition set_h (x : option DeviceHandle) (d : DeviceDirect) : DeviceDirect :=
  mkDeviceDirect x (dev d) (claimed d) (ifaceDescr d) (sendEP d) (fetchEP d)
                 (Timeout d) (SeparateHeader d) (session d).

Definition set_claimed (x : bool) (d : DeviceDirect) : DeviceDirect :=
  mkDeviceDirect (h d) (dev d) x (ifaceDescr d) (sendEP d) (fetchEP d)
                 (Timeout d) (SeparateHeader d) (session d).

Definition set_Timeout (x : Z) (d : DeviceDirect) : DeviceDirect :=
  mkDeviceDirect (h d) (dev d) (claimed d) (ifaceDescr d) (sendEP d) (fetchEP d)
                 x (SeparateHeader d) (session d).

Definition set_session (x : option sessionData) (d : DeviceDirect) : DeviceDirect :=
  mkDeviceDirect (h d) (dev d) (claimed d) (ifaceDescr d) (sendEP d) (fetchEP d)
                 (Timeout d) (SeparateHeader d) x.

Definition fetchMaxPacketSize (d : DeviceDirect) : Z :=
  GetMaxPacketSize (dev d) (fetchEP d).

Definition sendMaxPacketSize (d : DeviceDirect) : Z :=
  GetMaxPacketSize (dev d) (sendEP d).

(** ** The USB bus *)

(** What one bulk transfer on the fetch endpoint delivers: the bytes the
    device sent (cut to the buffer) and the status of the transfer. *)
Inductive in_reply := InData (data : list byte) (e : option usb_Error).

(** How one bulk transfer on the send endpoint ends: the whole buffer went
    out, or [n] bytes did, without or with an error. *)
Inductive out_reply :=
| OutOk
| OutShort (n : Z)
| OutFail (n : Z) (e : usb_Error).

(** The other calls into the USB library. *)
Inductive event :=
| EvDeviceOpen                  (* d.dev.Open() *)
| EvClaimInterface (iface : Z)  (* d.h.ClaimInterface *)
| EvReleaseInterface (iface : Z)(* d.h.ReleaseInterface *)
| EvReset                       (* d.h.Reset() *)
| EvHandleClose                 (* d.h.Close() *)
| EvGetStringDescriptor (idx : Z) (* d.h.GetStringDescriptorASCII *)
| EvSleep (ms : Z).             (* time.Sleep *)

(** The device and the bus as the engine sees them.  [ins] is what the
    successive reads deliver, and a read past its end times out;
    [out_policy i] is how the [i]-th write ends; [sent] lists the buffers
    written so far, oldest first; [ctl] answers the control calls from the
    calls made so far, which [events] lists, oldest first. *)
Record World := mkWorld {
  ins : list in_reply;
  out_policy : nat -> out_reply;
  sent : list (list byte);
  ctl : list event -> event -> option usb_Error;
  descr : Z -> string + usb_Error;
  events : list event
}.

Definition set_ins (x : list in_reply) (w : World) : World :=
  mkWorld x (out_policy w) (sent w) (ctl w) (descr w) (events w).

Definition set_sent (x : list (list byte)) (w : World) : World :=
  mkWorld (ins w) (out_policy w) x (ctl w) (descr w) (events w).

Definition set_events (x : list event) (w : World) : World :=
  mkWorld (ins w) (out_policy w) (sent w) (ctl w) (descr w) x.

(** ** The monad: state passing over the bus, with Go's panics *)

Inductive panic_reason :=
| NilHandle          (* a transfer on a nil *usb.DeviceHandle *)
| IndexOutOfRange    (* c.Param[i] with i >= 5 *)
| SliceBounds        (* make or a slice expression out of range *)
| DivideByZero.      (* x % 0 *)

(** How a call ends: it returns [a], or it panics; in both cases the bus
    is left as [w]. *)
Inductive outcome (A : Type) :=
| Done (a : A) (w : World)
| Panic (why : panic_reason) (w : World).

Arguments Done {A} a w.
Arguments Panic {A} why w.

Definition M (A : Type) : Type := World -> outcome A.

Definition ret {A : Type} (a : A) : M A := fun w => Done a w.

Definition bind {A B : Type} (m : M A) (k : A -> M B) : M B :=
  fun w => match m w with
           | Done a w' => k a w'
           | Panic why w' => Panic why w'
           end.

Definition panic {A : Type} (why : panic_reason) : M A := fun w => Panic why w.

Declare Scope go_scope.
Delimit Scope go_scope with go.
Notation "x <- m ;; k" := (bind m (fun x => k))
  (at level 61, m at next level, right associativity) : go_scope.
Notation "' pat <- m ;; k" := (bind m (fun x => match x with pat => k end))
  (at level 61, pat pattern, m at next level, right associativity) : go_scope.
Local Open Scope go_scope.

(** [d.h.BulkTransfer(d.sendEP, data, d.Timeout)]. *)
Definition BulkTransferOut (d : DeviceDirect) (data : list byte)
  : M (Z * option usb_Error) :=
  fun w =>
    match h d with
    | None => Panic NilHandle w
    | Some _ =>
      let w' := set_sent (sent w ++ [data]) w in
      match out_policy w (List.length (sent w)) with
      | OutOk => Done (len data, None) w'
      | OutShort n => Done (n, None) w'
      | OutFail n e => Done (n, Some e) w'
      end
    end.

(** The bytes and status of a read into a buffer of [size] bytes. *)
Definition deliver (size : Z) (r : in_reply) : list byte * option usb_Error :=
  match r with InData data e => (take size data, e) end.

(** [d.h.BulkTransfer(d.fetchEP, buf, d.Timeout)] for a buffer of [size]
    bytes; the count it returns is the length of the bytes delivered. *)
Definition BulkTransferIn (d : DeviceDirect) (size : Z)
  : M (list byte * option usb_Error) :=
  fun w =>
    match h d with
    | None => Panic NilHandle w
    | Some _ =>
      match ins w with
      | [] => Done ([], Some ERROR_TIMEOUT) w
      | r :: tl => Done (deliver size r) (set_ins tl w)
      end
    end.

(** A control call: its answer comes from [ctl], and it is logged. *)
Definition control (e : event) : M (option usb_Error) :=
  fun w => Done (ctl w (events w) e) (set_events (events w ++ [e]) w).

(** [d.h.GetStringDescriptorASCII(idx)]: answered by [descr], and
    logged. *)
Definition GetStringDescriptorASCII (idx : Z) : M (string + usb_Error) :=
  fun w => Done (descr w idx)
                (set_events (events w ++ [EvGetStringDescriptor idx]) w).

(** ** Container codec *)

(** [binary.Write(buf, binary.LittleEndian, hdr)]. *)
Definition writeHeader (hd : usbBulkHeader) : list byte :=
  PutUint32 (hLength hd) ++ PutUint16 (hType hd) ++
  PutUint16 (hCode hd) ++ PutUint32 (hTransactionID hd).

(** [binary.Write(buf, binary.LittleEndian, params)]. *)
Definition writeParams (ps : list Z) : list byte := flat_map PutUint32 ps.

(** [binary.Read(buf, binary.LittleEndian, header)]: the header and the
    bytes left in the buffer, or the error of a buffer that is too short
    (the header is then left as it was). *)
Definition readHeader (b : list byte) : error + (usbBulkHeader * list byte) :=
  if len b =? 0 then inl (PlainError ErrEOF)
  else if len b <? usbHdrLen then inl (PlainError ErrUnexpectedEOF)
  else inr (mkHeader (Uint32 b) (Uint16 (drop 4 b)) (Uint16 (drop 6 b))
                     (Uint32 (drop 8 b)),
            drop usbHdrLen b).

Definition zeroHeader : usbBulkHeader := mkHeader 0 0 0 0.
Definition zeroContainer : Container := mkContainer 0 0 0 [].

(** The buffer [sendReq] builds (lines 199-217). *)
Definition commandPacket (req : Container) : list byte :=
  writeHeader (mkHeader (uint32 (usbHdrLen + 4 * len (Param req)))
                        USB_CONTAINER_COMMAND (Code req) (TransactionID req))
  ++ writeParams (Param req).

(** [sendReq] (lines 198-225). [c.Param] is a [[5]uint32]: copying a sixth
    parameter into it panics. *)
Definition sendReq (d : DeviceDirect) (req : Container) : M (option error) :=
  if 5 <? len (Param req) then panic IndexOutOfRange
  else
    '(_, err) <- BulkTransferOut d (commandPacket req) ;;
    ret (option_map UsbError err).

(** [fetchPacket] (lines 229-244): the header read, the rest of the packet
    and the error.  On an error the header is the one passed in. *)
Definition fetchPacket (d : DeviceDirect) (header : usbBulkHeader)
  : M (usbBulkHeader * list byte * option error) :=
  '(got, err) <- BulkTransferIn d (fetchMaxPacketSize d) ;;
  match err with
  | Some e => ret (header, [], Some (UsbError e))
  | None =>
    match readHeader got with
    | inl e => ret (header, [], Some e)
    | inr (hd, rest) => ret (hd, rest, None)
    end
  end.

(** The loop of [decodeRep] (lines 260-262). *)
Definition decodeParams (rest : list byte) (nParam : Z) : list Z :=
  map (fun i => Uint32 (drop (4 * Z.of_nat i) rest)) (seq 0 (Z.to_nat nParam)).

(** [decodeRep] (lines 246-268): the response as far as it was filled in,
    and the error. *)
Definition decodeRep `{Constants} (hd : usbBulkHeader) (rest : list byte)
  (rep : Container) : Container * option error :=
  if negb (hType hd =? USB_CONTAINER_RESPONSE)
  then (rep, Some (SyncError (GotType (hType hd))))
  else
    let rep := mkContainer (hCode hd) (SessionID rep) (hTransactionID hd) (Param rep) in
    let restLen := hLength hd - usbHdrLen in
    if len rest <? restLen
    then (rep, Some (PlainError (HeaderSpecified restLen (len rest))))
    else
      let nParam := Z.quot restLen 4 in
      let rep := mkContainer (Code rep) (SessionID rep) (TransactionID rep)
                             (Param rep ++ decodeParams rest nParam) in
      if negb (Code rep =? RC_OK)
      then (rep, Some (RCError (Code rep)))
      else (rep, None).

(** ** Bulk reassembly *)

(** The loop of [bulkRead] (lines 485-507) over what the reads deliver:
    the sink, [n], [lastRead], [err] and the replies left.  The error of
    [w.Write] is declared in the scope of the [if] and does not reach the
    [err] that is returned. *)
Fixpoint bulkReadLoop `{Constants} (wr : Writer) (n : Z) (script : list in_reply)
  : Writer * Z * Z * option error * list in_reply :=
  match script with
  | [] => (wr, n, 0, Some (UsbError ERROR_TIMEOUT), [])
  | r :: tl =>
    let '(got, e) := deliver rwBufSize r in
    let lastRead := len got in
    match e with
    | Some e => (wr, n, lastRead, Some (UsbError e), tl)
    | None =>
      let '(wr', written, werr) :=
        if 0 <? lastRead then Write wr got else (wr, 0, None) in
      let n := n + written in
      match werr with
      | Some _ => (wr', n, lastRead, None, tl)
      | None =>
        if lastRead <? rwBufSize then (wr', n, lastRead, None, tl)
        else bulkReadLoop wr' n tl
      end
    end
  end.

(** [bulkRead] (lines 482-521): the sink, [n], [lastPacket] and [err]. *)
Definition bulkRead `{Constants} (d : DeviceDirect) (wr : Writer)
  : M (Writer * Z * list byte * option error) :=
  fun w =>
    match h d with
    | None => Panic NilHandle w
    | Some _ =>
      let '(wr', n, lastRead, err, tl) := bulkReadLoop wr 0 (ins w) in
      let w1 := set_ins tl w in
      let packetSize := fetchMaxPacketSize d in
      if packetSize =? 0 then Panic DivideByZero w1
      else if Z.rem lastRead packetSize =? 0 then
        match BulkTransferIn d rwBufSize w1 with
        | Done (got, e) w2 => Done (wr', n, got, option_map UsbError e) w2
        | Panic why w2 => Panic why w2
        end
      else Done (wr', n, [], err) w1
    end.

(** The loop of [bulkWrite] (lines 453-473): the reader, [n],
    [lastTransfer] and [err].  Every turn that does not leave the loop
    takes at least one byte or one entry from the source, so [size] turns
    and one for each entry are enough. *)
Fixpoint bulkWriteLoop `{Constants} (fuel : nat) (d : DeviceDirect) (size : Z)
  (r : Reader) (n lastTransfer : Z) (err : option error)
  : M (Reader * Z * Z * option error) :=
  match fuel with
  | O => ret (r, n, lastTransfer, err)
  | S fuel' =>
    if 0 <? size then
      let toread := if size <? rwBufSize then size else rwBufSize in
      let '(chunk, r', rerr) := Read r toread in
      match rerr with
      | Some e => ret (r', n, lastTransfer, Some e)
      | None =>
        let size := size - len chunk in
        '(lastTransfer, uerr) <- BulkTransferOut d chunk ;;
        let err := option_map UsbError uerr in
        let n := n + lastTransfer in
        if negb (isNil err) || (lastTransfer =? 0)
        then ret (r', n, lastTransfer, err)
        else bulkWriteLoop fuel' d size r' n lastTransfer err
      end
    else ret (r, n, lastTransfer, err)
  end.

(** The end of [bulkWrite] (lines 451-479). *)
Definition bulkWriteRest `{Constants} (d : DeviceDirect) (size : Z) (r : Reader)
  (n : Z) (err : option error) : M (Reader * Z * option error) :=
  '(r, n, lastTransfer, err) <-
    bulkWriteLoop (Z.to_nat size + List.length r) d size r n 0 err ;;
  let packetSize := sendMaxPacketSize d in
  if packetSize =? 0 then panic DivideByZero
  else if Z.rem lastTransfer packetSize =? 0 then
    _ <- BulkTransferOut d [] ;;
    ret (r, n, err)
  else ret (r, n, err).

(** The header as [bulkWrite] completes it (lines 420-424); the sum is
    an [int64]. *)
Definition dataHeader (hdr : usbBulkHeader) (size : Z) : usbBulkHeader :=
  let total := int64 (size + usbHdrLen) in
  mkHeader (if 4294967295 <? total then 4294967295 else uint32 total)
           (hType hdr) (hCode hdr) (hTransactionID hdr).

(** [bulkWrite] (lines 417-480): the reader, [n] and [err]. *)
Definition bulkWrite `{Constants} (d : DeviceDirect) (hdr : option usbBulkHeader)
  (r : Reader) (size : Z) : M (Reader * Z * option error) :=
  let packetSize := sendMaxPacketSize d in
  match hdr with
  | Some hdr =>
    let hdr := dataHeader hdr size in
    if packetSize <? 0 then panic SliceBounds
    else if SeparateHeader d && (packetSize <? usbHdrLen) then panic SliceBounds
    else
      let packetLen := if SeparateHeader d then usbHdrLen else packetSize in
      let cpSize := if size <? packetLen - usbHdrLen then size
                    else packetLen - usbHdrLen in
      let '(payload, r) := CopyN r cpSize in
      '(_, uerr) <- BulkTransferOut d (writeHeader hdr ++ payload) ;;
      match uerr with
      | Some e => ret (r, cpSize, Some (UsbError e))
      | None => bulkWriteRest d (size - cpSize) r cpSize None
      end
  | None => bulkWriteRest d size r 0 None
  end.

(** ** Transaction engine *)

(** Lines 320-339 of [runTransaction]: send the request, then the
    outgoing data if there is any.  The source as it is left, and the
    error on which the transaction returns. *)
Definition sendPhase `{Constants} (d : DeviceDirect) (req : Container)
  (src : option Reader) (writeSize : Z) : M (option Reader * option error) :=
  err <- sendReq d req ;;
  match err with
  | Some e => ret (src, Some e)
  | None =>
    match src with
    | Some r =>
      let hdr := mkHeader (uint32 writeSize) USB_CONTAINER_DATA (Code req)
                          (TransactionID req) in
      '(r, _, err) <- bulkWrite d (Some hdr) r writeSize ;;
      ret (Some r, err)
    | None => ret (None, None)
    end
  end.

(** What lines 340-382 of [runTransaction] leave: an early [return err],
    or the header and bytes handed to [decodeRep] with the
    [unexpectedData] flag; in both cases the caller's sink. *)
Inductive received :=
| Aborted (err : error) (dest : option Writer)
| Arrived (hd : usbBulkHeader) (rest : list byte) (unexpectedData : bool)
          (dest : option Writer).

(** Lines 362-369 of [runTransaction]: after a full first packet, read
    until a short read.  The sink, [finalPacket] and [err]. *)
Definition dataPhase `{Constants} (d : DeviceDirect) (wr : Writer)
  (rest : list byte) : M (Writer * list byte * option error) :=
  if len rest + usbHdrLen =? fetchMaxPacketSize d then
    '(wr, _, finalPacket, err) <- bulkRead d wr ;;
    ret (wr, finalPacket, err)
  else ret (wr, [], None).

(** Lines 340-382 of [runTransaction]: fetch the first packet and, when
    it is a DATA packet, read the data phase and find the response. *)
Definition receive `{Constants} (d : DeviceDirect) (dest : option Writer)
  : M received :=
  let fetchPacketSize := fetchMaxPacketSize d in
  if fetchPacketSize <? 0 then panic SliceBounds
  else
    '(hd, rest, err) <- fetchPacket d zeroHeader ;;
    match err with
    | Some e => ret (Aborted e dest)
    | None =>
      if hType hd =? USB_CONTAINER_DATA then
        let unexpectedData := isNil dest in
        let wr := match dest with Some wr => wr | None => NullWriter end in
        let keep (wr : Writer) :=
          if unexpectedData then None else Some wr in
        let '(wr, _, _) := Write wr rest in
        '(wr, finalPacket, err) <- dataPhase d wr rest ;;
        match err with
        | Some e => ret (Aborted e (keep wr))
        | None =>
          if 0 <? len finalPacket then
            let hd := match readHeader finalPacket with
                      | inr (hd, _) => hd
                      | inl _ => zeroHeader
                      end in
            ret (Arrived hd finalPacket unexpectedData (keep wr))
          else
            '(hd, rest, _) <- fetchPacket d zeroHeader ;;
            ret (Arrived hd rest unexpectedData (keep wr))
        end
      else ret (Arrived hd rest false dest)
    end.

(** Lines 384-400 of [runTransaction]: decode, and correlate. *)
Definition conclude `{Constants} (d : DeviceDirect) (req rep : Container)
  (hd : usbBulkHeader) (rest : list byte) (unexpectedData : bool)
  : Container * option error :=
  let '(rep, err) := decodeRep hd rest rep in
  if unexpectedData
  then (rep, Some (SyncError (UnexpectedData (Code req))))
  else
    match err with
    | Some e => (rep, Some e)
    | None =>
      if negb (isNil (session d))
         && negb (TransactionID rep =? TransactionID req)
      then (rep, Some (SyncError (TidMismatch (TransactionID rep)
                                               (TransactionID req))))
      else (mkContainer (Code rep) (SessionID req) (TransactionID rep)
                        (Param rep), None)
    end.

(** What a transaction leaves in the objects it was given, and its error. *)
Record txn := mkTxn {
  t_req : Container;
  t_rep : Container;
  t_dest : option Writer;
  t_src : option Reader;
  t_err : option error
}.

(** Lines 310-314 of [runTransaction]. *)
Definition assignIDs (d : DeviceDirect) (req : Container)
  : DeviceDirect * Container :=
  match session d with
  | Some s =>
    (set_session (Some (mkSession (uint32 (tid s + 1)) (sid s))) d,
     mkContainer (Code req) (sid s) (tid s) (Param req))
  | None => (d, req)
  end.

(** [runTransaction] (lines 307-401). *)
Definition runTransaction `{Constants} (d : DeviceDirect) (req rep : Container)
  (dest : option Writer) (src : option Reader) (writeSize : Z)
  : M (DeviceDirect * txn) :=
  let '(d, req) := assignIDs d req in
  '(src, err) <- sendPhase d req src writeSize ;;
  match err with
  | Some e => ret (d, mkTxn req rep dest src (Some e))
  | None =>
    x <- receive d dest ;;
    match x with
    | Aborted e dest => ret (d, mkTxn req rep dest src (Some e))
    | Arrived hd rest unexpectedData dest =>
      let '(rep, err) := conclude d req rep hd rest unexpectedData in
      ret (d, mkTxn req rep dest src err)
    end
  end.

(** [Close] (lines 51-82). *)
Definition Close `{Constants} (d : DeviceDirect) : M (DeviceDirect * option error) :=
  match h d with
  | None => ret (d, None)
  | Some _ =>
    d <- match session d with
         | Some _ =>
           let req := mkContainer OC_CloseSession 0 0 [] in
           '(d, t) <- runTransaction d req zeroContainer None None 0 ;;
           match t_err t with
           | Some _ => _ <- control EvReset ;; ret d
           | None => ret d
           end
         | None => ret d
         end ;;
    _ <- (if claimed d
          then control (EvReleaseInterface (InterfaceNumber (ifaceDescr d)))
          else ret None) ;;
    err <- control EvHandleClose ;;
    ret (set_h None d, option_map UsbError err)
  end.

(** [RunTransaction] (lines 287-303). *)
Definition RunTransaction `{Constants} (d : DeviceDirect) (req rep : Container)
  (dest : option Writer) (src : option Reader) (writeSize : Z)
  : M (DeviceDirect * txn) :=
  match h d with
  | None =>
    ret (d, mkTxn req rep dest src (Some (PlainError (CannotRun (Code req)))))
  | Some _ =>
    '(d, t) <- runTransaction d req rep dest src writeSize ;;
    match t_err t with
    | Some e =>
      if isUsbError e || isSyncError e
      then '(d, _) <- Close d ;; ret (d, t)
      else ret (d, t)
    | None => ret (d, t)
    end
  end.

(** ** Session set-up *)

(** The methods of [DeviceDirect] that device_direct.go calls and another
    file of the package defines.  [GetDeviceInfo] yields the
    [MTPExtension] field of the info it fills in. *)
Class SessionOps := {
  OpenSession : DeviceDirect -> M (DeviceDirect * option error);
  CloseSession : DeviceDirect -> M (DeviceDirect * option error);
  GetDeviceInfo : DeviceDirect -> M (DeviceDirect * string)
}.

(** [strings.Contains(s, sub)]. *)
Definition Contains (s sub : string) : bool :=
  match String.index 0 sub s with Some _ => true | None => false end.

(** [claim] (lines 91-106). *)
Definition claim (d : DeviceDirect) : M (DeviceDirect * option error) :=
  match h d with
  | None => ret (d, Some (PlainError DeviceNotOpen))
  | Some _ =>
    err <- control (EvClaimInterface (InterfaceNumber (ifaceDescr d))) ;;
    match err with
    | Some e => ret (d, Some (PlainError (FailedToClaim e)))
    | None => ret (set_claimed true d, None)
    end
  end.

(** [Open] (lines 109-155).  The second wrapping of the error of [claim]
    repeats the first and is not modelled. *)
Definition Open `{Constants} `{SessionOps} (d : DeviceDirect)
  : M (DeviceDirect * option error) :=
  let d := if Timeout d =? 0 then set_Timeout 2000 d else d in
  match h d with
  | Some _ => ret (d, Some (PlainError AlreadyOpen))
  | None =>
    err <- control EvDeviceOpen ;;
    match err with
    | Some e => ret (set_h None d, Some (PlainError (FailedToOpen e)))
    | None =>
      let d := set_h (Some Handle) d in
      '(d, err) <- claim d ;;
      match err with
      | Some e => ret (d, Some e)
      | None =>
        if InterfaceStringIndex (ifaceDescr d) =? 0 then
          '(d, ext) <- GetDeviceInfo d ;;
          if negb (Contains ext "icrosoft") then
            '(d, _) <- Close d ;;
            ret (d, Some (PlainError (NoMTPExtensions ext)))
          else ret (d, None)
        else
          iface <- GetStringDescriptorASCII (InterfaceStringIndex (ifaceDescr d)) ;;
          match iface with
          | inr e => '(d, _) <- Close d ;; ret (d, Some (UsbError e))
          | inl s =>
            if negb (Contains s "MTP") then
              '(d, _) <- Close d ;;
              ret (d, Some (PlainError NoMTPInInterface))
            else ret (d, None)
          end
      end
    end
  end.

(** [Configure] (lines 525-557). *)
Definition Configure `{Constants} `{SessionOps} (d : DeviceDirect)
  : M (DeviceDirect * option error) :=
  '(d, err) <- (if isNil (h d) then Open d else ret (d, None)) ;;
  match err with
  | Some e => ret (d, Some e)
  | None =>
    '(d, err) <- OpenSession d ;;
    '(d, err) <-
      (if isRCError RC_SessionAlreadyOpened err then
         '(d, _) <- CloseSession d ;;
         OpenSession d
       else ret (d, err)) ;;
    match err with
    | Some _ =>
      _ <- (if negb (isNil (h d)) then control EvReset else ret None) ;;
      '(d, _) <- Close d ;;
      _ <- control (EvSleep 1000) ;;
      '(d, err) <- Open d ;;
      match err with
      | Some e => ret (d, Some (OpeningAfterReset e))
      | None =>
        '(d, err) <- OpenSession d ;;
        match err with
        | Some e => ret (d, Some (OpenSessionAfterReset e))
        | None => ret (d, None)
        end
      end
    | None => ret (d, None)
    end
  end.

(** [ready d req src]: the transaction meets no run-time panic: the handle
    is open, the request fits [c.Param], and the packet sizes the slices
    and remainders are taken with are in range. *)
Definition ready (d : DeviceDirect) (req : Container) (src : option Reader) : bool :=
  negb (isNil (h d)) && (len (Param req) <=? 5) && (0 <? fetchMaxPacketSize d)
  && match src with
     | None => true
     | Some _ =>
       (0 <? sendMaxPacketSize d)
       && (negb (SeparateHeader d) || (usbHdrLen <=? sendMaxPacketSize d))
     end.

(** The fields of a request are within their Go types. *)
Definition wellFormed (req : Container) : Prop :=
  0 <= Code req < 2 ^ 16 /\ 0 <= TransactionID req < 2 ^ 32 /\
  Forall (fun p => 0 <= p < 2 ^ 32) (Param req).

(** What the bulk transfers leave alone: the control side of the bus and
    the write policy; the log of writes only grows. *)
Definition extends (w w' : World) : Prop :=
  out_policy w' = out_policy w /\ ctl w' = ctl w /\ descr w' = descr w /\
  events w' = events w /\ exists more, sent w' = sent w ++ more.

(** The exchange of a transaction, after the ids are assigned: the
    request and the outgoing data went out, and the receive phase handed
    [hd] and [rest] to [decodeRep], with the flag [unexpectedData]. *)
Definition answers `{Constants} (d : DeviceDirect) (req : Container)
  (dest : option Writer) (src : option Reader) (writeSize : Z) (w : World)
  (hd : usbBulkHeader) (rest : list byte) (unexpectedData : bool)
  (dest' : option Writer) (src' : option Reader) (w' : World) : Prop :=
  exists w1,
    sendPhase (fst (assignIDs d req)) (snd (assignIDs d req)) src writeSize w
      = Done (src', None) w1 /\
    receive (fst (assignIDs d req)) dest w1
      = Done (Arrived hd rest unexpectedData dest') w'.

(** What the writes leave alone besides: the replies still to be read. *)
Definition writes (w w' : World) : Prop := extends w w' /\ ins w' = ins w.

(** [m] ends without a panic, in a world that [R] relates to the first. *)
Definition ends {A : Type} (R : World -> World -> Prop) (m : M A) : Prop :=
  forall w, exists a w', m w = Done a w' /\ R w w'.

(** Whenever [m] ends, it does in a world that [R] relates to the first. *)
Definition frames {A : Type} (R : World -> World -> Prop) (m : M A) : Prop :=
  forall w a w', m w = Done a w' -> R w w'.

(** How a data phase shows in the reads that follow its first packet, of
    which [rest] is the payload.  After a first packet that does not fill
    the fetch packet size: no read.  After one that does: the reads that
    fill the scratch buffer, the shorter read that ends them (an empty one
    included) and, when the device sends one after a read whose length is
    a multiple of the packet size, a zero-length packet. *)
Definition dataReads `{Constants} (d : DeviceDirect) (rest : list byte)
  (phase : list (list byte)) : Prop :=
  if len rest + usbHdrLen =? fetchMaxPacketSize d then
    exists fulls short,
      Forall (fun f => len f = rwBufSize) fulls /\ len short < rwBufSize /\
      (phase = fulls ++ [short] \/
       Z.rem (len short) (fetchMaxPacketSize d) = 0 /\
       phase = fulls ++ [short; []])
  else phase = [].

(** ** Concrete runs *)

(** The PTP values of the constants, and the scratch size 0x4000. *)
Definition ptp : Constants :=
  {| RC_OK := 8193;                    (* 0x2001 *)
     RC_SessionAlreadyOpened := 8222;  (* 0x201E *)
     OC_CloseSession := 4099;          (* 0x1003 *)
     rwBufSize := 16384;
     rwBufSize_pos := eq_refl |}.

(** An open high-speed device (512-byte bulk packets), with and without a
    session whose counter stands at 7. *)
Definition dev512 : Device := mkDevice (fun _ => 512).

Definition openDevice : DeviceDirect :=
  mkDeviceDirect (Some Handle) dev512 true (mkIface 0 5) 1 129 2000 false None.

Definition inSession : DeviceDirect :=
  set_session (Some (mkSession 7 99)) openDevice.

(** The same session with its counter at the last [uint32]. *)
Definition atLastId : DeviceDirect :=
  set_session (Some (mkSession 4294967295 99)) openDevice.

(** A bus on which every write goes through and the reads deliver [rs]. *)
Definition bus (rs : list in_reply) : World :=
  mkWorld rs (fun _ => OutOk) [] (fun _ _ => None) (fun _ => inl "MTP"%string) [].

(** A packet of the given type, code and transaction id with its
    parameters, as the device puts it on the wire. *)
Definition packet (ty code tr : Z) (ps : list Z) : list byte :=
  writeHeader (mkHeader (usbHdrLen + 4 * len ps) ty code tr) ++ writeParams ps.

Definition zeros (n : nat) : list byte := repeat Byte.x00 n.

(** A request for GetStorageIDs (0x1004). *)
Definition getStorageIDs : Container := mkContainer 4100 0 0 [].

(** A successful read of the given bytes. *)
Definition got (b : list byte) : in_reply := InData b None.

(** Responses to transaction 7, and to a stale transaction 5: OK (0x2001)
    and GeneralError (0x2002). *)
Definition okFor (tr : Z) : list byte := packet USB_CONTAINER_RESPONSE 8193 tr [].
Definition failFor (tr : Z) : list byte := packet USB_CONTAINER_RESPONSE 8194 tr [].

(** A short DATA packet with four bytes of payload. *)
Definition smallData : list byte := packet USB_CONTAINER_DATA 4100 7 [1].

(** A full first DATA packet: the header and 500 bytes of a payload of
    [n] bytes. *)
Definition fullData (n : Z) : list byte :=
  writeHeader (mkHeader (usbHdrLen + n) USB_CONTAINER_DATA 4100 7) ++ zeros 500.

(** An OK response to transaction 7 with the parameter 42. *)
Definition okWith42 : list byte := packet USB_CONTAINER_RESPONSE 8193 7 [42].

(** Session operations to run [Configure] with: OpenSession (0x1002)
    through [runTransaction], starting the counter at 1 on success, and
    CloseSession (0x1003) through [RunTransaction]. *)
Definition simpleOps : SessionOps :=
  {| OpenSession := fun d =>
       '(d, t) <- runTransaction (H := ptp) d (mkContainer 4098 0 0 [1])
                                 zeroContainer None None 0 ;;
       match t_err t with
       | Some e => ret (d, Some e)
       | None => ret (set_session (Some (mkSession 1 1)) d, None)
       end;
     CloseSession := fun d =>
       '(d, t) <- RunTransaction (H := ptp) d (mkContainer 4099 0 0 [])
                                 zeroContainer None None 0 ;;
       ret (set_session None d, t_err t);
     GetDeviceInfo := fun d => ret (d, "microsoft.com: 1.0"%string) |}.

(** The device says SessionAlreadyOpened (0x201E), accepts the
    CloseSession, then accepts the OpenSession. *)
Definition staleSession : World :=
  bus [got (packet USB_CONTAINER_RESPONSE 8222 0 []); got (okFor 0); got (okFor 0)].

(** The DATA header [runTransaction] hands to [bulkWrite] for a
    SendObject (0x100D) in transaction 7. *)
Definition sendObjectHeader (writeSize : Z) : usbBulkHeader :=
  mkHeader (uint32 writeSize) USB_CONTAINER_DATA 4109 7.


(** ** The remaining callers *)

(** [RunTransactionWithNoParams] (lines 270-275). *)
Definition RunTransactionWithNoParams `{Constants} (d : DeviceDirect) (code : Z)
  : M (DeviceDirect * option error) :=
  let req := mkContainer code 0 0 [] in
  '(d, t) <- RunTransaction d req zeroContainer None None 0 ;;
  ret (d, t_err t).

(** Whether [RunTransaction] closes the connection on this error
    (lines 294-299). *)
Definition fatal (err : option error) : bool :=
  match err with
  | Some e => isUsbError e || isSyncError e
  | None => false
  end.

(** The request [Close] sends while a session is open (lines 57-58). *)
Definition closeSessionRequest `{Constants} : Container :=
  mkContainer OC_CloseSession 0 0 [].

(** More runs: a device that was never opened, one whose interface is not
    claimed, and buses whose control calls fail. *)
Definition closedDevice : DeviceDirect := set_h None openDevice.

Definition claimFails (e : usb_Error) : World :=
  mkWorld [] (fun _ => OutOk) []
          (fun _ ev => match ev with EvClaimInterface _ => Some e | _ => None end)
          (fun _ => inl "MTP"%string) [].

Definition withDescr (s : string + usb_Error) : World :=
  mkWorld [] (fun _ => OutOk) [] (fun _ _ => None) (fun _ => s) [].

(** A read that fills the scratch buffer of 0x4000 bytes. *)
Definition fullRead : list byte := zeros (Z.to_nat 16384).



(** [m] makes no bulk write and no control call. *)
Definition silent (w w' : World) : Prop :=
  sent w' = sent w /\ events w' = events w.

(** * Properties *)

(** ** Little-endian words *)

Lemma Z_of_byte_range (b : byte) : 0 <= Z_of_byte b < 256.
Proof.
  unfold Z_of_byte. pose proof (Byte.to_N_bounded b). lia.
Qed.

Lemma land_255_range (v : Z) : 0 <= Z.land v 255 < 256.
Proof.
  change 255 with (Z.ones 8). rewrite Z.land_ones by lia.
  apply Z.mod_pos_bound. reflexivity.
Qed.

Lemma Z_of_byte_of_Z (v : Z) : Z_of_byte (byte_of_Z v) = Z.land v 255.
Proof.
  unfold Z_of_byte, byte_of_Z. pose proof (land_255_range v) as R.
  destruct (Byte.of_N (Z.to_N (Z.land v 255))) as [b|] eqn:E.
  - apply Byte.to_of_N in E. rewrite E. lia.
  - apply Byte.of_N_None_iff in E. lia.
Qed.

Lemma testbit_255 (k : Z) : Z.testbit 255 k = (0 <=? k) && (k <? 8).
Proof.
  change 255 with (Z.ones 8). apply Z.testbit_ones. lia.
Qed.

Lemma testbit_above (v n k : Z) :
  0 <= v < 2 ^ n -> 0 <= n <= k -> Z.testbit v k = false.
Proof.
  intros Hv Hk. destruct (Z.eq_dec v 0) as [->|Hz]; [apply Z.bits_0|].
  apply Z.bits_above_log2; [lia|].
  assert (Z.log2 v < n) by (apply Z.log2_lt_pow2; lia). lia.
Qed.

Ltac bits_in_range :=
  repeat match goal with
         | |- context [?a <=? ?b] => destruct (Z.leb_spec a b); try lia
         | |- context [?a <? ?b] => destruct (Z.ltb_spec a b); try lia
         end.

Lemma Uint16_PutUint16 (v : Z) (l : list byte) :
  0 <= v < 2 ^ 16 -> Uint16 (PutUint16 v ++ l) = v.
Proof.
  intros Hv. unfold Uint16, PutUint16, at_. cbn [app nth].
  rewrite !Z_of_byte_of_Z. apply Z.bits_inj'. intros k Hk.
  rewrite Z.lor_spec, Z.shiftl_spec, !Z.land_spec, !testbit_255 by lia.
  destruct (Z.ltb_spec k 8).
  - rewrite (Z.testbit_neg_r _ (k - 8)) by lia.
    bits_in_range; cbn; rewrite ?andb_true_r, ?orb_false_r; reflexivity.
  - rewrite Z.shiftr_spec by lia. replace (k - 8 + 8) with k by lia.
    destruct (Z.ltb_spec k 16).
    + bits_in_range; cbn; rewrite ?andb_true_r, ?andb_false_r; reflexivity.
    + rewrite (testbit_above v 16 k) by lia. reflexivity.
Qed.

Lemma Uint32_PutUint32 (v : Z) (l : list byte) :
  0 <= v < 2 ^ 32 -> Uint32 (PutUint32 v ++ l) = v.
Proof.
  intros Hv. unfold Uint32, PutUint32, at_. cbn [app nth].
  rewrite !Z_of_byte_of_Z. apply Z.bits_inj'. intros k Hk.
  rewrite !Z.lor_spec, !Z.shiftl_spec, !Z.land_spec, !testbit_255 by lia.
  destruct (Z.ltb_spec k 8).
  { rewrite (Z.testbit_neg_r _ (k - 8)), (Z.testbit_neg_r _ (k - 16)),
      (Z.testbit_neg_r _ (k - 24)) by lia.
    bits_in_range; cbn; rewrite ?andb_true_r, ?orb_false_r; reflexivity. }
  destruct (Z.ltb_spec k 16).
  { rewrite (Z.testbit_neg_r _ (k - 16)), (Z.testbit_neg_r _ (k - 24)) by lia.
    rewrite Z.shiftr_spec by lia. replace (k - 8 + 8) with k by lia.
    bits_in_range; cbn; rewrite ?andb_true_r, ?andb_false_r, ?orb_false_r;
      reflexivity. }
  destruct (Z.ltb_spec k 24).
  { rewrite (Z.testbit_neg_r _ (k - 24)) by lia.
    rewrite !Z.shiftr_spec by lia. replace (k - 16 + 16) with k by lia.
    bits_in_range; cbn; rewrite ?andb_true_r, ?andb_false_r, ?orb_false_r;
      reflexivity. }
  rewrite !Z.shiftr_spec by lia. replace (k - 24 + 24) with k by lia.
  destruct (Z.ltb_spec k 32).
  - bits_in_range; cbn; rewrite ?andb_true_r, ?andb_false_r, ?orb_false_r;
      reflexivity.
  - rewrite (testbit_above v 32 k) by lia.
    rewrite (testbit_above v 32 (k - 8 + 8)), (testbit_above v 32 (k - 16 + 16))
      by lia.
    reflexivity.
Qed.

(** ** Container codec *)

Lemma len_app {A : Type} (l l' : list A) : len (l ++ l') = len l + len l'.
Proof. unfold len. rewrite length_app. lia. Qed.

Lemma len_nonneg {A : Type} (l : list A) : 0 <= len l.
Proof. unfold len. lia. Qed.

Lemma len_writeParams (ps : list Z) : len (writeParams ps) = 4 * len ps.
Proof.
  induction ps as [|p ps IH]; [reflexivity|].
  change (writeParams (p :: ps)) with (PutUint32 p ++ writeParams ps).
  rewrite len_app, IH. unfold len. cbn [List.length PutUint32]. lia.
Qed.

Lemma len_writeHeader (hd : usbBulkHeader) : len (writeHeader hd) = usbHdrLen.
Proof. reflexivity. Qed.

Lemma readHeader_writeHeader (hd : usbBulkHeader) (rest : list byte) :
  0 <= hLength hd < 2 ^ 32 -> 0 <= hType hd < 2 ^ 16 ->
  0 <= hCode hd < 2 ^ 16 -> 0 <= hTransactionID hd < 2 ^ 32 ->
  readHeader (writeHeader hd ++ rest) = inr (hd, rest).
Proof.
  intros HL HT HC HI. unfold readHeader.
  rewrite len_app, len_writeHeader.
  pose proof (len_nonneg rest) as Hr. unfold usbHdrLen.
  destruct (Z.eqb_spec (12 + len rest) 0); [lia|].
  destruct (Z.ltb_spec (12 + len rest) 12); [lia|].
  destruct hd as [L T C I]. cbn [hLength hType hCode hTransactionID] in *.
  unfold writeHeader. cbn [hLength hType hCode hTransactionID].
  rewrite <- !app_assoc.
  rewrite (Uint32_PutUint32 L) by assumption.
  change (drop 4 (PutUint32 L ++ PutUint16 T ++ PutUint16 C ++ PutUint32 I ++ rest))
    with (PutUint16 T ++ PutUint16 C ++ PutUint32 I ++ rest).
  change (drop 6 (PutUint32 L ++ PutUint16 T ++ PutUint16 C ++ PutUint32 I ++ rest))
    with (PutUint16 C ++ PutUint32 I ++ rest).
  change (drop 8 (PutUint32 L ++ PutUint16 T ++ PutUint16 C ++ PutUint32 I ++ rest))
    with (PutUint32 I ++ rest).
  change (drop 12 (PutUint32 L ++ PutUint16 T ++ PutUint16 C ++ PutUint32 I ++ rest))
    with rest.
  rewrite (Uint16_PutUint16 T), (Uint16_PutUint16 C), (Uint32_PutUint32 I)
    by assumption.
  reflexivity.
Qed.

Lemma drop_past_word (i : nat) (p : Z) (l : list byte) :
  drop (4 * Z.of_nat (S i)) (PutUint32 p ++ l) = drop (4 * Z.of_nat i) l.
Proof.
  unfold drop.
  replace (Z.to_nat (4 * Z.of_nat (S i))) with (4 + Z.to_nat (4 * Z.of_nat i))%nat
    by lia.
  reflexivity.
Qed.

Lemma decodeParams_writeParams (ps : list Z) (tl : list byte) :
  Forall (fun p => 0 <= p < 2 ^ 32) ps ->
  decodeParams (writeParams ps ++ tl) (len ps) = ps.
Proof.
  unfold decodeParams, len. rewrite Nat2Z.id.
  induction 1 as [|p ps Hp _ IH]; [reflexivity|].
  change (writeParams (p :: ps)) with (PutUint32 p ++ writeParams ps).
  cbn [List.length seq map]. rewrite <- app_assoc. f_equal.
  - change (drop (4 * Z.of_nat 0) ?l) with l. apply Uint32_PutUint32, Hp.
  - rewrite <- seq_shift, map_map. rewrite <- IH at 2.
    apply map_ext. intros i. now rewrite drop_past_word.
Qed.

(** C8. For a request with at most five parameters, [sendReq] writes one
    buffer, the command packet: a little-endian header whose length field
    is [12 + 4k], whose type is COMMAND and whose code and transaction id
    are the request's, followed by exactly the [k] parameter words in
    order. *)
Theorem sendReq_command_packet (d : DeviceDirect) (req : Container) (w : World) :
  isNil (h d) = false ->
  len (Param req) <= 5 ->
  wellFormed req ->
  (exists err,
      sendReq d req w = Done err (set_sent (sent w ++ [commandPacket req]) w)) /\
  len (commandPacket req) = 12 + 4 * len (Param req) /\
  readHeader (commandPacket req) =
    inr (mkHeader (12 + 4 * len (Param req)) USB_CONTAINER_COMMAND
                  (Code req) (TransactionID req),
         writeParams (Param req)) /\
  len (writeParams (Param req)) = 4 * len (Param req) /\
  decodeParams (writeParams (Param req)) (len (Param req)) = Param req.
Proof.
  intros Hh Hk (HC & HT & HP).
  pose proof (len_nonneg (Param req)) as Hk0.
  assert (HL : uint32 (usbHdrLen + 4 * len (Param req)) = 12 + 4 * len (Param req)).
  { unfold uint32, usbHdrLen. apply Z.mod_small. lia. }
  repeat split.
  - unfold sendReq. destruct (Z.ltb_spec 5 (len (Param req))); [lia|].
    unfold bind, BulkTransferOut, ret.
    destruct (h d); [|discriminate].
    destruct (out_policy w (List.length (sent w))); eauto.
  - unfold commandPacket. rewrite len_app, len_writeHeader, len_writeParams.
    reflexivity.
  - unfold commandPacket. rewrite HL.
    apply readHeader_writeHeader; cbn [hLength hType hCode hTransactionID];
      unfold USB_CONTAINER_COMMAND; lia.
  - apply len_writeParams.
  - rewrite <- (app_nil_r (writeParams (Param req))).
    apply decodeParams_writeParams, HP.
Qed.

Lemma sendReq_command_packet_witness :
  let req := mkContainer 4100 99 7 [65537; 2] in
  len (Param req) <= 5 /\
  readHeader (commandPacket req) =
    inr (mkHeader 20 USB_CONTAINER_COMMAND 4100 7, writeParams [65537; 2]).
Proof.
  cbv zeta. split; [vm_compute; discriminate|].
  apply (sendReq_command_packet openDevice
           (mkContainer 4100 99 7 [65537; 2]) (bus [])).
  - reflexivity.
  - vm_compute. discriminate.
  - unfold wellFormed. cbn [Code TransactionID Param].
    repeat split; try lia. repeat constructor; lia.
Defined.

(** ** The transfers end, and leave the control side of the bus alone *)

Lemma extends_refl (w : World) : extends w w.
Proof.
  repeat split. exists []. now rewrite app_nil_r.
Qed.

Lemma extends_trans (w1 w2 w3 : World) :
  extends w1 w2 -> extends w2 w3 -> extends w1 w3.
Proof.
  intros (P1 & C1 & D1 & E1 & m1 & S1) (P2 & C2 & D2 & E2 & m2 & S2).
  repeat split; try congruence.
  exists (m1 ++ m2). rewrite S2, S1. now rewrite app_assoc.
Qed.

Lemma writes_refl (w : World) : writes w w.
Proof. split; [apply extends_refl|reflexivity]. Qed.

Lemma writes_trans (w1 w2 w3 : World) :
  writes w1 w2 -> writes w2 w3 -> writes w1 w3.
Proof.
  intros [X1 I1] [X2 I2]. split; [eapply extends_trans; eassumption|congruence].
Qed.

Lemma extends_set_ins (x : list in_reply) (w : World) : extends w (set_ins x w).
Proof.
  repeat split. exists []. cbn. now rewrite app_nil_r.
Qed.

Lemma writes_set_sent (data : list byte) (w : World) :
  writes w (set_sent (sent w ++ [data]) w).
Proof.
  repeat split. now exists [data].
Qed.

Section Ends.
Context (R : World -> World -> Prop).
Hypothesis R_refl : forall w, R w w.
Hypothesis R_trans : forall w1 w2 w3, R w1 w2 -> R w2 w3 -> R w1 w3.

Lemma ends_ret {A : Type} (a : A) : ends R (ret a).
Proof.
  intros w. exists a, w. split; [reflexivity|apply R_refl].
Qed.

Lemma ends_bind {A B : Type} (m : M A) (k : A -> M B) :
  ends R m -> (forall a, ends R (k a)) -> ends R (bind m k).
Proof.
  intros Hm Hk w. destruct (Hm w) as (a & w1 & E1 & X1).
  destruct (Hk a w1) as (b & w2 & E2 & X2).
  exists b, w2. unfold bind. rewrite E1. split; [exact E2|].
  eapply R_trans; eassumption.
Qed.
End Ends.

Lemma ends_writes_extends {A : Type} (m : M A) : ends writes m -> ends extends m.
Proof.
  intros Hm w. destruct (Hm w) as (a & w' & E & X & _). now exists a, w'.
Qed.

Ltac ret_ends :=
  first [ apply (ends_ret writes writes_refl)
        | apply (ends_ret extends extends_refl) ].

Ltac bind_ends :=
  first [ apply (ends_bind writes writes_trans)
        | apply (ends_bind extends extends_trans) ].

Lemma bind_Done {A B : Type} (m : M A) (k : A -> M B) (w w1 : World) (a : A) :
  m w = Done a w1 -> bind m k w = k a w1.
Proof.
  intros E. unfold bind. now rewrite E.
Qed.

Lemma ends_BulkTransferOut (d : DeviceDirect) (data : list byte) :
  isNil (h d) = false -> ends writes (BulkTransferOut d data).
Proof.
  intros Hh w. unfold BulkTransferOut.
  destruct (h d); [|discriminate].
  destruct (out_policy w (List.length (sent w)));
    eexists; eexists; (split; [reflexivity|apply writes_set_sent]).
Qed.

Lemma ends_BulkTransferIn (d : DeviceDirect) (size : Z) :
  isNil (h d) = false -> ends extends (BulkTransferIn d size).
Proof.
  intros Hh w. unfold BulkTransferIn.
  destruct (h d); [|discriminate].
  destruct (ins w) as [|r tl]; eexists; eexists.
  - split; [reflexivity|apply extends_refl].
  - split; [reflexivity|apply extends_set_ins].
Qed.

Lemma sendReq_Done (d : DeviceDirect) (req : Container) (w : World) :
  isNil (h d) = false -> len (Param req) <= 5 ->
  exists err,
    sendReq d req w = Done err (set_sent (sent w ++ [commandPacket req]) w).
Proof.
  intros Hh Hk. unfold sendReq.
  destruct (Z.ltb_spec 5 (len (Param req))); [lia|].
  unfold bind, BulkTransferOut, ret.
  destruct (h d); [|discriminate].
  destruct (out_policy w (List.length (sent w))); eauto.
Qed.

Lemma ends_fetchPacket (d : DeviceDirect) (hd : usbBulkHeader) :
  isNil (h d) = false -> ends extends (fetchPacket d hd).
Proof.
  intros Hh. unfold fetchPacket.
  bind_ends; [now apply ends_BulkTransferIn|].
  intros [got [e|]]; [ret_ends|].
  destruct (readHeader got) as [e|[hd' rest]]; ret_ends.
Qed.

Lemma ends_bulkRead `{Constants} (d : DeviceDirect) (wr : Writer) :
  isNil (h d) = false -> fetchMaxPacketSize d <> 0 ->
  ends extends (bulkRead d wr).
Proof.
  intros Hh Hp w. unfold bulkRead.
  destruct (h d) eqn:Eh; [|discriminate].
  destruct (bulkReadLoop wr 0 (ins w)) as [[[[wr' n] lastRead] err] tl].
  destruct (Z.eqb_spec (fetchMaxPacketSize d) 0); [contradiction|].
  destruct (Z.rem lastRead (fetchMaxPacketSize d) =? 0).
  - destruct (ends_BulkTransferIn d rwBufSize) with (w := set_ins tl w)
      as ([got e] & w2 & E & X); [now rewrite Eh|].
    rewrite E. eexists; eexists. split; [reflexivity|].
    eapply extends_trans; [apply extends_set_ins|exact X].
  - eexists; eexists. split; [reflexivity|apply extends_set_ins].
Qed.

Lemma ends_bulkWriteLoop `{Constants} (fuel : nat) (d : DeviceDirect) :
  isNil (h d) = false ->
  forall size r n lastTransfer err,
    ends writes (bulkWriteLoop fuel d size r n lastTransfer err).
Proof.
  intros Hh. induction fuel as [|fuel IH]; intros size r n lastTransfer err.
  - ret_ends.
  - cbn [bulkWriteLoop]. destruct (0 <? size); [|ret_ends].
    destruct (Read r _) as [[chunk r'] [e|]]; [ret_ends|].
    bind_ends; [now apply ends_BulkTransferOut|].
    intros [lt uerr].
    destruct (negb (isNil (option_map UsbError uerr)) || (lt =? 0));
      [ret_ends|apply IH].
Qed.

Lemma ends_bulkWriteRest `{Constants} (d : DeviceDirect) (size : Z) (r : Reader)
  (n : Z) (err : option error) :
  isNil (h d) = false -> sendMaxPacketSize d <> 0 ->
  ends writes (bulkWriteRest d size r n err).
Proof.
  intros Hh Hp. unfold bulkWriteRest.
  bind_ends; [now apply ends_bulkWriteLoop|].
  intros [[[r' n'] lt] err'].
  destruct (Z.eqb_spec (sendMaxPacketSize d) 0); [contradiction|].
  destruct (Z.rem lt (sendMaxPacketSize d) =? 0); [|ret_ends].
  bind_ends; [now apply ends_BulkTransferOut|]. intros _. ret_ends.
Qed.

Lemma ends_bulkWrite `{Constants} (d : DeviceDirect) (hdr : option usbBulkHeader)
  (r : Reader) (size : Z) :
  isNil (h d) = false -> 0 < sendMaxPacketSize d ->
  (SeparateHeader d = true -> usbHdrLen <= sendMaxPacketSize d) ->
  ends writes (bulkWrite d hdr r size).
Proof.
  intros Hh Hp Hs. unfold bulkWrite.
  destruct hdr as [hdr|]; [|apply ends_bulkWriteRest; [assumption|lia]].
  destruct (Z.ltb_spec (sendMaxPacketSize d) 0); [lia|].
  destruct (SeparateHeader d) eqn:Es; cbn [andb].
  - destruct (Z.ltb_spec (sendMaxPacketSize d) usbHdrLen);
      [specialize (Hs eq_refl); lia|].
    destruct (CopyN r _) as [payload r'].
    bind_ends; [now apply ends_BulkTransferOut|].
    intros [m [e|]]; [ret_ends|].
    apply ends_bulkWriteRest; [assumption|lia].
  - destruct (CopyN r _) as [payload r'].
    bind_ends; [now apply ends_BulkTransferOut|].
    intros [m [e|]]; [ret_ends|].
    apply ends_bulkWriteRest; [assumption|lia].
Qed.

Lemma ready_inv (d : DeviceDirect) (req : Container) (src : option Reader) :
  ready d req src = true ->
  isNil (h d) = false /\ len (Param req) <= 5 /\ 0 < fetchMaxPacketSize d /\
  (src <> None ->
   0 < sendMaxPacketSize d /\
   (SeparateHeader d = true -> usbHdrLen <= sendMaxPacketSize d)).
Proof.
  unfold ready. intros R.
  apply andb_prop in R as [R R4]. apply andb_prop in R as [R R3].
  apply andb_prop in R as [R1 R2].
  apply negb_true_iff in R1. apply Z.leb_le in R2. apply Z.ltb_lt in R3.
  repeat split; try assumption.
  - destruct src; [|congruence]. apply andb_prop in R4 as [R4 _].
    now apply Z.ltb_lt in R4.
  - intros Es. destruct src; [|congruence]. apply andb_prop in R4 as [_ R5].
    rewrite Es in R5. cbn in R5. now apply Z.leb_le in R5.
Qed.

(** The send phase ends, reads nothing, and writes the command first. *)
Lemma sendPhase_Done `{Constants} (d : DeviceDirect) (req : Container)
  (src : option Reader) (writeSize : Z) (w : World) :
  ready d req src = true ->
  exists src' err w' more,
    sendPhase d req src writeSize w = Done (src', err) w' /\
    writes w w' /\ sent w' = sent w ++ commandPacket req :: more.
Proof.
  intros R. apply ready_inv in R as (Hh & Hk & Hf & Hs).
  destruct (sendReq_Done d req w Hh Hk) as (err & E).
  pose proof (writes_set_sent (commandPacket req) w) as W1.
  unfold sendPhase. rewrite (bind_Done _ _ _ _ _ E).
  destruct err as [e|].
  { exists src, (Some e). eexists. exists []. repeat split; apply W1. }
  destruct src as [r|].
  - destruct Hs as [Hs1 Hs2]; [discriminate|].
    destruct (ends_bulkWrite d
                (Some (mkHeader (uint32 writeSize) USB_CONTAINER_DATA (Code req)
                                (TransactionID req))) r writeSize Hh Hs1 Hs2
                (set_sent (sent w ++ [commandPacket req]) w))
      as ([[r' n] err] & w' & E' & X').
    rewrite (bind_Done _ _ _ _ _ E'). cbn [ret].
    pose proof (writes_trans _ _ _ W1 X') as W2.
    destruct X' as ((_ & _ & _ & _ & more & S) & _).
    exists (Some r'), err, w', more. cbn in S.
    repeat split; try apply W2.
    rewrite S. now rewrite <- app_assoc.
  - exists None, None. eexists. exists []. repeat split; apply W1.
Qed.

Lemma ends_receive `{Constants} (d : DeviceDirect) (dest : option Writer) :
  isNil (h d) = false -> 0 < fetchMaxPacketSize d ->
  ends extends (receive d dest).
Proof.
  intros Hh Hf. unfold receive.
  destruct (Z.ltb_spec (fetchMaxPacketSize d) 0); [lia|].
  bind_ends; [now apply ends_fetchPacket|].
  intros [[hd rest] [e|]]; [ret_ends|].
  destruct (hType hd =? USB_CONTAINER_DATA); [|ret_ends].
  destruct (Write _ rest) as [[wr n] werr].
  bind_ends.
  { unfold dataPhase.
    destruct (len rest + usbHdrLen =? fetchMaxPacketSize d); [|ret_ends].
    bind_ends; [apply ends_bulkRead; [assumption|lia]|].
    intros [[[wr' n'] fp] err]. ret_ends. }
  intros [[wr' fp] [e|]]; [ret_ends|].
  destruct (0 <? len fp); [ret_ends|].
  bind_ends; [now apply ends_fetchPacket|].
  intros [[hd' rest'] e]. ret_ends.
Qed.

Lemma ready_assignIDs (d : DeviceDirect) (req : Container) (src : option Reader) :
  ready (fst (assignIDs d req)) (snd (assignIDs d req)) src = ready d req src.
Proof.
  unfold assignIDs. now destruct (session d).
Qed.


(** [runTransaction] ends; it leaves the device as [assignIDs] made it,
    and the first buffer it writes is the command with the ids assigned. *)
Lemma runTransaction_Done `{Constants} (d : DeviceDirect) (req rep : Container)
  (dest : option Writer) (src : option Reader) (writeSize : Z) (w : World) :
  ready d req src = true ->
  exists t w' more,
    runTransaction d req rep dest src writeSize w
      = Done (fst (assignIDs d req), t) w' /\
    t_req t = snd (assignIDs d req) /\
    extends w w' /\
    sent w' = sent w ++ commandPacket (snd (assignIDs d req)) :: more.
Proof.
  intros R. rewrite <- (ready_assignIDs d req src) in R.
  unfold runTransaction. destruct (assignIDs d req) as [d1 req1].
  cbn [fst snd] in *.
  destruct (sendPhase_Done d1 req1 src writeSize w R)
    as (src' & err & w1 & more & E & [X1 _] & S1).
  rewrite (bind_Done _ _ _ _ _ E).
  destruct err as [e|].
  { eexists; exists w1, more. split; [reflexivity|split; [reflexivity|split; assumption]]. }
  apply ready_inv in R as (Hh & _ & Hf & _).
  destruct (ends_receive d1 dest Hh Hf w1) as (x & w2 & E2 & X2).
  rewrite (bind_Done _ _ _ _ _ E2).
  pose proof (extends_trans _ _ _ X1 X2) as X.
  assert (S2 : exists more2, sent w2 = sent w ++ commandPacket req1 :: more2).
  { destruct X2 as (_ & _ & _ & _ & m2 & S2). exists (more ++ m2).
    rewrite S2, S1. now rewrite <- app_assoc. }
  destruct S2 as (more2 & S2).
  destruct x as [e dest'|hd rest u dest'].
  - eexists; exists w2, more2. split; [reflexivity|split; [reflexivity|split; assumption]].
  - destruct (conclude d1 req1 rep hd rest u) as [rep' err'].
    eexists; exists w2, more2. split; [reflexivity|split; [reflexivity|split; assumption]].
Qed.


(** ** Transaction ids *)

(** C1, amended. While a session is active, on a device that is ready
    for the requests (the handle is open, a request has at most five
    parameters, the fetch packet size is positive and, when outgoing data
    is given, the send packet size is positive, and at least 12 with
    [SeparateHeader]), [runTransaction] gives the request the counter's
    value, sends the command with it, and advances the counter once,
    whatever the outcome of the transaction: two consecutive transactions
    carry the ids [tid] and [tid + 1] modulo 2^32, also when the first one
    fails.  Below 0xFFFFFFFF the second id is [tid + 1]; at 0xFFFFFFFF the
    counter, a [uint32], wraps, and the second id is 0. *)
Theorem runTransaction_transaction_ids `{Constants}
  (d : DeviceDirect) (s : sessionData) (w : World)
  (req1 rep1 : Container) (dest1 : option Writer) (src1 : option Reader) (size1 : Z)
  (req2 rep2 : Container) (dest2 : option Writer) (src2 : option Reader) (size2 : Z) :
  session d = Some s ->
  ready d req1 src1 = true ->
  ready d req2 src2 = true ->
  exists d1 t1 w1 more1 d2 t2 w2 more2,
    runTransaction d req1 rep1 dest1 src1 size1 w = Done (d1, t1) w1 /\
    TransactionID (t_req t1) = tid s /\
    sent w1 = sent w ++ commandPacket (t_req t1) :: more1 /\
    session d1 = Some (mkSession (uint32 (tid s + 1)) (sid s)) /\
    runTransaction d1 req2 rep2 dest2 src2 size2 w1 = Done (d2, t2) w2 /\
    TransactionID (t_req t2) = uint32 (tid s + 1) /\
    sent w2 = sent w1 ++ commandPacket (t_req t2) :: more2 /\
    session d2 = Some (mkSession (uint32 (uint32 (tid s + 1) + 1)) (sid s)) /\
    (0 <= tid s < 2 ^ 32 - 1 -> TransactionID (t_req t2) = tid s + 1) /\
    (tid s = 2 ^ 32 - 1 -> TransactionID (t_req t2) = 0).
Proof.
  intros Hs R1 R2.
  destruct (runTransaction_Done d req1 rep1 dest1 src1 size1 w R1)
    as (t1 & w1 & more1 & E1 & Q1 & _ & S1).
  assert (A1 : assignIDs d req1 =
               (set_session (Some (mkSession (uint32 (tid s + 1)) (sid s))) d,
                mkContainer (Code req1) (sid s) (tid s) (Param req1))).
  { unfold assignIDs. now rewrite Hs. }
  rewrite A1 in E1, Q1, S1. cbn [fst snd] in E1, Q1, S1.
  set (d1 := set_session (Some (mkSession (uint32 (tid s + 1)) (sid s))) d) in *.
  assert (R2' : ready d1 req2 src2 = true) by exact R2.
  destruct (runTransaction_Done d1 req2 rep2 dest2 src2 size2 w1 R2')
    as (t2 & w2 & more2 & E2 & Q2 & _ & S2).
  assert (A2 : assignIDs d1 req2 =
               (set_session
                  (Some (mkSession (uint32 (uint32 (tid s + 1) + 1)) (sid s))) d1,
                mkContainer (Code req2) (sid s) (uint32 (tid s + 1)) (Param req2))).
  { reflexivity. }
  rewrite A2 in E2, Q2, S2. cbn [fst snd] in E2, Q2, S2.
  exists d1, t1, w1, more1. eexists. exists t2, w2, more2.
  rewrite Q1, Q2. cbn [TransactionID].
  split; [exact E1|]. split; [reflexivity|].
  split; [exact S1|]. split; [reflexivity|].
  split; [exact E2|]. split; [reflexivity|].
  split; [exact S2|]. split; [reflexivity|].
  unfold uint32. split.
  - intros Ht. apply Z.mod_small. lia.
  - intros ->. reflexivity.
Qed.

(** A transaction that times out, then its retry: ids 7 and 8. *)
Lemma runTransaction_transaction_ids_witness :
  exists d1 t1 w1 d2 t2 w2,
    runTransaction (H := ptp) inSession getStorageIDs zeroContainer None None 0
                   (bus []) = Done (d1, t1) w1 /\
    t_err t1 = Some (UsbError ERROR_TIMEOUT) /\
    TransactionID (t_req t1) = 7 /\
    runTransaction (H := ptp) d1 getStorageIDs zeroContainer None None 0 w1
      = Done (d2, t2) w2 /\
    TransactionID (t_req t2) = 8.
Proof.
  destruct (runTransaction_transaction_ids (H := ptp) inSession (mkSession 7 99)
              (bus []) getStorageIDs zeroContainer None None 0
              getStorageIDs zeroContainer None None 0)
    as (d1 & t1 & w1 & more1 & d2 & t2 & w2 & more2
        & E1 & T1 & _ & _ & E2 & T2 & _ & _ & _ & _).
  - reflexivity.
  - reflexivity.
  - reflexivity.
  - exists d1, t1, w1, d2, t2, w2. repeat split; try assumption.
    vm_compute in E1. now inversion E1.
Defined.

(** C1 as stated fails: with the counter at 0xFFFFFFFF, two consecutive
    transactions, both answered with OK, carry the ids 0xFFFFFFFF and 0:
    the second id is not the greater one, and the ids start over. *)
Lemma runTransaction_transaction_ids_counterexample :
  exists d1 t1 w1 d2 t2 w2,
    runTransaction (H := ptp) atLastId getStorageIDs zeroContainer None None 0
                   (bus [got (okFor 4294967295); got (okFor 0)])
      = Done (d1, t1) w1 /\
    t_err t1 = None /\ TransactionID (t_req t1) = 4294967295 /\
    runTransaction (H := ptp) d1 getStorageIDs zeroContainer None None 0 w1
      = Done (d2, t2) w2 /\
    t_err t2 = None /\ TransactionID (t_req t2) = 0 /\
    session d2 = Some (mkSession 1 99).
Proof.
  do 6 eexists. split; [vm_compute; reflexivity|].
  split; [reflexivity|]. split; [reflexivity|].
  split; [vm_compute; reflexivity|].
  repeat split.
Qed.

(** ** Teardown *)

Lemma assignIDs_frame (d : DeviceDirect) (req : Container) :
  h (fst (assignIDs d req)) = h d /\
  dev (fst (assignIDs d req)) = dev d /\
  fetchEP (fst (assignIDs d req)) = fetchEP d /\
  claimed (fst (assignIDs d req)) = claimed d /\
  isNil (session (fst (assignIDs d req))) = isNil (session d) /\
  Code (snd (assignIDs d req)) = Code req /\
  ifaceDescr (fst (assignIDs d req)) = ifaceDescr d.
Proof.
  unfold assignIDs. destruct (session d) eqn:E; cbn; rewrite ?E; repeat split.
Qed.

Lemma assignIDs_session (d : DeviceDirect) (req : Container) (s : sessionData) :
  session d = Some s ->
  session (fst (assignIDs d req)) = Some (mkSession (uint32 (tid s + 1)) (sid s)) /\
  TransactionID (snd (assignIDs d req)) = tid s /\
  SessionID (snd (assignIDs d req)) = sid s.
Proof.
  intros E. unfold assignIDs. rewrite E. repeat split.
Qed.

(** [Close] ends with the handle closed and dropped. *)
Lemma Close_Done `{Constants} (d : DeviceDirect) (w : World) :
  isNil (h d) = false -> 0 < fetchMaxPacketSize d ->
  exists d' err w' evs,
    Close d w = Done (d', err) w' /\ h d' = None /\
    events w' = events w ++ evs ++ [EvHandleClose].
Proof.
  intros Hh Hf. unfold Close. destruct (h d) eqn:Eh; [|discriminate].
  set (release := EvReleaseInterface (InterfaceNumber (ifaceDescr d))).
  destruct (session d) as [s|] eqn:Es.
  - set (req := mkContainer OC_CloseSession 0 0 []).
    assert (R : ready d req None = true).
    { unfold ready. rewrite Eh. cbn.
      apply Z.ltb_lt in Hf. now rewrite Hf. }
    destruct (runTransaction_Done d req zeroContainer None None 0 w R)
      as (t & w1 & more & E & _ & (_ & _ & _ & Ev & _) & _).
    unfold bind. rewrite E.
    destruct (assignIDs_frame d req) as (_ & _ & _ & Ec & _ & _ & Ei).
    destruct (t_err t); unfold control, ret; cbn [set_events events];
      rewrite Ec, ?Ei; destruct (claimed d); cbn [set_events events];
        do 3 eexists.
    + exists [EvReset; release]. split; [reflexivity|split; [reflexivity|]].
      cbn [set_events events]. rewrite Ev, <- !app_assoc. reflexivity.
    + exists [EvReset]. split; [reflexivity|split; [reflexivity|]].
      cbn [set_events events]. rewrite Ev, <- !app_assoc. reflexivity.
    + exists [release]. split; [reflexivity|split; [reflexivity|]].
      cbn [set_events events]. rewrite Ev, <- !app_assoc. reflexivity.
    + exists []. split; [reflexivity|split; [reflexivity|]].
      cbn [set_events events]. rewrite Ev. reflexivity.
  - unfold bind, control, ret. destruct (claimed d); cbn [set_events events];
      do 3 eexists.
    + exists [release]. split; [reflexivity|split; [reflexivity|]].
      cbn [set_events events]. rewrite <- !app_assoc. reflexivity.
    + exists []. split; [reflexivity|split; reflexivity].
Qed.

Lemma RunTransaction_keeps `{Constants} (d : DeviceDirect) (req rep : Container)
  (dest : option Writer) (src : option Reader) (writeSize : Z) (w : World)
  (d1 : DeviceDirect) (t : txn) (w1 : World) :
  isNil (h d) = false ->
  runTransaction d req rep dest src writeSize w = Done (d1, t) w1 ->
  (forall e, t_err t = Some e -> isUsbError e || isSyncError e = false) ->
  RunTransaction d req rep dest src writeSize w = Done (d1, t) w1.
Proof.
  intros Hh E Ht. unfold RunTransaction.
  destruct (h d); [|discriminate].
  rewrite (bind_Done _ _ _ _ _ E).
  destruct (t_err t) as [e|]; [|reflexivity].
  now rewrite (Ht e eq_refl).
Qed.

Lemma RunTransaction_closes `{Constants} (d : DeviceDirect) (req rep : Container)
  (dest : option Writer) (src : option Reader) (writeSize : Z) (w : World)
  (d1 : DeviceDirect) (t : txn) (w1 : World) (e : error) :
  isNil (h d) = false ->
  runTransaction d req rep dest src writeSize w = Done (d1, t) w1 ->
  t_err t = Some e -> isUsbError e || isSyncError e = true ->
  isNil (h d1) = false -> 0 < fetchMaxPacketSize d1 ->
  exists d2 w2 evs,
    RunTransaction d req rep dest src writeSize w = Done (d2, t) w2 /\
    h d2 = None /\ events w2 = events w1 ++ evs ++ [EvHandleClose].
Proof.
  intros Hh E Ht He Hh1 Hf1. unfold RunTransaction.
  destruct (h d); [|discriminate].
  rewrite (bind_Done _ _ _ _ _ E). rewrite Ht, He.
  destruct (Close_Done d1 w1 Hh1 Hf1) as (d2 & err & w2 & evs & Ec & Hn & Ev).
  rewrite (bind_Done _ _ _ _ _ Ec).
  exists d2, w2, evs. now repeat split.
Qed.

(** ** What an exchange tells about the connection *)

Lemma sendPhase_open `{Constants} (d : DeviceDirect) (req : Container)
  (src : option Reader) (writeSize : Z) (w w1 : World)
  (x : option Reader * option error) :
  sendPhase d req src writeSize w = Done x w1 -> isNil (h d) = false.
Proof.
  unfold sendPhase, bind, sendReq, panic.
  destruct (5 <? len (Param req)); [discriminate|].
  unfold bind, BulkTransferOut. destruct (h d); [reflexivity|discriminate].
Qed.

Lemma len_take {A : Type} (k : Z) (l : list A) : len (take k l) <= Z.max 0 k.
Proof.
  unfold len, take. rewrite length_firstn. lia.
Qed.

Lemma receive_Arrived_size `{Constants} (d : DeviceDirect) (dest : option Writer)
  (w w' : World) (hd : usbBulkHeader) (rest : list byte) (u : bool)
  (dest' : option Writer) :
  receive d dest w = Done (Arrived hd rest u dest') w' ->
  0 < fetchMaxPacketSize d.
Proof.
  intros E. destruct (Z.ltb_spec 0 (fetchMaxPacketSize d)) as [|Hle]; [assumption|].
  exfalso. revert E. unfold receive.
  destruct (fetchMaxPacketSize d <? 0); [discriminate|].
  unfold bind at 1. unfold fetchPacket, bind, BulkTransferIn.
  destruct (h d); [|discriminate].
  destruct (ins w) as [|[data e] tl]; [discriminate|].
  cbn [deliver]. destruct e; [discriminate|].
  assert (Z : take (fetchMaxPacketSize d) data = []).
  { pose proof (len_take (fetchMaxPacketSize d) data) as L.
    pose proof (len_nonneg (take (fetchMaxPacketSize d) data)).
    destruct (take (fetchMaxPacketSize d) data); [reflexivity|].
    unfold len in *. cbn [List.length] in *. lia. }
  rewrite Z. cbn. discriminate.
Qed.

Lemma runTransaction_answers `{Constants} (d : DeviceDirect) (req rep : Container)
  (dest : option Writer) (src : option Reader) (writeSize : Z) (w : World)
  (hd : usbBulkHeader) (rest : list byte) (u : bool)
  (dest' : option Writer) (src' : option Reader) (w' : World) :
  answers d req dest src writeSize w hd rest u dest' src' w' ->
  let d1 := fst (assignIDs d req) in
  let req1 := snd (assignIDs d req) in
  runTransaction d req rep dest src writeSize w
    = Done (d1, mkTxn req1 (fst (conclude d1 req1 rep hd rest u)) dest' src'
                      (snd (conclude d1 req1 rep hd rest u))) w' /\
  isNil (h d) = false /\ 0 < fetchMaxPacketSize d.
Proof.
  intros (w1 & E1 & E2). cbv zeta.
  pose proof (sendPhase_open _ _ _ _ _ _ _ E1) as Hh.
  pose proof (receive_Arrived_size _ _ _ _ _ _ _ _ E2) as Hf.
  destruct (assignIDs_frame d req) as (Fh & Fd & Fe & _).
  split; [|split].
  - unfold runTransaction. destruct (assignIDs d req) as [d1 req1].
    cbn [fst snd] in *.
    rewrite (bind_Done _ _ _ _ _ E1). rewrite (bind_Done _ _ _ _ _ E2).
    now destruct (conclude d1 req1 rep hd rest u).
  - now rewrite <- Fh.
  - unfold fetchMaxPacketSize in *. now rewrite <- Fd, <- Fe.
Qed.

(** ** Decoding and classifying the response *)

Lemma decodeRep_device_error `{Constants} (hd : usbBulkHeader) (rest : list byte)
  (rep : Container) :
  hType hd = USB_CONTAINER_RESPONSE ->
  hLength hd - usbHdrLen <= len rest ->
  hCode hd <> RC_OK ->
  decodeRep hd rest rep =
    (mkContainer (hCode hd) (SessionID rep) (hTransactionID hd)
                 (Param rep ++ decodeParams rest (Z.quot (hLength hd - usbHdrLen) 4)),
     Some (RCError (hCode hd))).
Proof.
  intros HT HL HC. unfold decodeRep. rewrite HT, Z.eqb_refl. cbn [negb].
  destruct (Z.ltb_spec (len rest) (hLength hd - usbHdrLen)); [lia|].
  cbn [Code SessionID TransactionID Param].
  destruct (Z.eqb_spec (hCode hd) RC_OK); [contradiction|reflexivity].
Qed.

Lemma decodeRep_ok `{Constants} (hd : usbBulkHeader) (rest : list byte)
  (rep : Container) :
  hType hd = USB_CONTAINER_RESPONSE ->
  hLength hd - usbHdrLen <= len rest ->
  hCode hd = RC_OK ->
  decodeRep hd rest rep =
    (mkContainer (hCode hd) (SessionID rep) (hTransactionID hd)
                 (Param rep ++ decodeParams rest (Z.quot (hLength hd - usbHdrLen) 4)),
     None).
Proof.
  intros HT HL HC. unfold decodeRep. rewrite HT, Z.eqb_refl. cbn [negb].
  destruct (Z.ltb_spec (len rest) (hLength hd - usbHdrLen)); [lia|].
  cbn [Code SessionID TransactionID Param].
  rewrite HC, Z.eqb_refl. reflexivity.
Qed.


(** *** What the transfers leave alone, whenever they end *)

Section Frames.
Context (R : World -> World -> Prop).
Hypothesis R_refl : forall w, R w w.
Hypothesis R_trans : forall w1 w2 w3, R w1 w2 -> R w2 w3 -> R w1 w3.

Lemma frames_ret {A : Type} (a : A) : frames R (ret a).
Proof.
  intros w a' w' [= _ <-]. apply R_refl.
Qed.

Lemma frames_panic {A : Type} (why : panic_reason) : frames R (@panic A why).
Proof.
  intros w a' w' [=].
Qed.

Lemma frames_bind {A B : Type} (m : M A) (k : A -> M B) :
  frames R m -> (forall a, frames R (k a)) -> frames R (bind m k).
Proof.
  intros Hm Hk w b w'. unfold bind.
  destruct (m w) as [a w1|] eqn:E; [|discriminate].
  intros E'. eapply R_trans; [eapply Hm, E|eapply Hk, E'].
Qed.
End Frames.

Lemma frames_writes_extends {A : Type} (m : M A) :
  frames writes m -> frames extends m.
Proof.
  intros Hm w a w' E. now destruct (Hm w a w' E).
Qed.

Ltac ret_frames :=
  first [ apply (frames_ret writes writes_refl)
        | apply (frames_ret extends extends_refl)
        | apply frames_panic ].

Ltac bind_frames :=
  first [ apply (frames_bind writes writes_trans)
        | apply (frames_bind extends extends_trans) ].

Lemma frames_BulkTransferOut (d : DeviceDirect) (data : list byte) :
  frames writes (BulkTransferOut d data).
Proof.
  intros w a w'. unfold BulkTransferOut.
  destruct (h d); [|discriminate].
  destruct (out_policy w (List.length (sent w)));
    intros [= _ <-]; apply writes_set_sent.
Qed.

Lemma frames_BulkTransferIn (d : DeviceDirect) (size : Z) :
  frames extends (BulkTransferIn d size).
Proof.
  intros w a w'. unfold BulkTransferIn.
  destruct (h d); [|discriminate].
  destruct (ins w) as [|r tl]; intros [= _ <-];
    [apply extends_refl|apply extends_set_ins].
Qed.

Lemma frames_sendReq (d : DeviceDirect) (req : Container) :
  frames writes (sendReq d req).
Proof.
  unfold sendReq. destruct (5 <? len (Param req)); [ret_frames|].
  bind_frames; [apply frames_BulkTransferOut|]. intros [n e]. ret_frames.
Qed.

Lemma frames_fetchPacket (d : DeviceDirect) (hd : usbBulkHeader) :
  frames extends (fetchPacket d hd).
Proof.
  unfold fetchPacket. bind_frames; [apply frames_BulkTransferIn|].
  intros [b [e|]]; [ret_frames|].
  destruct (readHeader b) as [e|[hd' rest]]; ret_frames.
Qed.

Lemma frames_bulkRead `{Constants} (d : DeviceDirect) (wr : Writer) :
  frames extends (bulkRead d wr).
Proof.
  intros w a w'. unfold bulkRead.
  destruct (h d); [|discriminate].
  destruct (bulkReadLoop wr 0 (ins w)) as [[[[wr' n] lastRead] err] tl].
  destruct (fetchMaxPacketSize d =? 0); [discriminate|].
  destruct (Z.rem lastRead (fetchMaxPacketSize d) =? 0).
  - destruct (BulkTransferIn d rwBufSize (set_ins tl w)) as [[b e] w2|] eqn:E;
      [|discriminate].
    intros [= _ <-]. eapply extends_trans; [apply extends_set_ins|].
    eapply frames_BulkTransferIn, E.
  - intros [= _ <-]. apply extends_set_ins.
Qed.

Lemma frames_bulkWriteLoop `{Constants} (fuel : nat) (d : DeviceDirect) :
  forall size r n lastTransfer err,
    frames writes (bulkWriteLoop fuel d size r n lastTransfer err).
Proof.
  induction fuel as [|fuel IH]; intros size r n lastTransfer err.
  - ret_frames.
  - cbn [bulkWriteLoop]. destruct (0 <? size); [|ret_frames].
    destruct (Read r _) as [[chunk r'] [e|]]; [ret_frames|].
    bind_frames; [apply frames_BulkTransferOut|].
    intros [lt uerr].
    destruct (negb (isNil (option_map UsbError uerr)) || (lt =? 0));
      [ret_frames|apply IH].
Qed.

Lemma frames_bulkWriteRest `{Constants} (d : DeviceDirect) (size : Z) (r : Reader)
  (n : Z) (err : option error) : frames writes (bulkWriteRest d size r n err).
Proof.
  unfold bulkWriteRest. bind_frames; [apply frames_bulkWriteLoop|].
  intros [[[r' n'] lt] err'].
  destruct (sendMaxPacketSize d =? 0); [ret_frames|].
  destruct (Z.rem lt (sendMaxPacketSize d) =? 0); [|ret_frames].
  bind_frames; [apply frames_BulkTransferOut|]. intros _. ret_frames.
Qed.

Lemma frames_bulkWrite `{Constants} (d : DeviceDirect) (hdr : option usbBulkHeader)
  (r : Reader) (size : Z) : frames writes (bulkWrite d hdr r size).
Proof.
  unfold bulkWrite. destruct hdr as [hdr|]; [|apply frames_bulkWriteRest].
  destruct (sendMaxPacketSize d <? 0); [ret_frames|].
  destruct (SeparateHeader d && (sendMaxPacketSize d <? usbHdrLen)); [ret_frames|].
  destruct (CopyN r _) as [payload r'].
  bind_frames; [apply frames_BulkTransferOut|].
  intros [m [e|]]; [ret_frames|apply frames_bulkWriteRest].
Qed.

Lemma frames_sendPhase `{Constants} (d : DeviceDirect) (req : Container)
  (src : option Reader) (writeSize : Z) :
  frames writes (sendPhase d req src writeSize).
Proof.
  unfold sendPhase. bind_frames; [apply frames_sendReq|].
  intros [e|]; [ret_frames|]. destruct src as [r|]; [|ret_frames].
  bind_frames; [apply frames_bulkWrite|]. intros [[r' n] err]. ret_frames.
Qed.

Lemma frames_receive `{Constants} (d : DeviceDirect) (dest : option Writer) :
  frames extends (receive d dest).
Proof.
  unfold receive. destruct (fetchMaxPacketSize d <? 0); [ret_frames|].
  bind_frames; [apply frames_fetchPacket|].
  intros [[hd rest] [e|]]; [ret_frames|].
  destruct (hType hd =? USB_CONTAINER_DATA); [|ret_frames].
  destruct (Write _ rest) as [[wr n] werr].
  bind_frames.
  { unfold dataPhase.
    destruct (len rest + usbHdrLen =? fetchMaxPacketSize d); [|ret_frames].
    bind_frames; [apply frames_bulkRead|].
    intros [[[wr' n'] fp] err]. ret_frames. }
  intros [[wr' fp] [e|]]; [ret_frames|].
  destruct (0 <? len fp); [ret_frames|].
  bind_frames; [apply frames_fetchPacket|].
  intros [[hd' rest'] e]. ret_frames.
Qed.

(** An exchange makes no control call. *)
Lemma answers_events `{Constants} (d : DeviceDirect) (req : Container)
  (dest : option Writer) (src : option Reader) (writeSize : Z) (w : World)
  (hd : usbBulkHeader) (rest : list byte) (u : bool)
  (dest' : option Writer) (src' : option Reader) (w' : World) :
  answers d req dest src writeSize w hd rest u dest' src' w' ->
  events w' = events w.
Proof.
  intros (w1 & E1 & E2).
  apply frames_sendPhase in E1 as [(_ & _ & _ & Ev1 & _) _].
  apply frames_receive in E2 as (_ & _ & _ & Ev2 & _).
  congruence.
Qed.

(** *** Where the bytes handed to [decodeRep] come from *)







(** A device-response error leaves the connection as the exchange left
    it: shared by the statements on non-OK responses. *)
Lemma RunTransaction_RCError `{Constants} (d : DeviceDirect) (req rep : Container)
  (dest : option Writer) (src : option Reader) (writeSize : Z) (w : World)
  (hd : usbBulkHeader) (rest : list byte)
  (dest' : option Writer) (src' : option Reader) (w' : World) :
  answers d req dest src writeSize w hd rest false dest' src' w' ->
  hType hd = USB_CONTAINER_RESPONSE ->
  hLength hd - usbHdrLen <= len rest ->
  hCode hd <> RC_OK ->
  RunTransaction d req rep dest src writeSize w =
    Done (fst (assignIDs d req),
          mkTxn (snd (assignIDs d req))
                (mkContainer (hCode hd) (SessionID rep) (hTransactionID hd)
                   (Param rep ++
                    decodeParams rest (Z.quot (hLength hd - usbHdrLen) 4)))
                dest' src' (Some (RCError (hCode hd)))) w' /\
  isNil (h (fst (assignIDs d req))) = false /\
  events w' = events w.
Proof.
  intros A HT HL HC.
  destruct (runTransaction_answers d req rep dest src writeSize w hd rest false
              dest' src' w' A) as (E & Hh & Hf).
  unfold conclude in E. rewrite (decodeRep_device_error hd rest rep HT HL HC) in E.
  cbn [fst snd] in E.
  split; [|split].
  - apply RunTransaction_keeps; [assumption|exact E|].
    cbn [t_err]. intros e [= <-]. reflexivity.
  - destruct (assignIDs_frame d req) as (Fh & _). now rewrite Fh.
  - eapply answers_events, A.
Qed.




(** C10, amended. While a session is active, when no unexpected data
    phase was flagged and the device answers with a RESPONSE packet that
    passes the length check of [decodeRep] (it declares no more payload
    bytes than [decodeRep] is handed), a non-OK response is returned as
    the device-response error before the transaction ids are compared:
    also when the response's id differs from the request's, the error is
    [RCError], and nothing is torn down. *)
Theorem RunTransaction_device_error_before_correlation `{Constants}
  (d : DeviceDirect) (s : sessionData) (req rep : Container)
  (dest : option Writer) (src : option Reader) (writeSize : Z) (w : World)
  (hd : usbBulkHeader) (rest : list byte)
  (dest' : option Writer) (src' : option Reader) (w' : World) :
  session d = Some s ->
  answers d req dest src writeSize w hd rest false dest' src' w' ->
  hType hd = USB_CONTAINER_RESPONSE ->
  hLength hd - usbHdrLen <= len rest ->
  hCode hd <> RC_OK ->
  hTransactionID hd <> tid s ->
  exists t,
    RunTransaction d req rep dest src writeSize w
      = Done (fst (assignIDs d req), t) w' /\
    TransactionID (t_req t) = tid s /\
    TransactionID (t_rep t) <> TransactionID (t_req t) /\
    t_err t = Some (RCError (hCode hd)) /\
    isNil (h (fst (assignIDs d req))) = false /\
    events w' = events w.
Proof.
  intros Hs A HT HL HC HI.
  destruct (RunTransaction_RCError d req rep dest src writeSize w hd rest
              dest' src' w' A HT HL HC) as (E & Hh & Ev).
  destruct (assignIDs_session d req s Hs) as (_ & Ft & _).
  eexists. split; [exact E|]. cbn [t_err t_rep t_req TransactionID].
  rewrite Ft. repeat split; assumption.
Qed.

(** GeneralError carrying the stale id 5 while the counter stands at 7. *)
Lemma RunTransaction_device_error_before_correlation_witness :
  exists d' t w',
    RunTransaction (H := ptp) inSession getStorageIDs zeroContainer None None 0
      (bus [got (failFor 5)]) = Done (d', t) w' /\
    t_err t = Some (RCError 8194) /\ isNil (h d') = false /\ events w' = [].
Proof.
  edestruct (RunTransaction_device_error_before_correlation (H := ptp) inSession
               (mkSession 7 99) getStorageIDs zeroContainer None None 0
               (bus [got (failFor 5)]))
    as (t & E & _ & _ & Te & Hh & Ev).
  - reflexivity.
  - eexists. split; reflexivity.
  - reflexivity.
  - vm_compute. discriminate.
  - vm_compute. discriminate.
  - vm_compute. discriminate.
  - do 3 eexists. split; [exact E|]. split; [exact Te|]. split; [exact Hh|exact Ev].
Defined.

(** C10 as stated fails: with no sink, a DATA packet comes first; the
    non-OK response with the stale id 5 follows, and the error returned is
    the desync error, with the connection closed. *)
Lemma RunTransaction_device_error_before_correlation_counterexample :
  exists d' t w',
    RunTransaction (H := ptp) inSession getStorageIDs zeroContainer None None 0
      (bus [got smallData; got (failFor 5)]) = Done (d', t) w' /\
    Code (t_rep t) = 8194 /\
    TransactionID (t_rep t) = 5 /\ TransactionID (t_req t) = 7 /\
    t_err t = Some (SyncError (UnexpectedData 4100)) /\
    h d' = None.
Proof.
  vm_compute. do 3 eexists. repeat split.
Qed.

(** C3, amended. While a session is active, if the response is a valid
    RESPONSE packet with the OK code and its transaction id differs from
    the request's, [RunTransaction] returns a desync error (the id
    mismatch, or "unexpected data" when that was flagged) and has closed
    the connection when it returns. *)
Theorem RunTransaction_tid_mismatch `{Constants}
  (d : DeviceDirect) (s : sessionData) (req rep : Container)
  (dest : option Writer) (src : option Reader) (writeSize : Z) (w : World)
  (hd : usbBulkHeader) (rest : list byte) (u : bool)
  (dest' : option Writer) (src' : option Reader) (w' : World) :
  session d = Some s ->
  answers d req dest src writeSize w hd rest u dest' src' w' ->
  hType hd = USB_CONTAINER_RESPONSE ->
  hLength hd - usbHdrLen <= len rest ->
  hCode hd = RC_OK ->
  hTransactionID hd <> tid s ->
  exists d2 t w2 evs m,
    RunTransaction d req rep dest src writeSize w = Done (d2, t) w2 /\
    TransactionID (t_req t) = tid s /\
    TransactionID (t_rep t) = hTransactionID hd /\
    t_err t = Some (SyncError m) /\
    m = (if u then UnexpectedData (Code req)
         else TidMismatch (hTransactionID hd) (tid s)) /\
    h d2 = None /\
    events w2 = events w ++ evs ++ [EvHandleClose].
Proof.
  intros Hs A HT HL HC HI.
  destruct (runTransaction_answers d req rep dest src writeSize w hd rest u
              dest' src' w' A) as (E & Hh & Hf).
  destruct (assignIDs_session d req s Hs) as (Fs & Ft & _).
  destruct (assignIDs_frame d req) as (Fh & Fd & Fe & _ & _ & Fc & _).
  unfold conclude in E. rewrite (decodeRep_ok hd rest rep HT HL HC) in E.
  assert (Hh1 : isNil (h (fst (assignIDs d req))) = false) by now rewrite Fh.
  assert (Hf1 : 0 < fetchMaxPacketSize (fst (assignIDs d req))).
  { unfold fetchMaxPacketSize in *. now rewrite Fd, Fe. }
  pose proof (answers_events _ _ _ _ _ _ _ _ _ _ _ _ A) as Ev0.
  destruct u.
  - cbn [fst snd] in E.
    edestruct (RunTransaction_closes d req rep dest src writeSize w) as
      (d2 & w2 & evs & E2 & Hn & Ev);
      [exact Hh|exact E|reflexivity|reflexivity|exact Hh1|exact Hf1|].
    exists d2. eexists. exists w2, evs. eexists.
    split; [exact E2|]. cbn [t_req t_rep t_err TransactionID].
    rewrite Fc, Ft, <- Ev0. repeat split; assumption.
  - rewrite Fs, Ft in E. cbn [isNil negb andb TransactionID fst snd] in E.
    destruct (Z.eqb_spec (hTransactionID hd) (tid s)); [contradiction|].
    cbn [negb fst snd] in E.
    edestruct (RunTransaction_closes d req rep dest src writeSize w) as
      (d2 & w2 & evs & E2 & Hn & Ev);
      [exact Hh|exact E|reflexivity|reflexivity|exact Hh1|exact Hf1|].
    exists d2. eexists. exists w2, evs. eexists.
    split; [exact E2|]. cbn [t_req t_rep t_err TransactionID].
    rewrite Ft, <- Ev0. repeat split; assumption.
Qed.

(** OK carrying the stale id 5 while the counter stands at 7. *)
Lemma RunTransaction_tid_mismatch_witness :
  exists d2 t w2,
    RunTransaction (H := ptp) inSession getStorageIDs zeroContainer None None 0
      (bus [got (okFor 5)]) = Done (d2, t) w2 /\
    t_err t = Some (SyncError (TidMismatch 5 7)) /\ h d2 = None.
Proof.
  edestruct (RunTransaction_tid_mismatch (H := ptp) inSession (mkSession 7 99)
               getStorageIDs zeroContainer None None 0 (bus [got (okFor 5)]))
    as (d2 & t & w2 & evs & m & E & _ & _ & Te & -> & Hn & _).
  - reflexivity.
  - eexists. split; reflexivity.
  - reflexivity.
  - vm_compute. discriminate.
  - reflexivity.
  - vm_compute. discriminate.
  - exists d2, t, w2. split; [exact E|]. split; [exact Te|exact Hn].
Defined.

(** C3 as stated fails: a response with a code other than OK and the stale
    id 5 is answered with the device-response error; the connection stays
    open and no control call is made. *)
Lemma RunTransaction_tid_mismatch_counterexample :
  exists d' t w',
    RunTransaction (H := ptp) inSession getStorageIDs zeroContainer None None 0
      (bus [got (failFor 5)]) = Done (d', t) w' /\
    TransactionID (t_rep t) = 5 /\ TransactionID (t_req t) = 7 /\
    t_err t = Some (RCError 8194) /\
    h d' = Some Handle /\ events w' = [].
Proof.
  vm_compute. do 3 eexists. repeat split.
Qed.




(** ** The data-in phase *)

Lemma fetchPacket_one (d : DeviceDirect) (w : World) (pkt : list byte)
  (after : list in_reply) :
  isNil (h d) = false ->
  ins w = got pkt :: after ->
  fetchPacket d zeroHeader w =
    match readHeader (take (fetchMaxPacketSize d) pkt) with
    | inl e => Done (zeroHeader, [], Some e) (set_ins after w)
    | inr (hd, rest) => Done (hd, rest, None) (set_ins after w)
    end.
Proof.
  intros Hh Ei. unfold fetchPacket, bind, BulkTransferIn.
  destruct (h d); [|discriminate]. rewrite Ei. cbn [got deliver].
  destruct (readHeader _) as [e|[hd rest]]; reflexivity.
Qed.

(** After the loop, [bulkRead] makes one more read exactly when the last
    read is a multiple of the packet size, and hands its bytes back. *)
Lemma bulkRead_extra_read `{Constants} (d : DeviceDirect) (wr wr' : Writer)
  (w : World) (n lastRead : Z) (err : option error) (after : list in_reply) :
  isNil (h d) = false ->
  fetchMaxPacketSize d <> 0 ->
  bulkReadLoop wr 0 (ins w) = (wr', n, lastRead, err, after) ->
  bulkRead d wr w =
    if Z.rem lastRead (fetchMaxPacketSize d) =? 0 then
      match after with
      | [] => Done (wr', n, [], Some (UsbError ERROR_TIMEOUT)) (set_ins [] w)
      | r :: tl =>
        Done (wr', n, fst (deliver rwBufSize r),
              option_map UsbError (snd (deliver rwBufSize r))) (set_ins tl w)
      end
    else Done (wr', n, [], err) (set_ins after w).
Proof.
  intros Hh Hp E. unfold bulkRead, BulkTransferIn.
  destruct (h d); [|discriminate].
  rewrite E. destruct (Z.eqb_spec (fetchMaxPacketSize d) 0); [contradiction|].
  destruct (Z.rem lastRead (fetchMaxPacketSize d) =? 0); [|reflexivity].
  cbn [ins set_ins].
  destruct after as [|r tl]; [reflexivity|].
  now destruct (deliver rwBufSize r).
Qed.

(** After a DATA first packet whose data phase was read without an
    error: a final packet that came with it is taken as the response, its
    header read from it and the whole of it handed on as [rest], with no
    further read; without one, the response is fetched by one more read. *)
Lemma receive_data_phase `{Constants} (d : DeviceDirect) (dest : option Writer)
  (w1 : World) (pkt : list byte) (after : list in_reply)
  (hd : usbBulkHeader) (rest : list byte)
  (wr : Writer) (finalPacket : list byte) (w2 : World) :
  isNil (h d) = false ->
  ins w1 = InData pkt None :: after ->
  readHeader (take (fetchMaxPacketSize d) pkt) = inr (hd, rest) ->
  hType hd = USB_CONTAINER_DATA ->
  dataPhase d
    (fst (fst (Write (match dest with Some x => x | None => NullWriter end) rest)))
    rest (set_ins after w1) = Done (wr, finalPacket, None) w2 ->
  let dest' := if isNil dest then None else Some wr in
  receive d dest w1 =
    if 0 <? len finalPacket then
      Done (Arrived (match readHeader finalPacket with
                     | inr (hd', _) => hd'
                     | inl _ => zeroHeader
                     end) finalPacket (isNil dest) dest') w2
    else
      match fetchPacket d zeroHeader w2 with
      | Done (hd', rest', _) w3 => Done (Arrived hd' rest' (isNil dest) dest') w3
      | Panic why w3 => Panic why w3
      end.
Proof.
  intros Hh Ei Er HT Ed. cbv zeta.
  assert (Hf : 0 <= fetchMaxPacketSize d).
  { destruct (Z.leb_spec 0 (fetchMaxPacketSize d)) as [|Hlt]; [assumption|].
    exfalso. unfold take in Er.
    replace (Z.to_nat (fetchMaxPacketSize d)) with 0%nat in Er by lia.
    cbn in Er. discriminate. }
  unfold receive.
  destruct (Z.ltb_spec (fetchMaxPacketSize d) 0); [lia|].
  unfold bind at 1. unfold fetchPacket at 1. unfold bind at 1.
  unfold BulkTransferIn. destruct (h d) eqn:Eh; [|discriminate].
  rewrite Ei. cbn [deliver]. rewrite Er. cbn [ret].
  rewrite HT. cbn [Z.eqb USB_CONTAINER_DATA Pos.eqb].
  destruct (Write (match dest with Some x => x | None => NullWriter end) rest)
    as [[wr0 n0] e0] eqn:Ew.
  cbn [fst] in Ed. rewrite (bind_Done _ _ _ _ _ Ed).
  destruct (0 <? len finalPacket); [reflexivity|].
  unfold bind. destruct (fetchPacket d zeroHeader w2) as [[[hd' rest'] e'] w3|];
    reflexivity.
Qed.

(** The loop of [bulkRead] into the null sink: the reads that fill the
    scratch buffer are passed, and the first shorter one ends the loop. *)
Lemma bulkReadLoop_null_fulls `{Constants} (fulls : list (list byte)) :
  Forall (fun f => len f = rwBufSize) fulls ->
  forall (n : Z) (tl : list in_reply),
    bulkReadLoop NullWriter n (map got fulls ++ tl)
    = bulkReadLoop NullWriter (n + len (concat fulls)) tl.
Proof.
  pose proof rwBufSize_pos as HB.
  induction 1 as [|f fulls Hf _ IH]; intros n tl.
  - cbn [map app concat]. unfold len. cbn [List.length]. now rewrite Z.add_0_r.
  - cbn [map app concat bulkReadLoop got deliver].
    assert (Ht : take rwBufSize f = f).
    { unfold take, len in *. apply firstn_all2. lia. }
    rewrite Ht, Hf.
    destruct (Z.ltb_spec 0 rwBufSize); [|lia]. cbn [Write].
    destruct (Z.ltb_spec rwBufSize rwBufSize); [lia|].
    rewrite IH, len_app, Hf. f_equal. lia.
Qed.

Lemma bulkReadLoop_null_short `{Constants} (short : list byte) (n : Z)
  (tl : list in_reply) :
  len short < rwBufSize ->
  bulkReadLoop NullWriter n (got short :: tl)
  = (NullWriter, n + len short, len short, None, tl).
Proof.
  intros Hs. cbn [bulkReadLoop got deliver].
  assert (Ht : take rwBufSize short = short).
  { unfold take, len in *. apply firstn_all2. lia. }
  rewrite Ht.
  destruct (Z.ltb_spec (len short) rwBufSize); [|lia].
  destruct (Z.ltb_spec 0 (len short)) as [|Hz]; [reflexivity|].
  pose proof (len_nonneg short).
  replace (len short) with 0 by lia. reflexivity.
Qed.

(** The data phase into the null sink, over the reads of [dataReads] and
    the packet that follows: all of the phase is read and nothing is
    kept.  Either no final packet comes back and the packet that follows
    is still to be read, or the packet that follows comes back as the
    final packet. *)
Lemma dataPhase_drains `{Constants} (d : DeviceDirect) (rest : list byte)
  (phase : list (list byte)) (resp : list byte) (after : list in_reply)
  (w : World) :
  isNil (h d) = false ->
  0 < fetchMaxPacketSize d ->
  ins w = map got phase ++ got resp :: after ->
  dataReads d rest phase ->
  resp <> [] ->
  exists fp w2,
    dataPhase d NullWriter rest w = Done (NullWriter, fp, None) w2 /\
    (fp = [] /\ ins w2 = got resp :: after \/
     0 < len fp /\ ins w2 = after).
Proof.
  intros Hh Hf Ei HP Hresp. pose proof rwBufSize_pos as HB.
  unfold dataReads in HP. unfold dataPhase.
  destruct (len rest + usbHdrLen =? fetchMaxPacketSize d).
  2:{ subst phase. exists [], w. split; [reflexivity|]. left. now split. }
  destruct HP as (fulls & short & HF & Hs & HP).
  assert (Hfp : 0 < len (take rwBufSize resp)).
  { destruct resp as [|b resp]; [contradiction|].
    unfold len, take. rewrite length_firstn. cbn [List.length]. lia. }
  unfold bind.
  destruct HP as [->|[Hrem ->]]; rewrite map_app, <- app_assoc in Ei;
    cbn [map app] in Ei.
  - rewrite (bulkRead_extra_read d NullWriter NullWriter w
               (0 + len (concat fulls) + len short) (len short) None
               (got resp :: after) Hh); [|lia|].
    + destruct (Z.rem (len short) (fetchMaxPacketSize d) =? 0);
        cbn [got deliver fst snd option_map ret].
      * do 2 eexists. split; [reflexivity|]. right. now split.
      * do 2 eexists. split; [reflexivity|]. left. now split.
    + rewrite Ei, bulkReadLoop_null_fulls, bulkReadLoop_null_short by assumption.
      reflexivity.
  - rewrite (bulkRead_extra_read d NullWriter NullWriter w
               (0 + len (concat fulls) + len short) (len short) None
               (got [] :: got resp :: after) Hh); [|lia|].
    + rewrite Hrem. cbn [Z.eqb got deliver fst snd option_map ret].
      do 2 eexists. unfold take. rewrite firstn_nil.
      split; [reflexivity|]. left. now split.
    + rewrite Ei, bulkReadLoop_null_fulls, bulkReadLoop_null_short by assumption.
      reflexivity.
Qed.

(** C7, amended. With no sink, when the request went out and the device
    sends a DATA-typed first packet, the rest of its data phase (after a
    first packet that fills the fetch packet size: the reads that fill the
    scratch buffer, a shorter read and, possibly, after a read that is a
    multiple of the packet size, a zero-length packet) and then a
    non-empty packet, all read without a transport error:
    [runTransaction] reads the whole data phase and the packet that
    follows it, keeps none of it (the sink stays nil), reads nothing
    beyond, and returns the desync error "unexpected data", whatever the
    packet that follows holds. *)
Theorem runTransaction_unexpected_data `{Constants}
  (d : DeviceDirect) (req rep : Container) (src : option Reader) (writeSize : Z)
  (w : World) (src' : option Reader) (w1 : World)
  (first : list byte) (hd : usbBulkHeader) (rest : list byte)
  (phase : list (list byte)) (resp : list byte) (after : list in_reply) :
  sendPhase (fst (assignIDs d req)) (snd (assignIDs d req)) src writeSize w
    = Done (src', None) w1 ->
  ins w1 = got first :: map got phase ++ got resp :: after ->
  readHeader (take (fetchMaxPacketSize d) first) = inr (hd, rest) ->
  hType hd = USB_CONTAINER_DATA ->
  dataReads d rest phase ->
  resp <> [] ->
  exists t w',
    runTransaction d req rep None src writeSize w
      = Done (fst (assignIDs d req), t) w' /\
    t_err t = Some (SyncError (UnexpectedData (Code req))) /\
    t_dest t = None /\
    ins w' = after.
Proof.
  intros E1 Ei Er HT HP Hresp.
  pose proof (sendPhase_open _ _ _ _ _ _ _ E1) as Hh.
  destruct (assignIDs_frame d req) as (Fh & Fd & Fe & _ & _ & Fc & _).
  assert (Ff : fetchMaxPacketSize (fst (assignIDs d req)) = fetchMaxPacketSize d).
  { unfold fetchMaxPacketSize. now rewrite Fd, Fe. }
  assert (Hf : 0 < fetchMaxPacketSize d).
  { destruct (Z.ltb_spec 0 (fetchMaxPacketSize d)) as [|Hle]; [assumption|].
    exfalso. unfold take in Er.
    replace (Z.to_nat (fetchMaxPacketSize d)) with 0%nat in Er by lia.
    cbn in Er. discriminate. }
  unfold runTransaction. destruct (assignIDs d req) as [d1 req1].
  cbn [fst snd] in *.
  rewrite (bind_Done _ _ _ _ _ E1).
  assert (HP1 : dataReads d1 rest phase).
  { unfold dataReads in *. now rewrite Ff. }
  destruct (dataPhase_drains d1 rest phase resp after
              (set_ins (map got phase ++ got resp :: after) w1)
              Hh ltac:(lia) eq_refl HP1 Hresp)
    as (fp & w2 & Ed & Hfp).
  assert (Ercv : exists hd' rest' w',
             receive d1 None w1 = Done (Arrived hd' rest' true None) w' /\
             ins w' = after).
  { rewrite <- Ff in Er.
    rewrite (receive_data_phase d1 None w1 first
               (map got phase ++ got resp :: after) hd rest
               NullWriter fp w2 Hh Ei Er HT Ed).
    cbn [isNil].
    destruct Hfp as [[-> I2]|[Hpos I2]].
    - cbn [len List.length Z.of_nat Z.ltb Z.compare].
      rewrite (fetchPacket_one d1 w2 resp after Hh I2).
      destruct (readHeader (take (fetchMaxPacketSize d1) resp)) as [e|[hd' rest']];
        do 3 eexists; (split; [reflexivity|reflexivity]).
    - apply Z.ltb_lt in Hpos. rewrite Hpos.
      do 3 eexists. split; [reflexivity|exact I2]. }
  destruct Ercv as (hd' & rest' & w' & E2 & Eins).
  rewrite (bind_Done _ _ _ _ _ E2).
  unfold conclude. destruct (decodeRep hd' rest' rep) as [rep' err'].
  eexists. exists w'. split; [reflexivity|]. cbn [t_err t_dest].
  rewrite Fc. repeat split. exact Eins.
Qed.

(** A full DATA packet, a read that fills the scratch buffer, a read of
    512 bytes, a zero-length packet, then an OK response: all of it is
    read, and the transaction ends in "unexpected data". *)
Lemma runTransaction_unexpected_data_witness :
  exists d' t w',
    runTransaction (H := ptp) inSession getStorageIDs zeroContainer None None 0
      (bus [got (fullData 17396); got fullRead; got (zeros 512); got [];
            got (okFor 7)])
    = Done (d', t) w' /\
    t_err t = Some (SyncError (UnexpectedData 4100)) /\ ins w' = [].
Proof.
  edestruct (runTransaction_unexpected_data (H := ptp) inSession getStorageIDs
               zeroContainer None 0
               (bus [got (fullData 17396); got fullRead; got (zeros 512); got [];
                     got (okFor 7)]))
    with (first := fullData 17396) (phase := [fullRead; zeros 512; []])
         (resp := okFor 7) (after := @nil in_reply)
    as (t & w' & E & Te & _ & Ei).
  - reflexivity.
  - reflexivity.
  - vm_compute. reflexivity.
  - reflexivity.
  - exists [fullRead], (zeros 512).
    split; [repeat constructor|]. split; [reflexivity|].
    right. split; reflexivity.
  - discriminate.
  - do 3 eexists. split; [exact E|]. split; [exact Te|exact Ei].
Defined.

(** C7 as stated fails: the device sends a full DATA packet and nothing
    more, the read that follows times out, and what [runTransaction]
    returns is the transport error, not the desync error. *)
Lemma runTransaction_unexpected_data_counterexample :
  exists d' t w',
    runTransaction (H := ptp) inSession getStorageIDs zeroContainer None None 0
      (bus [got (fullData 600)]) = Done (d', t) w' /\
    t_err t = Some (UsbError ERROR_TIMEOUT) /\
    (forall m, t_err t <> Some (SyncError m)).
Proof.
  vm_compute. do 3 eexists. repeat split. discriminate.
Qed.

(** C2. The extra read after a data phase that ends on a packet boundary
    delivers the response here: an OK response to transaction 7 with the
    one parameter 42.  Its header is taken from these bytes, but the
    parameters are decoded from the whole packet, header included
    ([rest = finalPacket], line 376), so the response comes out with the
    parameter 16, the length field of the header.  The same response
    after a short last read goes through [fetchPacket], which hands over
    the bytes that follow the header, and comes out with 42. *)
Theorem runTransaction_reused_packet_parameters :
  (exists d' t w',
      runTransaction (H := ptp) inSession getStorageIDs zeroContainer
        (Some (Buffer [])) None 0
        (bus [got (fullData 1012); got (zeros 512); got okWith42])
      = Done (d', t) w' /\
      t_err t = None /\ Code (t_rep t) = 8193 /\ TransactionID (t_rep t) = 7 /\
      Param (t_rep t) = [16] /\ ins w' = []) /\
  (exists d' t w',
      runTransaction (H := ptp) inSession getStorageIDs zeroContainer
        (Some (Buffer [])) None 0
        (bus [got (fullData 600); got (zeros 100); got okWith42])
      = Done (d', t) w' /\
      t_err t = None /\ Code (t_rep t) = 8193 /\ TransactionID (t_rep t) = 7 /\
      Param (t_rep t) = [42] /\ ins w' = []).
Proof.
  split; vm_compute; do 3 eexists; repeat split.
Qed.

(** ** Session set-up *)

(** C9. When the first [OpenSession] of [Configure] fails with the
    response code "session already opened", [Configure] calls
    [CloseSession], whatever it returns, and [OpenSession] again; when
    that succeeds, [Configure] returns success at once, in the very state
    the second [OpenSession] left: it makes no call of its own after it,
    no reset, no [Close], no sleep. *)
Theorem Configure_session_already_opened `{Constants} `{SessionOps}
  (d : DeviceDirect) (w : World)
  (d0 : DeviceDirect) (w0 : World) (d1 : DeviceDirect) (w1 : World)
  (d2 : DeviceDirect) (e2 : option error) (w2 : World)
  (d3 : DeviceDirect) (w3 : World) :
  (if isNil (h d) then Open d else ret (d, None)) w = Done (d0, None) w0 ->
  OpenSession d0 w0 = Done (d1, Some (RCError RC_SessionAlreadyOpened)) w1 ->
  CloseSession d1 w1 = Done (d2, e2) w2 ->
  OpenSession d2 w2 = Done (d3, None) w3 ->
  Configure d w = Done (d3, None) w3.
Proof.
  intros E0 E1 E2 E3. unfold Configure.
  rewrite (bind_Done _ _ _ _ _ E0). rewrite (bind_Done _ _ _ _ _ E1).
  cbn [isRCError]. rewrite Z.eqb_refl.
  unfold bind at 1. unfold bind at 1.
  rewrite E2, E3. reflexivity.
Qed.

(** On the stale session the three session calls are all [Configure]
    does: no control call is logged. *)
Lemma Configure_session_already_opened_witness :
  exists d3 w3,
    Configure (H := ptp) (H0 := simpleOps) openDevice staleSession
      = Done (d3, None) w3 /\
    session d3 = Some (mkSession 1 1) /\ events w3 = [] /\ ins w3 = [].
Proof.
  do 2 eexists. split.
  - eapply (Configure_session_already_opened (H := ptp) (H0 := simpleOps)
              openDevice staleSession).
    + reflexivity.
    + vm_compute. reflexivity.
    + vm_compute. reflexivity.
    + vm_compute. reflexivity.
  - vm_compute. repeat split.
Defined.

(** ** The data-out phase *)

Lemma len_take_exact {A : Type} (k : Z) (l : list A) :
  0 <= k <= len l -> len (take k l) = k.
Proof.
  intros Hk. unfold len, take in *. rewrite length_firstn. lia.
Qed.

Lemma take_all {A : Type} (k : Z) (l : list A) : len l <= k -> take k l = l.
Proof.
  intros Hk. unfold take, len in *. apply firstn_all2. lia.
Qed.

Lemma len_drop {A : Type} (k : Z) (l : list A) :
  0 <= k <= len l -> len (drop k l) = len l - k.
Proof.
  intros Hk. unfold len, drop in *. rewrite length_skipn. lia.
Qed.

Lemma drop_drop {A : Type} (a b : Z) (l : list A) :
  0 <= a -> 0 <= b -> drop b (drop a l) = drop (a + b) l.
Proof.
  intros Ha Hb. unfold drop. rewrite skipn_skipn. f_equal. lia.
Qed.

Lemma firstn_plus {A : Type} (a b : nat) (l : list A) :
  firstn a l ++ firstn b (skipn a l) = firstn (a + b) l.
Proof.
  revert l. induction a as [|a IH]; intros l; [reflexivity|].
  destruct l as [|x l]; cbn [firstn skipn Nat.add app].
  - now rewrite firstn_nil.
  - now rewrite IH.
Qed.

Lemma take_take_drop {A : Type} (a b : Z) (l : list A) :
  0 <= a -> 0 <= b -> take a l ++ take b (drop a l) = take (a + b) l.
Proof.
  intros Ha Hb. unfold take, drop. rewrite firstn_plus. f_equal. lia.
Qed.

Lemma drop_0 {A : Type} (l : list A) : drop 0 l = l.
Proof. reflexivity. Qed.

Lemma take_0 {A : Type} (l : list A) : take 0 l = [].
Proof. reflexivity. Qed.

Lemma BulkTransferOut_ok (d : DeviceDirect) (data : list byte) (w : World) :
  isNil (h d) = false ->
  (forall i, out_policy w i = OutOk) ->
  BulkTransferOut d data w = Done (len data, None) (set_sent (sent w ++ [data]) w).
Proof.
  intros Hh Hp. unfold BulkTransferOut.
  destruct (h d); [|discriminate]. now rewrite Hp.
Qed.

(** Reading from bytes held in memory. *)
Lemma fromBytes_cons (r : list byte) : r <> [] -> fromBytes r = [(r, None)].
Proof.
  destruct r; [contradiction|reflexivity].
Qed.

Lemma drop_nonempty {A : Type} (k : Z) (l : list A) :
  0 <= k < len l -> drop k l <> [].
Proof.
  intros Hk E. pose proof (len_drop k l ltac:(lia)) as L.
  rewrite E in L. unfold len in L at 1. cbn in L. lia.
Qed.

Lemma Read_fromBytes (r : list byte) (k : Z) :
  r <> [] -> 0 <= k ->
  Read (fromBytes r) k = (take k r, fromBytes (drop k r), None).
Proof.
  intros Hr Hk. rewrite (fromBytes_cons r Hr). cbn [Read].
  destruct (Z.leb_spec (len r) k) as [Hle|Hgt].
  - rewrite take_all by exact Hle.
    replace (drop k r) with (@nil byte); [reflexivity|].
    unfold drop. symmetry. apply skipn_all2. unfold len in Hle. lia.
  - now rewrite (fromBytes_cons (drop k r)) by (apply drop_nonempty; lia).
Qed.

Lemma CopyN_fromBytes (r : list byte) (n : Z) :
  CopyN (fromBytes r) n = (take n r, fromBytes (drop n r)).
Proof.
  destruct (Z.leb_spec n 0) as [Hn|Hn].
  - assert (E : forall x : Reader, CopyN x n = ([], x)).
    { intros [|[c e] tl]; cbn [CopyN];
        destruct (Z.leb_spec n 0); try lia; reflexivity. }
    rewrite E. unfold take, drop.
    replace (Z.to_nat n) with 0%nat by lia. reflexivity.
  - destruct r as [|b r0].
    + cbn [fromBytes CopyN]. destruct (n <=? 0); unfold take, drop;
        now rewrite firstn_nil, skipn_nil.
    + set (r := b :: r0). rewrite (fromBytes_cons r) by discriminate.
      cbn [CopyN]. destruct (Z.leb_spec n 0); [lia|].
      destruct (Z.leb_spec (len r) n) as [Hle|Hgt].
      * destruct (n - len r <=? 0); rewrite app_nil_r, take_all by exact Hle;
          (replace (drop n r) with (@nil byte); [reflexivity|]);
          unfold drop; symmetry; apply skipn_all2; unfold len in Hle; lia.
      * now rewrite (fromBytes_cons (drop n r)) by (apply drop_nonempty; lia).
Qed.

(** The loop of [bulkWrite] when the source holds the [size] bytes in
    memory and every write goes through: the bytes go out in order, and
    the length of the last write is [size] up to a multiple of the scratch
    size. *)
Lemma bulkWriteLoop_ideal `{Constants} (d : DeviceDirect) :
  isNil (h d) = false ->
  forall (fuel : nat) (size : Z) (r : list byte) (n last : Z) (w : World),
    (forall i, out_policy w i = OutOk) ->
    0 <= size <= len r ->
    (Z.to_nat size <= fuel)%nat ->
    exists w' chunks lastT,
      bulkWriteLoop fuel d size (fromBytes r) n last None w
        = Done (fromBytes (drop size r), n + size, lastT, None) w' /\
      sent w' = sent w ++ chunks /\
      out_policy w' = out_policy w /\
      concat chunks = take size r /\
      (size = 0 -> lastT = last) /\
      (0 < size -> 0 < lastT /\ (rwBufSize | lastT - size)).
Proof.
  intros Hh. induction fuel as [|fuel IH]; intros size r n last w Hp Hs Hf.
  - assert (size = 0) as -> by lia.
    exists w, [], last. cbn [bulkWriteLoop ret]. rewrite drop_0, Z.add_0_r.
    repeat split; try lia. now rewrite app_nil_r.
  - cbn [bulkWriteLoop]. destruct (Z.ltb_spec 0 size) as [Hpos|Hz].
    2:{ assert (size = 0) as -> by lia.
        exists w, [], last. cbn [ret]. rewrite drop_0, Z.add_0_r.
        repeat split; try lia. now rewrite app_nil_r. }
    pose proof rwBufSize_pos as HB.
    set (k := if size <? rwBufSize then size else rwBufSize).
    assert (Hk : 0 < k <= size /\ k <= rwBufSize /\ (k < size -> k = rwBufSize)).
    { unfold k. destruct (Z.ltb_spec size rwBufSize); lia. }
    assert (Hr : r <> []) by (intros ->; unfold len in Hs; cbn in Hs; lia).
    rewrite (Read_fromBytes r k Hr) by lia. cbv beta iota.
    rewrite (bind_Done _ _ _ _ _ (BulkTransferOut_ok d (take k r) w Hh Hp)).
    rewrite (len_take_exact k r) by lia.
    cbn [option_map isNil negb orb].
    destruct (Z.eqb_spec k 0); [lia|].
    destruct (IH (size - k) (drop k r) (n + k) k
                 (set_sent (sent w ++ [take k r]) w))
      as (w' & chunks & lastT & E & S & P & C & L0 & L1).
    { exact Hp. }
    { rewrite len_drop by lia. lia. }
    { lia. }
    exists w', (take k r :: chunks), lastT.
    rewrite E. rewrite drop_drop by lia.
    replace (k + (size - k)) with size by lia.
    replace (n + k + (size - k)) with (n + size) by lia.
    split; [reflexivity|]. split.
    { rewrite S. cbn [sent set_sent]. now rewrite <- app_assoc. }
    split; [exact P|]. split.
    { cbn [concat]. rewrite C, take_take_drop by lia. f_equal. lia. }
    split; [lia|]. intros _.
    destruct (Z.eq_dec (size - k) 0) as [Hz|Hnz].
    + rewrite (L0 Hz). split; [lia|].
      replace (k - size) with 0 by lia. apply Z.divide_0_r.
    + destruct L1 as [Lp Ld]; [lia|]. split; [exact Lp|].
      assert (k = rwBufSize) as Hkb by lia.
      replace (lastT - size) with ((lastT - (size - k)) - rwBufSize) by lia.
      apply Z.divide_sub_r; [exact Ld|apply Z.divide_refl].
Qed.

(** The end of [bulkWrite] under the same conditions: when the bytes left
    are a multiple of the packet size, a zero-length packet follows. *)
Lemma bulkWriteRest_ideal `{Constants} (d : DeviceDirect) (size : Z)
  (r : list byte) (n : Z) (w : World) :
  isNil (h d) = false ->
  (forall i, out_policy w i = OutOk) ->
  0 < sendMaxPacketSize d ->
  rwBufSize mod sendMaxPacketSize d = 0 ->
  0 <= size <= len r ->
  size mod sendMaxPacketSize d = 0 ->
  exists w' chunks,
    bulkWriteRest d size (fromBytes r) n None w
      = Done (fromBytes (drop size r), n + size, None) w' /\
    sent w' = sent w ++ chunks ++ [[]] /\
    concat chunks = take size r.
Proof.
  intros Hh Hp Hps Hdiv Hs Hm.
  destruct (bulkWriteLoop_ideal d Hh
              (Z.to_nat size + List.length (fromBytes r)) size r n 0 w Hp Hs
              (Nat.le_add_r _ _))
    as (w' & chunks & lastT & E & S & P & C & L0 & L1).
  unfold bulkWriteRest. rewrite (bind_Done _ _ _ _ _ E).
  destruct (Z.eqb_spec (sendMaxPacketSize d) 0); [lia|].
  assert (Hrem : Z.rem lastT (sendMaxPacketSize d) = 0).
  { destruct (Z.eq_dec size 0) as [Hz|Hnz].
    - rewrite (L0 Hz). apply Z.rem_0_l. lia.
    - destruct L1 as [Lp Ld]; [lia|].
      apply Z.rem_divide; [lia|].
      apply Z.mod_divide in Hdiv; [|lia]. apply Z.mod_divide in Hm; [|lia].
      replace lastT with ((lastT - size) + size) by lia.
      apply Z.divide_add_r; [|exact Hm].
      apply (Z.divide_trans _ rwBufSize); assumption. }
  rewrite Hrem. cbn [Z.eqb].
  assert (Hp' : forall i, out_policy w' i = OutOk) by (intros i; now rewrite P).
  rewrite (bind_Done _ _ _ _ _ (BulkTransferOut_ok d [] w' Hh Hp')).
  eexists. exists chunks. split; [reflexivity|].
  cbn [sent set_sent]. split; [|exact C].
  rewrite S. now rewrite <- app_assoc.
Qed.

(** C6, amended. In a data-out phase with a header, on an open device
    whose send packet size is at least 12 and divides the size of the
    scratch buffer, when every write goes through and the source holds the
    [size] bytes of the payload in memory, so that each of its reads fills
    the buffer: [bulkWrite] writes the header and the payload, in order,
    and then a zero-length packet whenever the payload bytes left once the
    header's packet is out are an exact multiple of the send packet size,
    none left included.  The header's packet takes up to [packet size -
    12] payload bytes with it, and none when [SeparateHeader] is set: by
    default the condition is that [12 + size] is a multiple of the packet
    size or that the payload fits in the first packet; with
    [SeparateHeader] it is that the payload size is such a multiple. *)
Theorem bulkWrite_zero_length_packet `{Constants}
  (d : DeviceDirect) (hdr : usbBulkHeader) (r : list byte) (size : Z) (w : World) :
  isNil (h d) = false ->
  (forall i, out_policy w i = OutOk) ->
  usbHdrLen <= sendMaxPacketSize d ->
  rwBufSize mod sendMaxPacketSize d = 0 ->
  0 <= size <= len r ->
  (size - (if SeparateHeader d then 0
           else Z.min size (sendMaxPacketSize d - usbHdrLen)))
    mod sendMaxPacketSize d = 0 ->
  exists w' data,
    bulkWrite d (Some hdr) (fromBytes r) size w
      = Done (fromBytes (drop size r), size, None) w' /\
    sent w' = sent w ++ data ++ [[]] /\
    concat data = writeHeader (dataHeader hdr size) ++ take size r.
Proof.
  intros Hh Hp Hps Hdiv Hs Hm. unfold bulkWrite, usbHdrLen in *.
  destruct (Z.ltb_spec (sendMaxPacketSize d) 0); [lia|].
  set (cp := if size <? (if SeparateHeader d then 12 else sendMaxPacketSize d) - 12
             then size
             else (if SeparateHeader d then 12 else sendMaxPacketSize d) - 12).
  assert (Hcp : cp = (if SeparateHeader d then 0
                      else Z.min size (sendMaxPacketSize d - 12))).
  { unfold cp. destruct (SeparateHeader d).
    - destruct (Z.ltb_spec size (12 - 12)); lia.
    - destruct (Z.ltb_spec size (sendMaxPacketSize d - 12)); lia. }
  assert (Hc0 : 0 <= cp <= size).
  { rewrite Hcp. destruct (SeparateHeader d); lia. }
  rewrite <- Hcp in Hm.
  assert (Hg : SeparateHeader d && (sendMaxPacketSize d <? 12) = false).
  { destruct (SeparateHeader d); [|reflexivity].
    destruct (Z.ltb_spec (sendMaxPacketSize d) 12); [lia|reflexivity]. }
  rewrite Hg, CopyN_fromBytes. cbv beta iota.
  rewrite (bind_Done _ _ _ _ _
             (BulkTransferOut_ok d (writeHeader (dataHeader hdr size) ++ take cp r)
                                 w Hh Hp)).
  destruct (bulkWriteRest_ideal d (size - cp) (drop cp r) cp
              (set_sent (sent w ++ [writeHeader (dataHeader hdr size) ++ take cp r]) w))
    as (w' & chunks & E & S & C); try assumption; try lia.
  { rewrite len_drop by lia. lia. }
  rewrite drop_drop in E by lia.
  replace (cp + (size - cp)) with size in E by lia.
  exists w', ((writeHeader (dataHeader hdr size) ++ take cp r) :: chunks).
  split; [exact E|]. split.
  - rewrite S. cbn [sent set_sent]. now rewrite <- app_assoc.
  - cbn [concat]. rewrite C, <- app_assoc. f_equal.
    rewrite take_take_drop by lia. f_equal. lia.
Qed.

(** 500 bytes of payload fill the header's 512-byte packet: a zero-length
    packet follows. *)
Lemma bulkWrite_zero_length_packet_witness :
  exists w',
    bulkWrite (H := ptp) openDevice (Some (sendObjectHeader 500))
              (fromBytes (zeros 500)) 500 (bus []) = Done ([], 500, None) w' /\
    map len (sent w') = [512; 0].
Proof.
  edestruct (bulkWrite_zero_length_packet (H := ptp) openDevice
               (sendObjectHeader 500) (zeros 500) 500 (bus []))
    as (w' & data & E & S & C).
  - reflexivity.
  - intros i. reflexivity.
  - vm_compute. discriminate.
  - reflexivity.
  - vm_compute. split; discriminate.
  - reflexivity.
  - exists w'. split; [exact E|].
    vm_compute in E. injection E as <-. reflexivity.
Defined.

(** C6 as stated fails: a 512-byte payload with packet size 512 goes out
    as the header's 512-byte packet and a 12-byte packet, and no
    zero-length packet follows. *)
Lemma bulkWrite_zero_length_packet_counterexample :
  len (zeros 512) mod sendMaxPacketSize openDevice = 0 /\
  exists w',
    bulkWrite (H := ptp) openDevice (Some (sendObjectHeader 512))
              (fromBytes (zeros 512)) 512 (bus []) = Done ([], 512, None) w' /\
    map len (sent w') = [512; 12].
Proof.
  split; [reflexivity|].
  vm_compute. eexists. split; reflexivity.
Qed.

(** ** Adequacy of the loops *)

(** [size] turns and one for each entry of the source are enough for the
    loop of [bulkWrite]: any larger number of turns gives the same run. *)
Lemma bulkWriteLoop_fuel `{Constants} (d : DeviceDirect) :
  forall (f1 f2 : nat) (size : Z) (r : Reader) (n last : Z) (err : option error)
         (w : World),
    (Z.to_nat size + List.length r <= f1)%nat ->
    (Z.to_nat size + List.length r <= f2)%nat ->
    bulkWriteLoop f1 d size r n last err w = bulkWriteLoop f2 d size r n last err w.
Proof.
  induction f1 as [|f1 IH]; intros [|f2] size r n last err w H1 H2;
    cbn [bulkWriteLoop]; try reflexivity.
  - destruct (Z.ltb_spec 0 size); [lia|reflexivity].
  - destruct (Z.ltb_spec 0 size); [lia|reflexivity].
  - destruct (Z.ltb_spec 0 size) as [Hpos|]; [|reflexivity].
    set (k := if size <? rwBufSize then size else rwBufSize).
    assert (Hk : 0 < k <= size).
    { pose proof rwBufSize_pos. unfold k.
      destruct (Z.ltb_spec size rwBufSize); lia. }
    destruct r as [|[c e] tl]; [reflexivity|]. cbn [Read List.length] in *.
    pose proof (len_nonneg c) as Hc.
    destruct (Z.leb_spec (len c) k) as [Hle|Hgt].
    + destruct e as [e|]; [reflexivity|].
      unfold bind. destruct (BulkTransferOut d c w) as [[lt uerr] w1|]; [|reflexivity].
      destruct (negb (isNil (option_map UsbError uerr)) || (lt =? 0));
        [reflexivity|].
      apply IH; lia.
    + rewrite (len_take_exact k c) by lia.
      unfold bind. destruct (BulkTransferOut d (take k c) w)
        as [[lt uerr] w1|]; [|reflexivity].
      destruct (negb (isNil (option_map UsbError uerr)) || (lt =? 0));
        [reflexivity|].
      apply IH; cbn [List.length]; lia.
Qed.

(** The reads of the loop of [bulkRead] that went through: what went to
    the sink is the last read up to a multiple of the scratch size. *)
Lemma bulkReadLoop_count `{Constants} (script : list in_reply) :
  forall (wr wr' : Writer) (n0 n lastRead : Z) (after : list in_reply),
    bulkReadLoop wr n0 script = (wr', n, lastRead, None, after) ->
    (rwBufSize | n - n0 - lastRead) /\ 0 <= lastRead < rwBufSize.
Proof.
  pose proof rwBufSize_pos as HB.
  induction script as [|[data e] tl IH]; intros wr wr' n0 n lastRead after;
    cbn [bulkReadLoop deliver]; [discriminate|].
  destruct e; [discriminate|].
  pose proof (len_nonneg (take rwBufSize data)) as L0.
  pose proof (len_take rwBufSize data) as L1.
  assert (W : forall x, Write x (take rwBufSize data)
                        = (fst (fst (Write x (take rwBufSize data))),
                           len (take rwBufSize data), None)).
  { intros []; reflexivity. }
  destruct (Z.ltb_spec 0 (len (take rwBufSize data))) as [Hpos|Hz].
  - rewrite (W wr).
    destruct (Z.ltb_spec (len (take rwBufSize data)) rwBufSize).
    + intros [= _ <- <- _]. split; [|lia].
      replace (n0 + len (take rwBufSize data) - n0 - len (take rwBufSize data))
        with 0 by lia.
      apply Z.divide_0_r.
    + intros E. apply IH in E as [D R]. split; [|exact R].
      assert (len (take rwBufSize data) = rwBufSize) as Hfull by lia.
      rewrite Hfull in D.
      replace (n - n0 - lastRead) with ((n - (n0 + rwBufSize) - lastRead) + rwBufSize)
        by lia.
      apply Z.divide_add_r; [exact D|apply Z.divide_refl].
  - destruct (Z.ltb_spec (len (take rwBufSize data)) rwBufSize); [|lia].
    intros [= _ <- <- _]. split; [|lia].
    replace (n0 + 0 - n0 - len (take rwBufSize data)) with 0 by lia.
    apply Z.divide_0_r.
Qed.

(** * Further properties of the engine *)

(** ** The codec, end to end *)

Lemma len_packet (ty code tr : Z) (ps : list Z) :
  len (packet ty code tr ps) = usbHdrLen + 4 * len ps.
Proof.
  unfold packet. now rewrite len_app, len_writeHeader, len_writeParams.
Qed.

(** X1. A RESPONSE packet on the wire, read by [fetchPacket] and decoded
    by [decodeRep], gives back its code, its transaction id and its
    parameters in order, after the parameters the container already held;
    the error is nil for the OK code and the device-response error
    carrying the code otherwise. *)
Theorem fetchPacket_decodeRep_round_trip `{Constants}
  (d : DeviceDirect) (w : World) (code tr : Z) (ps : list Z)
  (rep : Container) (after : list in_reply) :
  isNil (h d) = false ->
  0 <= code < 2 ^ 16 ->
  0 <= tr < 2 ^ 32 ->
  Forall (fun p => 0 <= p < 2 ^ 32) ps ->
  usbHdrLen + 4 * len ps <= fetchMaxPacketSize d ->
  usbHdrLen + 4 * len ps < 2 ^ 32 ->
  ins w = got (packet USB_CONTAINER_RESPONSE code tr ps) :: after ->
  exists hd rest,
    fetchPacket d zeroHeader w = Done (hd, rest, None) (set_ins after w) /\
    decodeRep hd rest rep =
      (mkContainer code (SessionID rep) tr (Param rep ++ ps),
       if code =? RC_OK then None else Some (RCError code)).
Proof.
  intros Hh HC HT HP Hfit Hlen Ei.
  pose proof (len_nonneg ps) as Hk.
  set (hd := mkHeader (usbHdrLen + 4 * len ps) USB_CONTAINER_RESPONSE code tr).
  exists hd, (writeParams ps). split.
  - unfold fetchPacket, bind, BulkTransferIn.
    destruct (h d); [|discriminate]. rewrite Ei. cbn [got deliver].
    rewrite take_all by (rewrite len_packet; lia).
    unfold packet. fold hd.
    rewrite readHeader_writeHeader;
      cbn [hd hLength hType hCode hTransactionID];
      unfold usbHdrLen, USB_CONTAINER_RESPONSE in *; try lia.
    reflexivity.
  - assert (HL : hLength hd - usbHdrLen <= len (writeParams ps)).
    { cbn [hd hLength]. rewrite len_writeParams. lia. }
    assert (Hq : Z.quot (hLength hd - usbHdrLen) 4 = len ps).
    { cbn [hd hLength]. replace (usbHdrLen + 4 * len ps - usbHdrLen)
        with (len ps * 4) by lia.
      apply Z.quot_mul. lia. }
    assert (Hd : decodeParams (writeParams ps) (len ps) = ps).
    { rewrite <- (app_nil_r (writeParams ps)).
      now apply decodeParams_writeParams. }
    destruct (Z.eqb_spec code RC_OK) as [Hok|Hno].
    + rewrite (decodeRep_ok hd (writeParams ps) rep eq_refl HL Hok).
      now rewrite Hq, Hd.
    + rewrite (decodeRep_device_error hd (writeParams ps) rep eq_refl HL Hno).
      now rewrite Hq, Hd.
Qed.

Lemma fetchPacket_decodeRep_round_trip_witness :
  exists hd rest,
    fetchPacket inSession zeroHeader
      (bus [got (packet USB_CONTAINER_RESPONSE 8193 7 [65537; 2])])
      = Done (hd, rest, None) (set_ins [] (bus [])) /\
    decodeRep (H := ptp) hd rest zeroContainer
      = (mkContainer 8193 0 7 [65537; 2], None).
Proof.
  destruct (fetchPacket_decodeRep_round_trip (H := ptp) inSession
              (bus [got (packet USB_CONTAINER_RESPONSE 8193 7 [65537; 2])])
              8193 7 [65537; 2] zeroContainer [])
    as (hd & rest & E & D).
  - reflexivity.
  - lia.
  - lia.
  - repeat constructor; lia.
  - vm_compute. discriminate.
  - vm_compute. reflexivity.
  - reflexivity.
  - exists hd, rest. split; [exact E|exact D].
Defined.

(** ** More than five parameters *)

Lemma assignIDs_Param (d : DeviceDirect) (req : Container) :
  Param (snd (assignIDs d req)) = Param req.
Proof.
  unfold assignIDs. now destruct (session d).
Qed.

(** X2. A request with more than five parameters is not refused with an
    error: [runTransaction] panics on the copy into the five-word array of
    [sendReq], before anything is written or read (the bus is as the call
    found it), and so does [RunTransaction] on an open device. *)
Theorem runTransaction_six_parameters `{Constants}
  (d : DeviceDirect) (req rep : Container)
  (dest : option Writer) (src : option Reader) (writeSize : Z) (w : World) :
  5 < len (Param req) ->
  runTransaction d req rep dest src writeSize w = Panic IndexOutOfRange w /\
  (isNil (h d) = false ->
   RunTransaction d req rep dest src writeSize w = Panic IndexOutOfRange w).
Proof.
  intros Hk.
  assert (E : runTransaction d req rep dest src writeSize w = Panic IndexOutOfRange w).
  { unfold runTransaction. pose proof (assignIDs_Param d req) as P.
    destruct (assignIDs d req) as [d1 req1]. cbn [snd] in P.
    unfold bind, sendPhase, bind, sendReq. rewrite P.
    destruct (Z.ltb_spec 5 (len (Param req))); [reflexivity|lia]. }
  split; [exact E|].
  intros Hh. unfold RunTransaction. destruct (h d); [|discriminate].
  unfold bind. now rewrite E.
Qed.

Lemma runTransaction_six_parameters_witness :
  RunTransaction (H := ptp) inSession (mkContainer 4100 0 0 [1; 2; 3; 4; 5; 6])
    zeroContainer None None 0 (bus [got (okFor 7)])
  = Panic IndexOutOfRange (bus [got (okFor 7)]).
Proof.
  apply (runTransaction_six_parameters (H := ptp) inSession
           (mkContainer 4100 0 0 [1; 2; 3; 4; 5; 6]) zeroContainer None None 0
           (bus [got (okFor 7)])).
  - vm_compute. reflexivity.
  - reflexivity.
Defined.

(** ** What [RunTransaction] returns, and when it closes *)

Lemma frames_runTransaction `{Constants} (d : DeviceDirect) (req rep : Container)
  (dest : option Writer) (src : option Reader) (writeSize : Z) :
  frames extends (runTransaction d req rep dest src writeSize).
Proof.
  unfold runTransaction. destruct (assignIDs d req) as [d1 req1].
  bind_frames; [apply frames_writes_extends, frames_sendPhase|].
  intros [src' [e|]]; [ret_frames|].
  bind_frames; [apply frames_receive|].
  intros [e dest'|hd rest u dest']; [ret_frames|].
  destruct (conclude d1 req1 rep hd rest u). ret_frames.
Qed.

(** Where the response and the error of a transaction come from. *)
Lemma runTransaction_inv `{Constants} (d : DeviceDirect) (req rep : Container)
  (dest : option Writer) (src : option Reader) (writeSize : Z) (w : World)
  (d' : DeviceDirect) (t : txn) (w' : World) :
  runTransaction d req rep dest src writeSize w = Done (d', t) w' ->
  d' = fst (assignIDs d req) /\ t_req t = snd (assignIDs d req) /\
  ((exists e, t_err t = Some e /\ t_rep t = rep) \/
   (exists hd rest u,
       (t_rep t, t_err t) = conclude d' (t_req t) rep hd rest u)).
Proof.
  unfold runTransaction. destruct (assignIDs d req) as [d1 req1]. cbn [fst snd].
  unfold bind at 1.
  destruct (sendPhase d1 req1 src writeSize w) as [[src' [e|]] w1|];
    [| |discriminate].
  { intros [= <- <- _]. repeat split. left. now exists e. }
  unfold bind. destruct (receive d1 dest w1) as [[e dest'|hd rest u dest'] w2|];
    [| |discriminate].
  { intros [= <- <- _]. repeat split. left. now exists e. }
  destruct (conclude d1 req1 rep hd rest u) as [rep' err'] eqn:Ec.
  intros [= <- <- _]. repeat split. right. exists hd, rest, u.
  cbn [t_rep t_err t_req]. now rewrite Ec.
Qed.

Lemma conclude_None `{Constants} (d : DeviceDirect) (req rep rep' : Container)
  (hd : usbBulkHeader) (rest : list byte) (u : bool) :
  conclude d req rep hd rest u = (rep', None) ->
  u = false /\ hType hd = USB_CONTAINER_RESPONSE /\
  hLength hd - usbHdrLen <= len rest /\
  Code rep' = RC_OK /\ hCode hd = RC_OK /\
  TransactionID rep' = hTransactionID hd /\
  SessionID rep' = SessionID req /\
  Param rep' = Param rep ++ decodeParams rest (Z.quot (hLength hd - usbHdrLen) 4) /\
  (isNil (session d) = false -> hTransactionID hd = TransactionID req).
Proof.
  unfold conclude, decodeRep.
  destruct (Z.eqb_spec (hType hd) USB_CONTAINER_RESPONSE) as [HT|]; cbn [negb].
  2:{ destruct u; discriminate. }
  destruct (Z.ltb_spec (len rest) (hLength hd - usbHdrLen)).
  { destruct u; discriminate. }
  cbn [Code SessionID TransactionID Param].
  destruct (Z.eqb_spec (hCode hd) RC_OK) as [HC|]; cbn [negb].
  2:{ destruct u; discriminate. }
  destruct u; [discriminate|].
  cbn [Code SessionID TransactionID Param].
  destruct (isNil (session d)); cbn [negb andb].
  - intros [= <-]. cbn [Code SessionID TransactionID Param].
    repeat split; try assumption. discriminate.
  - destruct (Z.eqb_spec (hTransactionID hd) (TransactionID req)) as [HI|];
      cbn [negb]; [|discriminate].
    intros [= <-]. cbn [Code SessionID TransactionID Param].
    repeat split; try assumption. intros _. exact HI.
Qed.

(** [Close] on an open device: the device it leaves. *)
Lemma Close_result `{Constants} (d : DeviceDirect) (w : World) :
  isNil (h d) = false -> 0 < fetchMaxPacketSize d ->
  exists err w' evs,
    Close d w
      = Done (set_h None (fst (assignIDs d closeSessionRequest)), err) w' /\
    events w' = events w ++ evs ++ [EvHandleClose].
Proof.
  intros Hh Hf.
  destruct (Close_Done d w Hh Hf) as (d' & err & w' & evs & E & _ & Ev).
  exists err, w', evs. split; [|exact Ev].
  rewrite E. f_equal. f_equal. revert E. unfold Close.
  destruct (h d) eqn:Eh; [|discriminate].
  unfold assignIDs at 1. unfold closeSessionRequest.
  destruct (session d) as [s|] eqn:Es.
  - assert (R : ready d (mkContainer OC_CloseSession 0 0 []) None = true).
    { unfold ready. rewrite Eh. cbn. apply Z.ltb_lt in Hf. now rewrite Hf. }
    destruct (runTransaction_Done d (mkContainer OC_CloseSession 0 0 [])
                zeroContainer None None 0 w R) as (t & w1 & more & E1 & _).
    unfold bind. rewrite E1. unfold assignIDs. rewrite Es. cbn [fst].
    destruct (t_err t); unfold control, ret;
      destruct (claimed _); intros [= <- _ _]; reflexivity.
  - unfold bind, control, ret. cbn [fst].
    destruct (claimed d); intros [= <- _ _]; reflexivity.
Qed.

(** X3. On a device that is ready for the request (the handle is open,
    the request has at most five parameters, the fetch packet size is
    positive and, when outgoing data is given, the send packet size is
    positive, and at least 12 with [SeparateHeader]), [RunTransaction]
    always returns, and it closes the connection exactly when the error is
    a [usb.Error] or a [SyncError].  Then the handle is nil, the handle's [Close] is the last
    control call, and the counter of an open session has advanced twice:
    for the transaction and for the CloseSession that [Close] sends; the
    session itself is not dropped.  Otherwise the device is as the
    transaction left it, the counter advanced once, and no control call is
    made. *)
Theorem RunTransaction_teardown `{Constants}
  (d : DeviceDirect) (req rep : Container)
  (dest : option Writer) (src : option Reader) (writeSize : Z) (w : World) :
  ready d req src = true ->
  exists d' t w',
    RunTransaction d req rep dest src writeSize w = Done (d', t) w' /\
    t_req t = snd (assignIDs d req) /\
    if fatal (t_err t)
    then d' = set_h None (fst (assignIDs (fst (assignIDs d req))
                                         closeSessionRequest)) /\
         exists evs, events w' = events w ++ evs ++ [EvHandleClose]
    else d' = fst (assignIDs d req) /\ events w' = events w.
Proof.
  intros R.
  destruct (runTransaction_Done d req rep dest src writeSize w R)
    as (t & w1 & more & E & Q & (_ & _ & _ & Ev & _) & _).
  apply ready_inv in R as (Hh & _ & Hf & _).
  destruct (assignIDs_frame d req) as (Fh & Fd & Fe & _).
  assert (Hh1 : isNil (h (fst (assignIDs d req))) = false) by now rewrite Fh.
  assert (Hf1 : 0 < fetchMaxPacketSize (fst (assignIDs d req))).
  { unfold fetchMaxPacketSize in *. now rewrite Fd, Fe. }
  unfold RunTransaction. destruct (h d); [|discriminate].
  rewrite (bind_Done _ _ _ _ _ E).
  destruct (t_err t) as [e|] eqn:Et; cbn [fatal].
  - destruct (isUsbError e || isSyncError e) eqn:Ef.
    + destruct (Close_result _ w1 Hh1 Hf1) as (err & w2 & evs & Ec & Ev2).
      rewrite (bind_Done _ _ _ _ _ Ec). cbn [ret].
      do 3 eexists. split; [reflexivity|]. split; [exact Q|].
      rewrite Et. cbn [fatal]. rewrite Ef. split; [reflexivity|].
      exists evs. now rewrite <- Ev.
    + do 3 eexists. split; [reflexivity|]. split; [exact Q|].
      rewrite Et. cbn [fatal]. rewrite Ef. now split.
  - do 3 eexists. split; [reflexivity|]. split; [exact Q|].
    rewrite Et. now split.
Qed.

(** A device that stays silent: the read times out, and the connection
    is closed with the counter at 9. *)
Lemma RunTransaction_teardown_witness :
  exists d' t w',
    RunTransaction (H := ptp) inSession getStorageIDs zeroContainer None None 0
      (bus []) = Done (d', t) w' /\
    t_err t = Some (UsbError ERROR_TIMEOUT) /\
    h d' = None /\ session d' = Some (mkSession 9 99).
Proof.
  destruct (RunTransaction_teardown (H := ptp) inSession getStorageIDs
              zeroContainer None None 0 (bus []))
    as (d' & t & w' & E & _ & F).
  - reflexivity.
  - exists d', t, w'. split; [exact E|].
    vm_compute in E. injection E as <- <- _. repeat split.
Defined.

(** X4. A nil error from [RunTransaction] means that the device answered
    with a RESPONSE packet carrying the OK code, that with an open session
    its transaction id is the request's, that the response carries the
    request's session id, and that the connection was left open with no
    control call made. *)
Theorem RunTransaction_nil_error `{Constants}
  (d : DeviceDirect) (req rep : Container)
  (dest : option Writer) (src : option Reader) (writeSize : Z) (w : World)
  (d' : DeviceDirect) (t : txn) (w' : World) :
  RunTransaction d req rep dest src writeSize w = Done (d', t) w' ->
  t_err t = None ->
  Code (t_rep t) = RC_OK /\
  SessionID (t_rep t) = SessionID (t_req t) /\
  (isNil (session d) = false ->
   TransactionID (t_rep t) = TransactionID (t_req t)) /\
  d' = fst (assignIDs d req) /\
  isNil (h d') = false /\
  events w' = events w.
Proof.
  unfold RunTransaction. destruct (h d) eqn:Eh.
  2:{ intros [= _ <- _]. discriminate. }
  unfold bind.
  destruct (runTransaction d req rep dest src writeSize w) as [[d1 t1] w1|] eqn:E;
    [|discriminate].
  destruct (t_err t1) as [e|] eqn:Et.
  { destruct (isUsbError e || isSyncError e).
    - destruct (Close d1 w1) as [[d2 e2] w2|]; [|discriminate].
      intros [= _ <- _] Hn. congruence.
    - intros [= _ <- _] Hn. congruence. }
  intros [= <- <- <-] _.
  pose proof (frames_runTransaction _ _ _ _ _ _ _ _ _ E) as (_ & _ & _ & Ev & _).
  destruct (runTransaction_inv _ _ _ _ _ _ _ _ _ _ E) as (Ed & Eq & [(e & Ee & _)|C]).
  { congruence. }
  destruct C as (hd & rest & u & C). rewrite Et in C. symmetry in C.
  apply conclude_None in C as (_ & _ & _ & HC & _ & HI & HS & _ & Hm).
  destruct (assignIDs_frame d req) as (Fh & _ & _ & _ & Fs & _).
  split; [exact HC|]. split; [exact HS|]. split; [|split; [exact Ed|split]].
  - intros Hs. rewrite HI. apply Hm. now rewrite Ed, Fs.
  - now rewrite Ed, Fh, Eh.
  - exact Ev.
Qed.

Lemma RunTransaction_nil_error_witness :
  exists d' t w',
    RunTransaction (H := ptp) inSession getStorageIDs zeroContainer None None 0
      (bus [got (okFor 7)]) = Done (d', t) w' /\
    Code (t_rep t) = 8193 /\ TransactionID (t_rep t) = TransactionID (t_req t).
Proof.
  assert (E : exists d' t w',
             RunTransaction (H := ptp) inSession getStorageIDs zeroContainer
               None None 0 (bus [got (okFor 7)]) = Done (d', t) w' /\
             t_err t = None).
  { vm_compute. do 3 eexists. split; reflexivity. }
  destruct E as (d' & t & w' & E & Et).
  destruct (RunTransaction_nil_error (H := ptp) _ _ _ _ _ _ _ _ _ _ E Et)
    as (HC & _ & HI & _).
  exists d', t, w'. split; [exact E|]. split; [exact HC|]. now apply HI.
Defined.

(** X5. When the exchange hands over a valid RESPONSE packet with the OK
    code, with no unexpected data flagged, and either no session is open
    or the packet carries the id given to the request, [RunTransaction]
    returns nil with the response filled in: the code, the id, the
    parameters after those the container held, and the session id of the
    request. *)
Theorem RunTransaction_success `{Constants}
  (d : DeviceDirect) (req rep : Container)
  (dest : option Writer) (src : option Reader) (writeSize : Z) (w : World)
  (hd : usbBulkHeader) (rest : list byte)
  (dest' : option Writer) (src' : option Reader) (w' : World) :
  answers d req dest src writeSize w hd rest false dest' src' w' ->
  hType hd = USB_CONTAINER_RESPONSE ->
  hLength hd - usbHdrLen <= len rest ->
  hCode hd = RC_OK ->
  (forall s, session d = Some s -> hTransactionID hd = tid s) ->
  RunTransaction d req rep dest src writeSize w =
    Done (fst (assignIDs d req),
          mkTxn (snd (assignIDs d req))
                (mkContainer RC_OK (SessionID (snd (assignIDs d req)))
                   (hTransactionID hd)
                   (Param rep ++
                    decodeParams rest (Z.quot (hLength hd - usbHdrLen) 4)))
                dest' src' None) w'.
Proof.
  intros A HT HL HC HI.
  destruct (runTransaction_answers d req rep dest src writeSize w hd rest false
              dest' src' w' A) as (E & Hh & _).
  unfold conclude in E. rewrite (decodeRep_ok hd rest rep HT HL HC) in E.
  cbn [TransactionID Code SessionID Param] in E.
  assert (G : negb (isNil (session (fst (assignIDs d req))))
              && negb (hTransactionID hd =? TransactionID (snd (assignIDs d req)))
              = false).
  { unfold assignIDs. destruct (session d) as [s|] eqn:Es; cbn [fst snd].
    - cbn. rewrite (HI s eq_refl), Z.eqb_refl. reflexivity.
    - now rewrite Es. }
  rewrite G in E. cbn [fst snd] in E. rewrite HC in E.
  apply RunTransaction_keeps; [assumption|exact E|].
  cbn [t_err]. discriminate.
Qed.

Lemma RunTransaction_success_witness :
  exists d' w',
    RunTransaction (H := ptp) inSession getStorageIDs zeroContainer None None 0
      (bus [got (packet USB_CONTAINER_RESPONSE 8193 7 [3])])
    = Done (d', mkTxn (mkContainer 4100 99 7 []) (mkContainer 8193 99 7 [3])
                      None None None) w' /\
    session d' = Some (mkSession 8 99).
Proof.
  do 2 eexists. split.
  - etransitivity.
    + eapply (RunTransaction_success (H := ptp) inSession getStorageIDs
                zeroContainer None None 0
                (bus [got (packet USB_CONTAINER_RESPONSE 8193 7 [3])])).
      * eexists. split; reflexivity.
      * reflexivity.
      * vm_compute. discriminate.
      * reflexivity.
      * intros s [= <-]. reflexivity.
    + vm_compute. reflexivity.
  - reflexivity.
Defined.

(** ** [Close] *)

(** X6. [Close] is idempotent: after it closed an open device, a second
    [Close] returns nil and does nothing, and every [RunTransaction] is
    refused with the "device is not open" error, without a transfer or a
    control call. *)
Theorem Close_idempotent `{Constants} (d : DeviceDirect) (w : World) :
  isNil (h d) = false ->
  0 < fetchMaxPacketSize d ->
  exists d1 err w1,
    Close d w = Done (d1, err) w1 /\
    Close d1 w1 = Done (d1, None) w1 /\
    forall req rep dest src writeSize,
      RunTransaction d1 req rep dest src writeSize w1
        = Done (d1, mkTxn req rep dest src
                          (Some (PlainError (CannotRun (Code req))))) w1.
Proof.
  intros Hh Hf.
  destruct (Close_Done d w Hh Hf) as (d1 & err & w1 & evs & E & Hn & _).
  exists d1, err, w1. split; [exact E|]. split.
  - unfold Close. now rewrite Hn.
  - intros req rep dest src writeSize. unfold RunTransaction. now rewrite Hn.
Qed.

Lemma Close_idempotent_witness :
  exists d1 err w1,
    Close (H := ptp) inSession (bus [got (okFor 7)]) = Done (d1, err) w1 /\
    Close (H := ptp) d1 w1 = Done (d1, None) w1.
Proof.
  destruct (Close_idempotent (H := ptp) inSession (bus [got (okFor 7)]))
    as (d1 & err & w1 & E & E2 & _).
  - reflexivity.
  - reflexivity.
  - now exists d1, err, w1.
Defined.



(** ** Reassembly of the data-in phase *)

(** The loop of [bulkRead] over reads that fill the scratch buffer. *)
Lemma bulkReadLoop_fulls `{Constants} (fulls : list (list byte)) :
  Forall (fun f => len f = rwBufSize) fulls ->
  forall (c : list byte) (n : Z) (tl : list in_reply),
    bulkReadLoop (Buffer c) n (map got fulls ++ tl)
    = bulkReadLoop (Buffer (c ++ concat fulls)) (n + len (concat fulls)) tl.
Proof.
  pose proof rwBufSize_pos as HB.
  induction 1 as [|f fulls Hf _ IH]; intros c n tl.
  - cbn [map app concat]. rewrite app_nil_r. unfold len. cbn [List.length].
    now rewrite Z.add_0_r.
  - cbn [map app concat bulkReadLoop got deliver].
    rewrite take_all by lia. rewrite Hf.
    destruct (Z.ltb_spec 0 rwBufSize); [|lia]. cbn [Write].
    destruct (Z.ltb_spec rwBufSize rwBufSize); [lia|].
    rewrite IH, <- app_assoc, len_app, Hf. f_equal. lia.
Qed.

(** The loop ends on a read that does not fill the scratch buffer. *)
Lemma bulkReadLoop_short `{Constants} (short c : list byte) (n : Z)
  (tl : list in_reply) :
  len short < rwBufSize ->
  bulkReadLoop (Buffer c) n (got short :: tl)
  = (Buffer (c ++ short), n + len short, len short, None, tl).
Proof.
  intros Hs. cbn [bulkReadLoop got deliver].
  rewrite take_all by lia.
  destruct (Z.ltb_spec (len short) rwBufSize); [|lia].
  destruct (Z.ltb_spec 0 (len short)) as [|Hz]; [reflexivity|].
  pose proof (len_nonneg short).
  destruct short; [|unfold len in *; cbn [List.length] in *; lia].
  rewrite app_nil_r. reflexivity.
Qed.

(** X8. [bulkRead] appends to the sink the bytes of every read, in order,
    up to and with the first read that does not fill the scratch buffer,
    and counts them; when the length of that read is no multiple of the
    packet size it stops there: no further read, no final packet, and the
    replies that follow stay in the pipe. *)
Theorem bulkRead_reassembles `{Constants}
  (d : DeviceDirect) (w : World) (c : list byte)
  (fulls : list (list byte)) (short : list byte) (after : list in_reply) :
  isNil (h d) = false ->
  0 < fetchMaxPacketSize d ->
  Forall (fun f => len f = rwBufSize) fulls ->
  len short < rwBufSize ->
  Z.rem (len short) (fetchMaxPacketSize d) <> 0 ->
  ins w = map got fulls ++ got short :: after ->
  bulkRead d (Buffer c) w
  = Done (Buffer (c ++ concat fulls ++ short),
          len (concat fulls) + len short, [], None) (set_ins after w).
Proof.
  intros Hh Hf HF Hs Hr Ei.
  rewrite (bulkRead_extra_read d (Buffer c) (Buffer (c ++ concat fulls ++ short)) w
             (len (concat fulls) + len short) (len short) None after Hh);
    [|lia|].
  - destruct (Z.eqb_spec (Z.rem (len short) (fetchMaxPacketSize d)) 0);
      [contradiction|reflexivity].
  - rewrite Ei, bulkReadLoop_fulls, bulkReadLoop_short by assumption.
    now rewrite <- app_assoc.
Qed.

(** Two reads that fill the scratch buffer and one of 100 bytes: the
    response that follows stays in the pipe. *)
Lemma bulkRead_reassembles_witness :
  bulkRead (H := ptp) openDevice (Buffer [])
    (bus [got fullRead; got fullRead; got (zeros 100); got (okFor 7)])
  = Done (Buffer ([] ++ concat [fullRead; fullRead] ++ zeros 100),
          len (concat [fullRead; fullRead]) + len (zeros 100), [], None)
         (set_ins [got (okFor 7)]
            (bus [got fullRead; got fullRead; got (zeros 100); got (okFor 7)])).
Proof.
  apply (bulkRead_reassembles (H := ptp) openDevice
           (bus [got fullRead; got fullRead; got (zeros 100); got (okFor 7)])
           [] [fullRead; fullRead] (zeros 100) [got (okFor 7)]).
  - reflexivity.
  - reflexivity.
  - constructor; [vm_compute; reflexivity|].
    constructor; [vm_compute; reflexivity|]. constructor.
  - vm_compute. reflexivity.
  - vm_compute. discriminate.
  - reflexivity.
Defined.

(** X9. When the read that ends the loop of [bulkRead] has a length that
    is a multiple of the packet size, zero included, [bulkRead] makes
    exactly one more read; its bytes are handed back as the final packet
    and not written to the sink nor counted, and its status is the error
    returned. *)
Theorem bulkRead_boundary `{Constants}
  (d : DeviceDirect) (w : World) (c : list byte)
  (fulls : list (list byte)) (short : list byte)
  (r : in_reply) (after : list in_reply) :
  isNil (h d) = false ->
  0 < fetchMaxPacketSize d ->
  Forall (fun f => len f = rwBufSize) fulls ->
  len short < rwBufSize ->
  Z.rem (len short) (fetchMaxPacketSize d) = 0 ->
  ins w = map got fulls ++ got short :: r :: after ->
  bulkRead d (Buffer c) w
  = Done (Buffer (c ++ concat fulls ++ short),
          len (concat fulls) + len short,
          fst (deliver rwBufSize r),
          option_map UsbError (snd (deliver rwBufSize r))) (set_ins after w).
Proof.
  intros Hh Hf HF Hs Hr Ei.
  rewrite (bulkRead_extra_read d (Buffer c) (Buffer (c ++ concat fulls ++ short)) w
             (len (concat fulls) + len short) (len short) None (r :: after) Hh);
    [|lia|].
  - now rewrite Hr.
  - rewrite Ei, bulkReadLoop_fulls, bulkReadLoop_short by assumption.
    now rewrite <- app_assoc.
Qed.

(** A read of 512 bytes ends the loop; the response comes with the extra
    read and does not reach the sink. *)
Lemma bulkRead_boundary_witness :
  bulkRead (H := ptp) openDevice (Buffer [])
    (bus [got (zeros 512); got (okFor 7)])
  = Done (Buffer (zeros 512), 512, okFor 7, None) (bus []).
Proof.
  rewrite (bulkRead_boundary (H := ptp) openDevice
             (bus [got (zeros 512); got (okFor 7)])
             [] [] (zeros 512) (got (okFor 7)) []).
  - reflexivity.
  - reflexivity.
  - reflexivity.
  - constructor.
  - vm_compute. reflexivity.
  - reflexivity.
  - reflexivity.
Defined.

(** X10. A read of the loop that fails ends the loop without touching
    the sink; when the bytes it delivered are a multiple of the packet
    size, none included, [bulkRead] still makes the extra read and returns
    the status of that read: the error of the failed read is lost when the
    extra read goes through. *)
Theorem bulkRead_error_replaced `{Constants}
  (d : DeviceDirect) (w : World) (c : list byte)
  (fulls : list (list byte)) (part : list byte) (e : usb_Error)
  (final : list byte) (after : list in_reply) :
  isNil (h d) = false ->
  0 < fetchMaxPacketSize d ->
  Forall (fun f => len f = rwBufSize) fulls ->
  Z.rem (len (take rwBufSize part)) (fetchMaxPacketSize d) = 0 ->
  ins w = map got fulls ++ InData part (Some e) :: got final :: after ->
  bulkRead d (Buffer c) w
  = Done (Buffer (c ++ concat fulls), len (concat fulls),
          take rwBufSize final, None) (set_ins after w).
Proof.
  intros Hh Hf HF Hr Ei.
  rewrite (bulkRead_extra_read d (Buffer c) (Buffer (c ++ concat fulls)) w
             (len (concat fulls)) (len (take rwBufSize part))
             (Some (UsbError e)) (got final :: after) Hh); [|lia|].
  - now rewrite Hr.
  - rewrite Ei, bulkReadLoop_fulls by assumption. reflexivity.
Qed.

(** An I/O error (-1) with no bytes, then a read that goes through. *)
Lemma bulkRead_error_replaced_witness :
  bulkRead (H := ptp) openDevice (Buffer [])
    (bus [InData [] (Some (-1)); got (okFor 7)])
  = Done (Buffer [], 0, okFor 7, None) (bus []).
Proof.
  rewrite (bulkRead_error_replaced (H := ptp) openDevice
             (bus [InData [] (Some (-1)); got (okFor 7)])
             [] [] [] (-1) (okFor 7) []).
  - reflexivity.
  - reflexivity.
  - reflexivity.
  - constructor.
  - reflexivity.
  - reflexivity.
Defined.

(** ** The receive phase, end to end *)

Lemma fetchPacket_failed (d : DeviceDirect) (hd0 hd : usbBulkHeader)
  (rest : list byte) (e : error) (w w' : World) :
  fetchPacket d hd0 w = Done (hd, rest, Some e) w' -> hd = hd0 /\ rest = [].
Proof.
  unfold fetchPacket, bind.
  destruct (BulkTransferIn d (fetchMaxPacketSize d) w) as [[b [ue|]] w1|];
    [| |discriminate].
  - intros [= <- <- _ _]. now split.
  - destruct (readHeader b) as [e'|[hd' rest']]; [|discriminate].
    intros [= <- <- _ _]. now split.
Qed.

(** X11. On an open device, with a sink, a data phase that starts with a
    full DATA packet, goes on with reads that fill the scratch buffer and
    ends with a
    shorter read whose length is no multiple of the fetch packet size
    reaches the sink whole and in order: the payload of the first packet,
    every read that fills the scratch buffer, and the short read that ends
    it.  The packet after it, which holds a header, is read on its own as
    the response.  Nothing is read beyond the response, and the length the
    DATA header declares plays no part.  (After a last read that is a
    multiple of the packet size [bulkRead] makes its extra read: X9.) *)
Theorem receive_collects_data `{Constants}
  (d : DeviceDirect) (w : World) (c : list byte)
  (first : list byte) (hd : usbBulkHeader) (rest : list byte)
  (fulls : list (list byte)) (short : list byte)
  (resp : list byte) (hd' : usbBulkHeader) (rest' : list byte)
  (after : list in_reply) :
  isNil (h d) = false ->
  ins w = got first :: map got fulls ++ got short :: got resp :: after ->
  readHeader (take (fetchMaxPacketSize d) first) = inr (hd, rest) ->
  hType hd = USB_CONTAINER_DATA ->
  len rest + usbHdrLen = fetchMaxPacketSize d ->
  Forall (fun f => len f = rwBufSize) fulls ->
  len short < rwBufSize ->
  Z.rem (len short) (fetchMaxPacketSize d) <> 0 ->
  readHeader (take (fetchMaxPacketSize d) resp) = inr (hd', rest') ->
  receive d (Some (Buffer c)) w
  = Done (Arrived hd' rest' false
            (Some (Buffer (c ++ rest ++ concat fulls ++ short))))
         (set_ins after w).
Proof.
  intros Hh Ei Er HT Hfull HF Hs Hr Er'.
  pose proof (len_nonneg rest) as Hr0.
  assert (Hf : 0 < fetchMaxPacketSize d) by (unfold usbHdrLen in *; lia).
  set (w2 := set_ins (got resp :: after) w).
  assert (Ed : dataPhase d (fst (fst (Write (Buffer c) rest))) rest
                 (set_ins (map got fulls ++ got short :: got resp :: after) w)
               = Done (Buffer (c ++ rest ++ concat fulls ++ short), [], None) w2).
  { unfold dataPhase. rewrite Hfull, Z.eqb_refl. cbn [Write fst].
    unfold bind.
    rewrite (bulkRead_extra_read d (Buffer (c ++ rest))
               (Buffer ((c ++ rest) ++ concat fulls ++ short)) _
               (len (concat fulls) + len short) (len short) None
               (got resp :: after) Hh); [|lia|].
    - destruct (Z.eqb_spec (Z.rem (len short) (fetchMaxPacketSize d)) 0);
        [contradiction|].
      cbn [ret]. now rewrite <- app_assoc.
    - cbn [ins set_ins].
      rewrite bulkReadLoop_fulls, bulkReadLoop_short by assumption.
      now rewrite <- !app_assoc. }
  rewrite (receive_data_phase d (Some (Buffer c)) w first
             (map got fulls ++ got short :: got resp :: after) hd rest
             _ [] w2 Hh Ei Er HT Ed).
  cbn [len List.length Z.of_nat Z.ltb Z.compare isNil].
  rewrite (fetchPacket_one d w2 resp after Hh eq_refl), Er'. reflexivity.
Qed.

(** A first packet of 512 bytes, a short read of 100 and the response. *)
Lemma receive_collects_data_witness :
  exists hd' rest',
    receive (H := ptp) inSession (Some (Buffer []))
      (bus [got (fullData 600); got (zeros 100); got okWith42])
    = Done (Arrived hd' rest' false (Some (Buffer (zeros 600)))) (bus []) /\
    hCode hd' = 8193.
Proof.
  do 2 eexists. split.
  - etransitivity.
    + eapply (receive_collects_data (H := ptp) inSession
                (bus [got (fullData 600); got (zeros 100); got okWith42])
                [] (fullData 600) _ _ [] (zeros 100) okWith42 _ _ []).
      * reflexivity.
      * reflexivity.
      * vm_compute. reflexivity.
      * reflexivity.
      * reflexivity.
      * constructor.
      * vm_compute. reflexivity.
      * vm_compute. discriminate.
      * vm_compute. reflexivity.
    + vm_compute. reflexivity.
  - reflexivity.
Defined.

(** X12. When the first packet read is shorter than a header, a
    zero-length packet included, [RunTransaction] returns the plain error
    of the reader ([io.ErrUnexpectedEOF], or [io.EOF] for no byte): the
    response container is left as it was and the connection is not
    closed. *)
Theorem RunTransaction_runt_packet `{Constants}
  (d : DeviceDirect) (req rep : Container)
  (dest : option Writer) (src : option Reader) (writeSize : Z) (w : World)
  (src' : option Reader) (w1 : World) (pkt : list byte) (after : list in_reply) :
  sendPhase (fst (assignIDs d req)) (snd (assignIDs d req)) src writeSize w
    = Done (src', None) w1 ->
  ins w1 = got pkt :: after ->
  0 <= fetchMaxPacketSize d ->
  len (take (fetchMaxPacketSize d) pkt) < usbHdrLen ->
  RunTransaction d req rep dest src writeSize w
  = Done (fst (assignIDs d req),
          mkTxn (snd (assignIDs d req)) rep dest src'
                (Some (PlainError
                         (if len (take (fetchMaxPacketSize d) pkt) =? 0
                          then ErrEOF else ErrUnexpectedEOF))))
         (set_ins after w1).
Proof.
  intros E1 Ei Hf Hl.
  pose proof (sendPhase_open _ _ _ _ _ _ _ E1) as Hh1.
  destruct (assignIDs_frame d req) as (Fh & Fd & Fe & _).
  assert (Ff : fetchMaxPacketSize (fst (assignIDs d req)) = fetchMaxPacketSize d).
  { unfold fetchMaxPacketSize. now rewrite Fd, Fe. }
  assert (Hh : isNil (h d) = false) by now rewrite <- Fh.
  apply RunTransaction_keeps; [exact Hh| |].
  - unfold runTransaction. destruct (assignIDs d req) as [d1 req1].
    cbn [fst snd] in *.
    rewrite (bind_Done _ _ _ _ _ E1). unfold receive. rewrite Ff.
    destruct (Z.ltb_spec (fetchMaxPacketSize d) 0); [lia|].
    unfold bind. rewrite (fetchPacket_one d1 w1 pkt after Hh1 Ei), Ff.
    unfold readHeader.
    destruct (len (take (fetchMaxPacketSize d) pkt) =? 0); [reflexivity|].
    destruct (Z.ltb_spec (len (take (fetchMaxPacketSize d) pkt)) usbHdrLen);
      [reflexivity|lia].
  - cbn [t_err]. intros e [= <-]. reflexivity.
Qed.

(** A zero-length packet instead of the response. *)
Lemma RunTransaction_runt_packet_witness :
  exists d' t w',
    RunTransaction (H := ptp) inSession getStorageIDs zeroContainer None None 0
      (bus [got []; got (okFor 7)]) = Done (d', t) w' /\
    t_err t = Some (PlainError ErrEOF) /\
    h d' = Some Handle /\ ins w' = [got (okFor 7)].
Proof.
  do 3 eexists. split.
  - eapply (RunTransaction_runt_packet (H := ptp) inSession getStorageIDs
              zeroContainer None None 0 (bus [got []; got (okFor 7)])).
    + reflexivity.
    + reflexivity.
    + vm_compute. discriminate.
    + vm_compute. reflexivity.
  - repeat split.
Defined.

(** X13. After a data phase that was read to its end into the sink, the
    error of the read that should bring the response is dropped: whatever
    it is, a time-out or a packet that is too short, [runTransaction]
    decodes the empty header and returns the desync error "got type 0",
    with the response container left as it was. *)
Theorem runTransaction_response_read_fails `{Constants}
  (d : DeviceDirect) (req rep : Container) (wr0 : Writer)
  (src : option Reader) (writeSize : Z) (w : World)
  (src' : option Reader) (w1 : World)
  (pkt : list byte) (after : list in_reply)
  (hd : usbBulkHeader) (rest : list byte)
  (wr : Writer) (w2 : World)
  (hd' : usbBulkHeader) (rest' : list byte) (e : error) (w3 : World) :
  sendPhase (fst (assignIDs d req)) (snd (assignIDs d req)) src writeSize w
    = Done (src', None) w1 ->
  ins w1 = InData pkt None :: after ->
  readHeader (take (fetchMaxPacketSize d) pkt) = inr (hd, rest) ->
  hType hd = USB_CONTAINER_DATA ->
  dataPhase (fst (assignIDs d req)) (fst (fst (Write wr0 rest))) rest
            (set_ins after w1) = Done (wr, [], None) w2 ->
  fetchPacket (fst (assignIDs d req)) zeroHeader w2 = Done (hd', rest', Some e) w3 ->
  runTransaction d req rep (Some wr0) src writeSize w
  = Done (fst (assignIDs d req),
          mkTxn (snd (assignIDs d req)) rep (Some wr) src'
                (Some (SyncError (GotType 0)))) w3.
Proof.
  intros E1 Ei Er HT Ed Ef.
  pose proof (sendPhase_open _ _ _ _ _ _ _ E1) as Hh1.
  destruct (fetchPacket_failed _ _ _ _ _ _ _ Ef) as [-> ->].
  destruct (assignIDs_frame d req) as (_ & Fd & Fe & _).
  assert (Ff : fetchMaxPacketSize (fst (assignIDs d req)) = fetchMaxPacketSize d).
  { unfold fetchMaxPacketSize. now rewrite Fd, Fe. }
  rewrite <- Ff in Er.
  unfold runTransaction. destruct (assignIDs d req) as [d1 req1].
  cbn [fst snd] in *.
  rewrite (bind_Done _ _ _ _ _ E1).
  unfold bind at 1.
  rewrite (receive_data_phase d1 (Some wr0) w1 pkt after hd rest wr [] w2
             Hh1 Ei Er HT Ed).
  cbn [len List.length Z.of_nat Z.ltb Z.compare isNil]. rewrite Ef.
  reflexivity.
Qed.

(** A short DATA packet, then silence: the time-out of the response read
    comes back as "got type 0". *)
Lemma runTransaction_response_read_fails_witness :
  exists d' t w',
    runTransaction (H := ptp) inSession getStorageIDs zeroContainer
      (Some (Buffer [])) None 0 (bus [got smallData]) = Done (d', t) w' /\
    t_err t = Some (SyncError (GotType 0)).
Proof.
  do 3 eexists. split.
  - eapply (runTransaction_response_read_fails (H := ptp) inSession getStorageIDs
              zeroContainer (Buffer []) None 0 (bus [got smallData])).
    + reflexivity.
    + reflexivity.
    + vm_compute. reflexivity.
    + reflexivity.
    + vm_compute. reflexivity.
    + vm_compute. reflexivity.
  - reflexivity.
Defined.

(** ** The data-out phase: the other cases *)

Lemma len_take_min {A : Type} (k : Z) (l : list A) :
  len (take k l) = Z.min (Z.max 0 k) (len l).
Proof.
  unfold len, take. rewrite length_firstn. lia.
Qed.

Lemma len_drop_min {A : Type} (k : Z) (l : list A) :
  len (drop k l) = len l - Z.min (Z.max 0 k) (len l).
Proof.
  unfold len, drop. rewrite length_skipn. lia.
Qed.

Lemma take_drop {A : Type} (k : Z) (l : list A) : take k l ++ drop k l = l.
Proof. apply firstn_skipn. Qed.

Lemma take_app_le {A : Type} (k : Z) (l l' : list A) :
  k <= len l -> take k (l ++ l') = take k l.
Proof.
  intros Hk. unfold take, len in *. rewrite firstn_app.
  replace (Z.to_nat k - List.length l)%nat with 0%nat by lia.
  cbn [firstn]. apply app_nil_r.
Qed.

Lemma take_app_ge {A : Type} (k : Z) (l l' : list A) :
  len l <= k -> take k (l ++ l') = l ++ take (k - len l) l'.
Proof.
  intros Hk. unfold take, len in *. rewrite firstn_app.
  rewrite firstn_all2 by lia. f_equal. f_equal. lia.
Qed.

Lemma drop_app_le {A : Type} (k : Z) (l l' : list A) :
  k <= len l -> drop k (l ++ l') = drop k l ++ l'.
Proof.
  intros Hk. unfold drop, len in *. rewrite skipn_app.
  replace (Z.to_nat k - List.length l)%nat with 0%nat by lia.
  reflexivity.
Qed.

Lemma drop_app_ge {A : Type} (k : Z) (l l' : list A) :
  len l <= k -> drop k (l ++ l') = drop (k - len l) l'.
Proof.
  intros Hk. unfold drop, len in *. rewrite skipn_app.
  rewrite skipn_all2 by lia. cbn [app]. f_equal. lia.
Qed.

(** The loop of [bulkWrite] as in [bulkWriteLoop_ideal], with the size of
    every write. *)
Lemma bulkWriteLoop_writes `{Constants} (d : DeviceDirect) :
  isNil (h d) = false ->
  forall (fuel : nat) (size : Z) (r : list byte) (n last : Z) (w : World),
    (forall i, out_policy w i = OutOk) ->
    0 <= size <= len r ->
    (Z.to_nat size <= fuel)%nat ->
    exists w' chunks lastT,
      bulkWriteLoop fuel d size (fromBytes r) n last None w
        = Done (fromBytes (drop size r), n + size, lastT, None) w' /\
      sent w' = sent w ++ chunks /\
      concat chunks = take size r /\
      Forall (fun c => 0 < len c <= rwBufSize) chunks /\
      (size = 0 -> lastT = last) /\
      (0 < size -> 0 < lastT /\ (rwBufSize | lastT - size)).
Proof.
  intros Hh. induction fuel as [|fuel IH]; intros size r n last w Hp Hs Hf.
  - assert (size = 0) as -> by lia.
    exists w, [], last. cbn [bulkWriteLoop ret]. rewrite drop_0, Z.add_0_r.
    repeat split; try lia; try constructor. now rewrite app_nil_r.
  - cbn [bulkWriteLoop]. destruct (Z.ltb_spec 0 size) as [Hpos|Hz].
    2:{ assert (size = 0) as -> by lia.
        exists w, [], last. cbn [ret]. rewrite drop_0, Z.add_0_r.
        repeat split; try lia; try constructor. now rewrite app_nil_r. }
    pose proof rwBufSize_pos as HB.
    set (k := if size <? rwBufSize then size else rwBufSize).
    assert (Hk : 0 < k <= size /\ k <= rwBufSize /\ (k < size -> k = rwBufSize)).
    { unfold k. destruct (Z.ltb_spec size rwBufSize); lia. }
    assert (Hr : r <> []) by (intros ->; unfold len in Hs; cbn in Hs; lia).
    rewrite (Read_fromBytes r k Hr) by lia. cbv beta iota.
    rewrite (bind_Done _ _ _ _ _ (BulkTransferOut_ok d (take k r) w Hh Hp)).
    rewrite (len_take_exact k r) by lia.
    cbn [option_map isNil negb orb].
    destruct (Z.eqb_spec k 0); [lia|].
    destruct (IH (size - k) (drop k r) (n + k) k
                 (set_sent (sent w ++ [take k r]) w))
      as (w' & chunks & lastT & E & S & C & F & L0 & L1).
    { exact Hp. }
    { rewrite len_drop by lia. lia. }
    { lia. }
    exists w', (take k r :: chunks), lastT.
    rewrite E. rewrite drop_drop by lia.
    replace (k + (size - k)) with size by lia.
    replace (n + k + (size - k)) with (n + size) by lia.
    split; [reflexivity|]. split.
    { rewrite S. cbn [sent set_sent]. now rewrite <- app_assoc. }
    split.
    { cbn [concat]. rewrite C, take_take_drop by lia. f_equal. lia. }
    split.
    { constructor; [rewrite len_take_exact by lia; lia|exact F]. }
    split; [lia|]. intros _.
    destruct (Z.eq_dec (size - k) 0) as [Hz|Hnz].
    + rewrite (L0 Hz). split; [lia|].
      replace (k - size) with 0 by lia. apply Z.divide_0_r.
    + destruct L1 as [Lp Ld]; [lia|]. split; [exact Lp|].
      assert (k = rwBufSize) as Hkb by lia.
      replace (lastT - size) with ((lastT - (size - k)) - rwBufSize) by lia.
      apply Z.divide_sub_r; [exact Ld|apply Z.divide_refl].
Qed.

(** X14. In a data-out phase with a header, on an open device whose send
    packet size is at least 12 and divides the size of the scratch buffer,
    when every write goes through and the source holds the [size] bytes of
    the payload in memory, so that each of its reads fills the buffer:
    when the payload bytes left once the header's packet is out are no
    multiple of the send packet size, [bulkWrite] writes the header and
    the payload and nothing else: every write is non-empty, no
    zero-length packet follows, and the count returned is the payload
    size. *)
Theorem bulkWrite_no_zero_length_packet `{Constants}
  (d : DeviceDirect) (hdr : usbBulkHeader) (r : list byte) (size : Z) (w : World) :
  isNil (h d) = false ->
  (forall i, out_policy w i = OutOk) ->
  usbHdrLen <= sendMaxPacketSize d ->
  rwBufSize mod sendMaxPacketSize d = 0 ->
  0 <= size <= len r ->
  (size - (if SeparateHeader d then 0
           else Z.min size (sendMaxPacketSize d - usbHdrLen)))
    mod sendMaxPacketSize d <> 0 ->
  exists w' data,
    bulkWrite d (Some hdr) (fromBytes r) size w
      = Done (fromBytes (drop size r), size, None) w' /\
    sent w' = sent w ++ data /\
    concat data = writeHeader (dataHeader hdr size) ++ take size r /\
    Forall (fun p => 0 < len p) data.
Proof.
  intros Hh Hp Hps Hdiv Hs Hm. unfold bulkWrite, usbHdrLen in *.
  destruct (Z.ltb_spec (sendMaxPacketSize d) 0); [lia|].
  set (cp := if size <? (if SeparateHeader d then 12 else sendMaxPacketSize d) - 12
             then size
             else (if SeparateHeader d then 12 else sendMaxPacketSize d) - 12).
  assert (Hcp : cp = (if SeparateHeader d then 0
                      else Z.min size (sendMaxPacketSize d - 12))).
  { unfold cp. destruct (SeparateHeader d).
    - destruct (Z.ltb_spec size (12 - 12)); lia.
    - destruct (Z.ltb_spec size (sendMaxPacketSize d - 12)); lia. }
  assert (Hc0 : 0 <= cp <= size).
  { rewrite Hcp. destruct (SeparateHeader d); lia. }
  rewrite <- Hcp in Hm.
  assert (Hg : SeparateHeader d && (sendMaxPacketSize d <? 12) = false).
  { destruct (SeparateHeader d); [|reflexivity].
    destruct (Z.ltb_spec (sendMaxPacketSize d) 12); [lia|reflexivity]. }
  rewrite Hg, CopyN_fromBytes. cbv beta iota.
  set (first := writeHeader (dataHeader hdr size) ++ take cp r).
  rewrite (bind_Done _ _ _ _ _ (BulkTransferOut_ok d first w Hh Hp)).
  assert (Hleft : 0 < size - cp).
  { destruct (Z.eq_dec (size - cp) 0) as [Hz|]; [|lia].
    rewrite Hz in Hm. rewrite Z.mod_0_l in Hm by lia. contradiction. }
  destruct (bulkWriteLoop_writes d Hh
              (Z.to_nat (size - cp) + List.length (fromBytes (drop cp r)))
              (size - cp) (drop cp r) cp 0
              (set_sent (sent w ++ [first]) w) Hp)
    as (w' & chunks & lastT & E & S & C & F & _ & L1).
  { rewrite len_drop by lia. lia. }
  { apply Nat.le_add_r. }
  destruct L1 as [Lp Ld]; [exact Hleft|].
  unfold bulkWriteRest. rewrite (bind_Done _ _ _ _ _ E).
  destruct (Z.eqb_spec (sendMaxPacketSize d) 0); [lia|].
  assert (Hrem : Z.rem lastT (sendMaxPacketSize d) <> 0).
  { intros Hr. apply Z.rem_divide in Hr; [|lia].
    apply Z.mod_divide in Hdiv; [|lia]. apply Hm.
    apply Z.mod_divide; [lia|].
    replace (size - cp) with (lastT - (lastT - (size - cp))) by lia.
    apply Z.divide_sub_r; [exact Hr|].
    apply (Z.divide_trans _ rwBufSize); assumption. }
  destruct (Z.eqb_spec (Z.rem lastT (sendMaxPacketSize d)) 0); [contradiction|].
  rewrite drop_drop by lia.
  replace (cp + (size - cp)) with size by lia.
  exists w', (first :: chunks). split; [reflexivity|]. split.
  { rewrite S. cbn [sent set_sent]. now rewrite <- app_assoc. }
  split.
  { cbn [concat]. unfold first. rewrite C, <- app_assoc. f_equal.
    rewrite take_take_drop by lia. f_equal. lia. }
  constructor.
  - unfold first. rewrite len_app, len_writeHeader.
    pose proof (len_nonneg (take cp r)). unfold usbHdrLen. lia.
  - eapply Forall_impl; [|exact F]. cbn. intros c [Hc _]. exact Hc.
Qed.

(** 512 bytes of payload with 512-byte packets: 512 and 12 bytes. *)
Lemma bulkWrite_no_zero_length_packet_witness :
  exists w',
    bulkWrite (H := ptp) openDevice (Some (sendObjectHeader 512))
              (fromBytes (zeros 512)) 512 (bus []) = Done ([], 512, None) w' /\
    map len (sent w') = [512; 12].
Proof.
  edestruct (bulkWrite_no_zero_length_packet (H := ptp) openDevice
               (sendObjectHeader 512) (zeros 512) 512 (bus []))
    as (w' & data & E & S & C & F).
  - reflexivity.
  - intros i. reflexivity.
  - vm_compute. discriminate.
  - reflexivity.
  - vm_compute. split; discriminate.
  - vm_compute. discriminate.
  - exists w'. split; [exact E|].
    vm_compute in E. injection E as <-. reflexivity.
Defined.

(** [io.CopyN] from a source that delivers non-empty bursts without an
    error: the first [n] bytes, and what is left is such a source. *)
Lemma CopyN_fromBursts (bs : list (list byte)) :
  forall n : Z,
    Forall (fun c => c <> []) bs ->
    0 <= n <= len (concat bs) ->
    exists bs',
      CopyN (fromBursts bs) n = (take n (concat bs), fromBursts bs') /\
      concat bs' = drop n (concat bs) /\
      (List.length bs' <= List.length bs)%nat /\
      Forall (fun c => c <> []) bs'.
Proof.
  induction bs as [|c tl IH]; intros n F Hn.
  - exists []. cbn [fromBursts map CopyN concat].
    destruct (n <=? 0); unfold take, drop;
      rewrite firstn_nil, skipn_nil; repeat split; constructor.
  - cbn [concat] in *. rewrite len_app in Hn.
    pose proof (len_nonneg c) as Hc.
    apply Forall_cons_iff in F as [Fc Ft].
    cbn [fromBursts map CopyN]. fold (fromBursts tl).
    destruct (Z.leb_spec n 0) as [Hz|Hpos].
    { exists (c :: tl). assert (n = 0) as -> by lia.
      rewrite take_0, drop_0. repeat split; [lia|now constructor]. }
    destruct (Z.leb_spec (len c) n) as [Hle|Hgt].
    + destruct (IH (n - len c) Ft ltac:(lia)) as (bs' & E & Cc & L & F').
      rewrite E. exists bs'.
      rewrite take_app_ge, drop_app_ge by exact Hle.
      repeat split; try assumption. cbn [List.length]. lia.
    + exists (drop n c :: tl).
      rewrite take_app_le, drop_app_le by lia.
      repeat split; [reflexivity|].
      constructor; [apply drop_nonempty; lia|exact Ft].
Qed.

(** The loop of [bulkWrite] over a source that delivers non-empty bursts
    without an error and ends before [size] bytes: what the source holds
    goes out in order, then the read at its end stops the loop with
    [io.EOF]. *)
Lemma bulkWriteLoop_short_source `{Constants} (d : DeviceDirect) :
  isNil (h d) = false ->
  forall (fuel : nat) (size : Z) (bs : list (list byte)) (n last : Z) (w : World),
    (forall i, out_policy w i = OutOk) ->
    Forall (fun c => c <> []) bs ->
    len (concat bs) < size ->
    (Z.to_nat size + List.length bs <= fuel)%nat ->
    exists w' chunks lastT,
      bulkWriteLoop fuel d size (fromBursts bs) n last None w
        = Done ([], n + len (concat bs), lastT, Some (PlainError ErrEOF)) w' /\
      sent w' = sent w ++ chunks /\
      out_policy w' = out_policy w /\
      concat chunks = concat bs.
Proof.
  intros Hh. induction fuel as [|fuel IH]; intros size bs n last w Hp F Hs Hf.
  - pose proof (len_nonneg (concat bs)). lia.
  - pose proof (len_nonneg (concat bs)) as Hr.
    cbn [bulkWriteLoop]. destruct (Z.ltb_spec 0 size) as [Hpos|]; [|lia].
    pose proof rwBufSize_pos as HB.
    set (k := if size <? rwBufSize then size else rwBufSize).
    assert (Hk : 0 < k <= size).
    { unfold k. destruct (Z.ltb_spec size rwBufSize); lia. }
    destruct bs as [|c tl].
    { cbn [fromBursts map Read ret concat]. exists w, [], last.
      replace (len (@nil byte)) with 0 by reflexivity. rewrite Z.add_0_r.
      repeat split. now rewrite app_nil_r. }
    apply Forall_cons_iff in F as [Fc Ft].
    cbn [concat List.length] in *. rewrite len_app in *.
    assert (Hc : 0 < len c).
    { destruct c; [contradiction|]. unfold len. cbn [List.length]. lia. }
    pose proof (len_nonneg (concat tl)) as Ht.
    cbn [fromBursts map Read]. fold (fromBursts tl).
    destruct (Z.leb_spec (len c) k) as [Hle|Hgt].
    + rewrite (bind_Done _ _ _ _ _ (BulkTransferOut_ok d c w Hh Hp)).
      cbn [option_map isNil negb orb].
      destruct (Z.eqb_spec (len c) 0); [lia|].
      destruct (IH (size - len c) tl (n + len c) (len c)
                   (set_sent (sent w ++ [c]) w))
        as (w' & chunks & lastT & E & S & P & C); try assumption; try lia.
      exists w', (c :: chunks), lastT. rewrite E.
      replace (n + len c + len (concat tl)) with (n + (len c + len (concat tl)))
        by lia.
      split; [reflexivity|]. split.
      { rewrite S. cbn [sent set_sent]. now rewrite <- app_assoc. }
      split; [exact P|]. cbn [concat]. now rewrite C.
    + rewrite (bind_Done _ _ _ _ _ (BulkTransferOut_ok d (take k c) w Hh Hp)).
      rewrite (len_take_exact k c) by lia.
      cbn [option_map isNil negb orb].
      destruct (Z.eqb_spec k 0); [lia|].
      destruct (IH (size - k) (drop k c :: tl) (n + k) k
                   (set_sent (sent w ++ [take k c]) w))
        as (w' & chunks & lastT & E & S & P & C).
      { exact Hp. }
      { constructor; [apply drop_nonempty; lia|exact Ft]. }
      { cbn [concat]. rewrite len_app, len_drop by lia. lia. }
      { cbn [List.length]. lia. }
      cbn [fromBursts map] in E. fold (fromBursts tl) in E.
      exists w', (take k c :: chunks), lastT. rewrite E.
      cbn [concat]. rewrite len_app, len_drop by lia.
      replace (n + k + (len c - k + len (concat tl)))
        with (n + (len c + len (concat tl))) by lia.
      split; [reflexivity|]. split.
      { rewrite S. cbn [sent set_sent]. now rewrite <- app_assoc. }
      split; [exact P|].
      rewrite C. cbn [concat]. now rewrite app_assoc, take_drop.
Qed.

(** X15. In a data-out phase with a header, on an open device whose send
    packet size is at least 12, when every write goes through and the
    source delivers its bytes in non-empty reads without an error and
    then ends, before the [size] bytes announced but not before the bytes
    that travel in the header's packet: [bulkWrite] writes the header,
    which still announces [size] bytes, and all the bytes of the source in
    order, possibly followed by one zero-length packet, and returns the
    number of bytes the source held with [io.EOF]. *)
Theorem bulkWrite_short_source `{Constants}
  (d : DeviceDirect) (hdr : usbBulkHeader) (bs : list (list byte)) (size : Z)
  (w : World) :
  isNil (h d) = false ->
  (forall i, out_policy w i = OutOk) ->
  usbHdrLen <= sendMaxPacketSize d ->
  Forall (fun c => c <> []) bs ->
  (if SeparateHeader d then 0 else sendMaxPacketSize d - usbHdrLen)
    <= len (concat bs) ->
  len (concat bs) < size ->
  exists w' zlp,
    bulkWrite d (Some hdr) (fromBursts bs) size w
      = Done ([], len (concat bs), Some (PlainError ErrEOF)) w' /\
    (zlp = [] \/ zlp = [[]]) /\
    exists data,
      sent w' = sent w ++ data ++ zlp /\
      concat data = writeHeader (dataHeader hdr size) ++ concat bs.
Proof.
  intros Hh Hp Hps F Hc Hs. unfold bulkWrite, usbHdrLen in *.
  destruct (Z.ltb_spec (sendMaxPacketSize d) 0); [lia|].
  set (cp := if size <? (if SeparateHeader d then 12 else sendMaxPacketSize d) - 12
             then size
             else (if SeparateHeader d then 12 else sendMaxPacketSize d) - 12).
  assert (Hcp : cp = (if SeparateHeader d then 0 else sendMaxPacketSize d - 12)).
  { unfold cp. destruct (SeparateHeader d).
    - destruct (Z.ltb_spec size (12 - 12));
        pose proof (len_nonneg (concat bs)); lia.
    - destruct (Z.ltb_spec size (sendMaxPacketSize d - 12)); lia. }
  assert (Hc0 : 0 <= cp <= len (concat bs)).
  { rewrite Hcp. destruct (SeparateHeader d); lia. }
  assert (Hg : SeparateHeader d && (sendMaxPacketSize d <? 12) = false).
  { destruct (SeparateHeader d); [|reflexivity].
    destruct (Z.ltb_spec (sendMaxPacketSize d) 12); [lia|reflexivity]. }
  rewrite Hg.
  destruct (CopyN_fromBursts bs cp F Hc0) as (bs' & Ecp & Cc & Lb & F').
  rewrite Ecp.
  set (first := writeHeader (dataHeader hdr size) ++ take cp (concat bs)).
  rewrite (bind_Done _ _ _ _ _ (BulkTransferOut_ok d first w Hh Hp)).
  destruct (bulkWriteLoop_short_source d Hh
              (Z.to_nat (size - cp) + List.length (fromBursts bs'))
              (size - cp) bs' cp 0 (set_sent (sent w ++ [first]) w) Hp F')
    as (w' & chunks & lastT & E & S & P & C).
  { rewrite Cc, len_drop by lia. lia. }
  { unfold fromBursts. rewrite length_map. lia. }
  unfold bulkWriteRest. rewrite (bind_Done _ _ _ _ _ E).
  destruct (Z.eqb_spec (sendMaxPacketSize d) 0); [lia|].
  rewrite Cc, len_drop by lia.
  replace (cp + (len (concat bs) - cp)) with (len (concat bs)) by lia.
  assert (Hcat : concat (first :: chunks)
                 = writeHeader (dataHeader hdr size) ++ concat bs).
  { cbn [concat]. unfold first. rewrite C, Cc, <- app_assoc. f_equal.
    apply take_drop. }
  destruct (Z.rem lastT (sendMaxPacketSize d) =? 0).
  - assert (Hp' : forall i, out_policy w' i = OutOk).
    { intros i. rewrite P. apply Hp. }
    rewrite (bind_Done _ _ _ _ _ (BulkTransferOut_ok d [] w' Hh Hp')).
    eexists _, [[]]. split; [reflexivity|]. split; [now right|].
    exists (first :: chunks). split; [|exact Hcat].
    cbn [sent set_sent]. rewrite S. cbn [sent set_sent].
    rewrite <- !app_assoc. reflexivity.
  - exists w', []. split; [reflexivity|]. split; [now left|].
    exists (first :: chunks). split; [|exact Hcat].
    rewrite S. cbn [sent set_sent]. rewrite app_nil_r, <- app_assoc.
    reflexivity.
Qed.

(** A source for 1000 bytes announced that delivers 550 and 50 bytes and
    ends: the header's packet takes 500 of them, 50 and 50 follow. *)
Lemma bulkWrite_short_source_witness :
  exists w',
    bulkWrite (H := ptp) openDevice (Some (sendObjectHeader 1000))
              (fromBursts [zeros 550; zeros 50]) 1000 (bus [])
      = Done ([], 600, Some (PlainError ErrEOF)) w' /\
    map len (sent w') = [512; 50; 50].
Proof.
  edestruct (bulkWrite_short_source (H := ptp) openDevice
               (sendObjectHeader 1000) [zeros 550; zeros 50] 1000 (bus []))
    as (w' & zlp & E & Z & data & S & C).
  - reflexivity.
  - intros i. reflexivity.
  - vm_compute. discriminate.
  - repeat constructor; discriminate.
  - vm_compute. discriminate.
  - reflexivity.
  - exists w'. split; [exact E|].
    vm_compute in E. injection E as <-. reflexivity.
Defined.

(** X16. When the whole payload is to travel in the header's packet and
    the source, bytes held in memory, holds fewer bytes than announced,
    the shortfall goes unnoticed: [bulkWrite] writes the header announcing [size] bytes with
    the bytes the source held, then a zero-length packet, and returns
    [size] and no error. *)
Theorem bulkWrite_short_source_unnoticed `{Constants}
  (d : DeviceDirect) (hdr : usbBulkHeader) (r : list byte) (size : Z) (w : World) :
  isNil (h d) = false ->
  (forall i, out_policy w i = OutOk) ->
  SeparateHeader d = false ->
  len r < size <= sendMaxPacketSize d - usbHdrLen ->
  bulkWrite d (Some hdr) (fromBytes r) size w
    = Done ([], size, None)
           (set_sent (sent w ++ [writeHeader (dataHeader hdr size) ++ r; []]) w).
Proof.
  intros Hh Hp Hsep [Hs Hps]. unfold bulkWrite, usbHdrLen in *.
  pose proof (len_nonneg r) as Hr.
  destruct (Z.ltb_spec (sendMaxPacketSize d) 0); [lia|].
  rewrite Hsep. cbn [andb].
  set (cp := if size <? sendMaxPacketSize d - 12 then size
             else sendMaxPacketSize d - 12).
  assert (cp = size) as ->.
  { unfold cp. destruct (Z.ltb_spec size (sendMaxPacketSize d - 12)); lia. }
  assert (Ht : take size r = r).
  { unfold take. apply firstn_all2. unfold len in Hs. lia. }
  assert (Hd : drop size r = []).
  { unfold drop. apply skipn_all2. unfold len in Hs. lia. }
  rewrite CopyN_fromBytes, Ht, Hd. cbv beta iota.
  rewrite (bind_Done _ _ _ _ _
             (BulkTransferOut_ok d (writeHeader (dataHeader hdr size) ++ r) w Hh Hp)).
  unfold bulkWriteRest. rewrite Z.sub_diag.
  cbn [fromBytes List.length Z.to_nat Nat.add bulkWriteLoop bind ret].
  destruct (Z.eqb_spec (sendMaxPacketSize d) 0); [lia|].
  rewrite Z.rem_0_l by lia. cbn [Z.eqb].
  rewrite (bind_Done _ _ _ _ _
             (BulkTransferOut_ok d []
                (set_sent (sent w ++ [writeHeader (dataHeader hdr size) ++ r]) w)
                Hh Hp)).
  cbn [sent set_sent]. rewrite <- app_assoc. reflexivity.
Qed.

(** 100 bytes announced, 40 in the source. *)
Lemma bulkWrite_short_source_unnoticed_witness :
  bulkWrite (H := ptp) openDevice (Some (sendObjectHeader 100))
            (fromBytes (zeros 40)) 100 (bus [])
    = Done ([], 100, None)
           (set_sent [writeHeader (dataHeader (sendObjectHeader 100) 100) ++ zeros 40; []]
                     (bus [])).
Proof.
  apply (bulkWrite_short_source_unnoticed (H := ptp) openDevice
           (sendObjectHeader 100) (zeros 40) 100 (bus [])).
  - reflexivity.
  - intros i. reflexivity.
  - reflexivity.
  - vm_compute. split; [reflexivity|discriminate].
Defined.

(** ** What goes out on the wire *)

Lemma silent_refl (w : World) : silent w w.
Proof. split; reflexivity. Qed.

Lemma silent_trans (w1 w2 w3 : World) : silent w1 w2 -> silent w2 w3 -> silent w1 w3.
Proof. intros [S1 E1] [S2 E2]. split; congruence. Qed.

Lemma silent_BulkTransferIn (d : DeviceDirect) (size : Z) :
  frames silent (BulkTransferIn d size).
Proof.
  intros w a w'. unfold BulkTransferIn.
  destruct (h d); [|discriminate].
  destruct (ins w) as [|r tl]; intros [= _ <-]; split; reflexivity.
Qed.

Lemma silent_fetchPacket (d : DeviceDirect) (hd : usbBulkHeader) :
  frames silent (fetchPacket d hd).
Proof.
  unfold fetchPacket.
  apply (frames_bind silent silent_trans); [apply silent_BulkTransferIn|].
  intros [b [e|]]; [apply (frames_ret silent silent_refl)|].
  destruct (readHeader b) as [e|[hd' rest]]; apply (frames_ret silent silent_refl).
Qed.

Lemma silent_bulkRead `{Constants} (d : DeviceDirect) (wr : Writer) :
  frames silent (bulkRead d wr).
Proof.
  intros w a w'. unfold bulkRead.
  destruct (h d); [|discriminate].
  destruct (bulkReadLoop wr 0 (ins w)) as [[[[wr' n] lastRead] err] tl].
  destruct (fetchMaxPacketSize d =? 0); [discriminate|].
  destruct (Z.rem lastRead (fetchMaxPacketSize d) =? 0).
  - destruct (BulkTransferIn d rwBufSize (set_ins tl w)) as [[b e] w2|] eqn:E;
      [|discriminate].
    intros [= _ <-]. apply silent_BulkTransferIn in E. exact E.
  - intros [= _ <-]. split; reflexivity.
Qed.

(** The receive phase only reads. *)
Lemma silent_receive `{Constants} (d : DeviceDirect) (dest : option Writer) :
  frames silent (receive d dest).
Proof.
  unfold receive.
  destruct (fetchMaxPacketSize d <? 0); [apply frames_panic|].
  apply (frames_bind silent silent_trans); [apply silent_fetchPacket|].
  intros [[hd rest] [e|]]; [apply (frames_ret silent silent_refl)|].
  destruct (hType hd =? USB_CONTAINER_DATA); [|apply (frames_ret silent silent_refl)].
  destruct (Write _ rest) as [[wr n] werr].
  apply (frames_bind silent silent_trans).
  { unfold dataPhase.
    destruct (len rest + usbHdrLen =? fetchMaxPacketSize d);
      [|apply (frames_ret silent silent_refl)].
    apply (frames_bind silent silent_trans); [apply silent_bulkRead|].
    intros [[[wr' n'] fp] err]. apply (frames_ret silent silent_refl). }
  intros [[wr' fp] [e|]]; [apply (frames_ret silent silent_refl)|].
  destruct (0 <? len fp); [apply (frames_ret silent silent_refl)|].
  apply (frames_bind silent silent_trans); [apply silent_fetchPacket|].
  intros [[hd' rest'] e]. apply (frames_ret silent silent_refl).
Qed.

Lemma sendPhase_no_source `{Constants} (d : DeviceDirect) (req : Container)
  (writeSize : Z) (w : World) (src' : option Reader) (err : option error)
  (w1 : World) :
  sendPhase d req None writeSize w = Done (src', err) w1 ->
  w1 = set_sent (sent w ++ [commandPacket req]) w.
Proof.
  unfold sendPhase, sendReq.
  destruct (5 <? len (Param req)); [discriminate|].
  unfold bind, BulkTransferOut, ret.
  destruct (h d); [|discriminate].
  destruct (out_policy w (List.length (sent w))) as [|n|n e];
    cbn [option_map]; now intros [= _ _ <-].
Qed.

(** A transaction without outgoing data makes one write, the command. *)
Lemma runTransaction_no_source `{Constants} (d : DeviceDirect) (req rep : Container)
  (dest : option Writer) (writeSize : Z) (w : World)
  (d1 : DeviceDirect) (t : txn) (w1 : World) :
  runTransaction d req rep dest None writeSize w = Done (d1, t) w1 ->
  sent w1 = sent w ++ [commandPacket (snd (assignIDs d req))] /\
  events w1 = events w.
Proof.
  unfold runTransaction. destruct (assignIDs d req) as [d0 req0]. cbn [snd].
  unfold bind at 1.
  destruct (sendPhase d0 req0 None writeSize w) as [[src' err] w0|] eqn:Es;
    [|discriminate].
  apply sendPhase_no_source in Es. subst w0.
  destruct err as [e|].
  { intros [= _ _ <-]. split; reflexivity. }
  unfold bind.
  destruct (receive d0 dest _) as [[e' dest'|hd rest u dest'] w2|] eqn:Er;
    [| |discriminate];
    apply silent_receive in Er; destruct Er as [Sr Evr];
    [|destruct (conclude d0 req0 rep hd rest u)];
    intros [= _ _ <-]; rewrite Sr, Evr; split; reflexivity.
Qed.

(** What [Close] writes: the CloseSession command when a session is open,
    and nothing otherwise. *)
Lemma Close_writes `{Constants} (d : DeviceDirect) (w : World) :
  isNil (h d) = false -> 0 < fetchMaxPacketSize d ->
  exists d' err w',
    Close d w = Done (d', err) w' /\
    sent w' = sent w ++
              match session d with
              | Some s => [commandPacket (mkContainer OC_CloseSession (sid s) (tid s) [])]
              | None => []
              end.
Proof.
  intros Hh Hf. unfold Close. destruct (h d) eqn:Eh; [|discriminate].
  destruct (session d) as [s|] eqn:Es.
  - assert (R : ready d (mkContainer OC_CloseSession 0 0 []) None = true).
    { unfold ready. rewrite Eh. cbn. apply Z.ltb_lt in Hf. now rewrite Hf. }
    destruct (runTransaction_Done d (mkContainer OC_CloseSession 0 0 [])
                zeroContainer None None 0 w R) as (t & w1 & more & E1 & _).
    destruct (runTransaction_no_source _ _ _ _ _ _ _ _ _ E1) as [S1 _].
    revert S1. unfold assignIDs at 1. rewrite Es. cbn [snd Code Param]. intros S1.
    unfold bind. rewrite E1.
    destruct (t_err t); unfold control, ret; destruct (claimed _);
      eexists _, _, _; (split; [reflexivity|exact S1]).
  - unfold bind, control, ret. destruct (claimed d);
      eexists _, _, _; (split; [reflexivity|]); cbn [sent set_events];
      now rewrite app_nil_r.
Qed.

(** X17. On an open device, [RunTransactionWithNoParams] returns, and
    what it writes is one 12-byte command container with the operation
    code and the transaction id of the session (0 without one).  The only
    other write is the CloseSession command, under the next transaction
    id, when the error closes the connection while a session is open. *)
Theorem RunTransactionWithNoParams_writes `{Constants}
  (d : DeviceDirect) (code : Z) (w : World) :
  isNil (h d) = false -> 0 < fetchMaxPacketSize d ->
  exists d' err w',
    RunTransactionWithNoParams d code w = Done (d', err) w' /\
    sent w' =
      sent w ++
      writeHeader (mkHeader 12 USB_CONTAINER_COMMAND code
                            (match session d with Some s => tid s | None => 0 end))
      :: match session d with
         | Some s =>
           if fatal err
           then [writeHeader (mkHeader 12 USB_CONTAINER_COMMAND OC_CloseSession
                                       (uint32 (tid s + 1)))]
           else []
         | None => []
         end.
Proof.
  intros Hh Hf. unfold RunTransactionWithNoParams, RunTransaction.
  destruct (h d) eqn:Eh; [|discriminate].
  set (req := mkContainer code 0 0 []).
  assert (R : ready d req None = true).
  { unfold ready. rewrite Eh. cbn. apply Z.ltb_lt in Hf. now rewrite Hf. }
  destruct (runTransaction_Done d req zeroContainer None None 0 w R)
    as (t & w1 & more & E1 & _).
  destruct (runTransaction_no_source _ _ _ _ _ _ _ _ _ E1) as [S1 _].
  assert (Hcmd : forall c s i, commandPacket (mkContainer c s i [])
                               = writeHeader (mkHeader 12 USB_CONTAINER_COMMAND c i)).
  { intros c s i. unfold commandPacket. cbn [Param Code TransactionID writeParams].
    now rewrite app_nil_r. }
  assert (S1' : sent w1 = sent w ++
                [writeHeader (mkHeader 12 USB_CONTAINER_COMMAND code
                   (match session d with Some s => tid s | None => 0 end))]).
  { rewrite S1. unfold assignIDs, req. destruct (session d); cbn [snd Code Param];
      now rewrite Hcmd. }
  unfold bind at 1. unfold bind at 1. rewrite E1.
  destruct (t_err t) as [e|] eqn:Et.
  2:{ unfold ret. eexists _, _, _. split; [reflexivity|].
      rewrite Et. cbn [fatal]. rewrite S1'. now destruct (session d). }
  destruct (isUsbError e || isSyncError e) eqn:Ef.
  2:{ unfold ret. eexists _, _, _. split; [reflexivity|].
      rewrite Et. cbn [fatal]. rewrite Ef, S1'. now destruct (session d). }
  destruct (assignIDs_frame d req) as (Fh & Fd & Ff & _).
  destruct (Close_writes (fst (assignIDs d req)) w1) as (d2 & err2 & w2 & Ec & Sc).
  { now rewrite Fh, Eh. }
  { unfold fetchMaxPacketSize in *. now rewrite Fd, Ff. }
  unfold bind. rewrite Ec. unfold ret. eexists _, _, _. split; [reflexivity|].
  rewrite Et. cbn [fatal]. rewrite Ef, Sc, S1', <- app_assoc. cbn [app].
  unfold assignIDs. destruct (session d) as [s|] eqn:Es;
    cbn [fst session set_session tid sid]; rewrite ?Es;
    [now rewrite Hcmd|reflexivity].
Qed.

(** GetStorageIDs-like code 0x1004 in session 99 at counter 7: the stale
    response to transaction 5 closes the connection. *)
Lemma RunTransactionWithNoParams_writes_witness :
  exists d' err w',
    RunTransactionWithNoParams (H := ptp) inSession 4100 (bus [got (okFor 5)])
      = Done (d', err) w' /\
    sent w' = [writeHeader (mkHeader 12 USB_CONTAINER_COMMAND 4100 7);
               writeHeader (mkHeader 12 USB_CONTAINER_COMMAND 4099 8)].
Proof.
  destruct (RunTransactionWithNoParams_writes (H := ptp) inSession 4100
              (bus [got (okFor 5)])) as (d' & err & w' & E & S).
  - reflexivity.
  - reflexivity.
  - exists d', err, w'. split; [exact E|].
    rewrite S. vm_compute in E. injection E as _ <- _. reflexivity.
Defined.

(** ** Opening the device *)

Lemma control_run (e : event) (w : World) :
  control e w = Done (ctl w (events w) e) (set_events (events w ++ [e]) w).
Proof. reflexivity. Qed.

Lemma claim_run (d : DeviceDirect) (w : World) :
  isNil (h d) = false ->
  claim d w
    = Done (match ctl w (events w) (EvClaimInterface (InterfaceNumber (ifaceDescr d))) with
            | Some e => (d, Some (PlainError (FailedToClaim e)))
            | None => (set_claimed true d, None)
            end)
           (set_events (events w ++ [EvClaimInterface (InterfaceNumber (ifaceDescr d))]) w).
Proof.
  intros Hh. unfold claim. destruct (h d); [|discriminate].
  rewrite (bind_Done _ _ _ _ _ (control_run _ w)).
  now destruct (ctl w (events w) _).
Qed.

(** The device as [Open] finds it once the time-out has its default. *)
Lemma Open_Timeout (d : DeviceDirect) :
  let d0 := if Timeout d =? 0 then set_Timeout 2000 d else d in
  h d0 = h d /\ ifaceDescr d0 = ifaceDescr d /\ claimed d0 = claimed d /\
  fetchMaxPacketSize d0 = fetchMaxPacketSize d /\ (Timeout d0 =? 0) = false.
Proof.
  cbn. destruct (Z.eqb_spec (Timeout d) 0) as [E|E]; cbn;
    repeat split; try assumption. now apply Z.eqb_neq.
Qed.

(** X18. When the device opens and claiming its interface fails, [Open]
    returns the claim's error and leaves the handle open and the
    interface unclaimed as it was: calling [Open] again returns
    "already open" without a call to the device. *)
Theorem Open_failed_claim `{Constants} `{SessionOps}
  (d : DeviceDirect) (w : World) (u : usb_Error) :
  h d = None ->
  ctl w (events w) EvDeviceOpen = None ->
  ctl w (events w ++ [EvDeviceOpen])
      (EvClaimInterface (InterfaceNumber (ifaceDescr d))) = Some u ->
  exists d' w',
    Open d w = Done (d', Some (PlainError (FailedToClaim u))) w' /\
    h d' = Some Handle /\ claimed d' = claimed d /\
    events w'
      = events w ++ [EvDeviceOpen; EvClaimInterface (InterfaceNumber (ifaceDescr d))] /\
    Open d' w' = Done (d', Some (PlainError AlreadyOpen)) w'.
Proof.
  intros Hh C1 C2. unfold Open at 1.
  destruct (Open_Timeout d) as (A1 & A2 & A3 & _ & A4).
  set (d0 := if Timeout d =? 0 then set_Timeout 2000 d else d) in *.
  rewrite A1, Hh.
  rewrite (bind_Done _ _ _ _ _ (control_run _ w)), C1.
  rewrite (bind_Done _ _ _ _ _ (claim_run (set_h (Some Handle) d0) _ eq_refl)).
  cbn [ifaceDescr set_h ctl events set_events]. rewrite A2, C2.
  unfold ret.
  eexists _, _. split; [reflexivity|]. cbn [h set_h claimed events set_events].
  split; [reflexivity|]. split; [exact A3|]. split.
  { now rewrite <- app_assoc. }
  unfold Open. cbn [Timeout set_h]. rewrite A4. reflexivity.
Qed.

(** A closed device on a bus where the claim fails with LIBUSB_ERROR_BUSY. *)
Lemma Open_failed_claim_witness :
  exists d' w',
    Open (H := ptp) (H0 := simpleOps) closedDevice (claimFails (-6))
      = Done (d', Some (PlainError (FailedToClaim (-6)))) w' /\
    h d' = Some Handle /\
    Open (H := ptp) (H0 := simpleOps) d' w'
      = Done (d', Some (PlainError AlreadyOpen)) w'.
Proof.
  destruct (Open_failed_claim (H := ptp) (H0 := simpleOps) closedDevice
              (claimFails (-6)) (-6))
    as (d' & w' & E & Hh & _ & _ & E2).
  - reflexivity.
  - reflexivity.
  - reflexivity.
  - exists d', w'. repeat split; assumption.
Defined.

(** X19. [Open] on a closed device with a positive fetch packet size,
    whose interface has a string descriptor, always returns.  It succeeds
    exactly when the device opens, the interface is claimed and the
    interface string is read and contains "MTP"; then the handle is open,
    the interface is marked claimed, a zero time-out has become 2000, and
    the calls to the device are the open, the claim and the read of the
    interface string.  Every failure after the claim closes the handle
    again, so that the handle is nil after any failure but the claim's. *)
Theorem Open_interface_string `{Constants} `{SessionOps}
  (d : DeviceDirect) (w : World) :
  h d = None ->
  InterfaceStringIndex (ifaceDescr d) <> 0 ->
  0 < fetchMaxPacketSize d ->
  let claimEv := EvClaimInterface (InterfaceNumber (ifaceDescr d)) in
  exists d' err w',
    Open d w = Done (d', err) w' /\
    (err = None <->
     ctl w (events w) EvDeviceOpen = None /\
     ctl w (events w ++ [EvDeviceOpen]) claimEv = None /\
     exists s, descr w (InterfaceStringIndex (ifaceDescr d)) = inl s /\
               Contains s "MTP" = true) /\
    (err = None ->
     d' = set_claimed true
            (set_h (Some Handle)
               (if Timeout d =? 0 then set_Timeout 2000 d else d)) /\
     events w'
       = events w ++ [EvDeviceOpen; claimEv;
                      EvGetStringDescriptor (InterfaceStringIndex (ifaceDescr d))]) /\
    (err <> None ->
     (forall u, err <> Some (PlainError (FailedToClaim u))) ->
     h d' = None).
Proof.
  intros Hh Hi Hf claimEv. unfold Open.
  destruct (Open_Timeout d) as (A1 & A2 & A3 & A5 & A4).
  set (d0 := if Timeout d =? 0 then set_Timeout 2000 d else d) in *.
  rewrite A1, Hh.
  rewrite (bind_Done _ _ _ _ _ (control_run _ w)).
  destruct (ctl w (events w) EvDeviceOpen) as [u1|] eqn:C1.
  { unfold ret. eexists _, _, _. split; [reflexivity|]. split; [|split].
    - split; [discriminate|]. intros (X & _). discriminate.
    - discriminate.
    - reflexivity. }
  rewrite (bind_Done _ _ _ _ _ (claim_run (set_h (Some Handle) d0) _ eq_refl)).
  cbn [ifaceDescr set_h ctl events set_events]. rewrite A2. fold claimEv.
  destruct (ctl w (events w ++ [EvDeviceOpen]) claimEv) as [u2|] eqn:C2.
  { unfold ret. eexists _, _, _. split; [reflexivity|]. split; [|split].
    - split; [discriminate|]. intros (_ & X & _). discriminate.
    - discriminate.
    - intros _ X. now destruct (X u2). }
  cbn [ifaceDescr set_claimed set_h]. rewrite A2.
  destruct (Z.eqb_spec (InterfaceStringIndex (ifaceDescr d)) 0) as [|_];
    [contradiction|].
  unfold bind at 1. unfold GetStringDescriptorASCII at 1.
  cbn [descr events set_events].
  set (d2 := set_claimed true (set_h (Some Handle) d0)).
  set (w2 := set_events _ (set_events _ (set_events _ w))).
  assert (Hc : exists d3 e3 w3, Close d2 w2 = Done (d3, e3) w3 /\ h d3 = None).
  { destruct (Close_Done d2 w2) as (d3 & e3 & w3 & evs & E & Hn & _).
    - reflexivity.
    - unfold d2, fetchMaxPacketSize in *. exact A5 || (cbn; lia).
    - now exists d3, e3, w3. }
  destruct Hc as (d3 & e3 & w3 & Ec & Hn).
  destruct (descr w (InterfaceStringIndex (ifaceDescr d))) as [s|u3] eqn:D.
  - destruct (Contains s "MTP") eqn:Cs; cbn [negb].
    + unfold ret. eexists _, _, _. split; [reflexivity|]. split; [|split].
      * split; [|reflexivity]. intros _. repeat split. now exists s.
      * intros _. split; [reflexivity|]. unfold w2. cbn [events set_events].
        now rewrite <- !app_assoc.
      * intros X. now destruct X.
    + rewrite (bind_Done _ _ _ _ _ Ec). unfold ret.
      eexists _, _, _. split; [reflexivity|]. split; [|split].
      * split; [discriminate|]. intros (_ & _ & s' & [= <-] & X). congruence.
      * discriminate.
      * intros _ _. exact Hn.
  - rewrite (bind_Done _ _ _ _ _ Ec). unfold ret.
    eexists _, _, _. split; [reflexivity|]. split; [|split].
    + split; [discriminate|]. intros (_ & _ & s' & [=] & _).
    + discriminate.
    + intros _ _. exact Hn.
Qed.

(** A closed device on the plain bus, and on one whose interface string
    is "PTP". *)
Lemma Open_interface_string_witness :
  Open (H := ptp) (H0 := simpleOps) closedDevice (bus [])
    = Done (openDevice, None)
           (set_events [EvDeviceOpen; EvClaimInterface 0; EvGetStringDescriptor 5]
                       (bus [])) /\
  exists d' e w',
    Open (H := ptp) (H0 := simpleOps) closedDevice (withDescr (inl "PTP"%string))
      = Done (d', Some e) w' /\ h d' = None.
Proof.
  split.
  - destruct (Open_interface_string (H := ptp) (H0 := simpleOps) closedDevice (bus []))
      as (d' & err & w' & E & _).
    + reflexivity.
    + discriminate.
    + reflexivity.
    + pose proof E as E'. vm_compute in E'. injection E' as <- <- <-. exact E.
  - destruct (Open_interface_string (H := ptp) (H0 := simpleOps) closedDevice
                (withDescr (inl "PTP"%string)))
      as (d' & err & w' & E & _ & _ & Hn).
    + reflexivity.
    + discriminate.
    + reflexivity.
    + pose proof E as E'. vm_compute in E'. injection E' as <- <- <-.
      eexists _, _, _. split; [exact E|reflexivity].
Defined.

(** ** [Configure] *)

(** X20. Whenever [Configure] returns, success means that an
    [OpenSession] call succeeded and left the device and the bus as they
    are returned.  An error is the error of the first [Open], as it is,
    when the device was not open; every other error is wrapped as
    "opening after reset" or "openSession after reset". *)
Theorem Configure_outcomes `{Constants} `{SessionOps}
  (d : DeviceDirect) (w : World) (d' : DeviceDirect) (err : option error)
  (w' : World) :
  Configure d w = Done (d', err) w' ->
  match err with
  | None => exists d0 w0, OpenSession d0 w0 = Done (d', None) w'
  | Some e =>
    (isNil (h d) = true /\ Open d w = Done (d', Some e) w') \/
    (exists e', e = OpeningAfterReset e') \/
    (exists e', e = OpenSessionAfterReset e')
  end.
Proof.
  unfold Configure. unfold bind at 1.
  destruct ((if isNil (h d) then Open d else ret (d, None)) w)
    as [[d0 [e0|]] w0|] eqn:E0; [| |discriminate].
  { intros [= <- <- <-]. left. destruct (isNil (h d)); [now split|discriminate]. }
  unfold bind at 1.
  destruct (OpenSession d0 w0) as [[d1 err1] w1|] eqn:E1; [|discriminate].
  unfold bind at 1.
  assert (S : forall d2 err2 w2,
             (if isRCError RC_SessionAlreadyOpened err1
              then '(d, _) <- CloseSession d1 ;; OpenSession d
              else ret (d1, err2)) w1 = Done (d2, None) w2 ->
             err2 = err1 ->
             exists d0 w0, OpenSession d0 w0 = Done (d2, None) w2).
  { intros d2 err2 w2 E ->. destruct (isRCError RC_SessionAlreadyOpened err1).
    - revert E. unfold bind.
      destruct (CloseSession d1 w1) as [[d3 e3] w3|]; [|discriminate].
      intros E. now exists d3, w3.
    - injection E as <- -> <-. now exists d0, w0. }
  destruct ((if isRCError RC_SessionAlreadyOpened err1
             then '(d, _) <- CloseSession d1 ;; OpenSession d
             else ret (d1, err1)) w1) as [[d2 [e2|]] w2|] eqn:E2; [| |discriminate].
  2:{ intros [= <- <- <-]. exact (S _ _ _ E2 eq_refl). }
  clear S. unfold bind at 1.
  destruct ((if negb (isNil (h d2)) then control EvReset else ret None) w2)
    as [r3 w3|]; [|discriminate].
  unfold bind at 1. destruct (Close d2 w3) as [[d4 e4] w4|]; [|discriminate].
  unfold bind at 1. rewrite control_run.
  unfold bind at 1. destruct (Open d4 _) as [[d5 [e5|]] w5|]; [| |discriminate].
  { intros [= <- <- <-]. right. left. now exists e5. }
  unfold bind at 1.
  destruct (OpenSession d5 w5) as [[d6 [e6|]] w6|] eqn:E6; [| |discriminate].
  { intros [= <- <- <-]. right. right. now exists e6. }
  intros [= <- <- <-]. now exists d5, w5.
Qed.

(** On the stale session [Configure] succeeds through the second
    [OpenSession]. *)
Lemma Configure_outcomes_witness :
  exists d' w' d0 w0,
    Configure (H := ptp) (H0 := simpleOps) openDevice staleSession
      = Done (d', None) w' /\
    OpenSession (SessionOps := simpleOps) d0 w0 = Done (d', None) w'.
Proof.
  eassert (E : Configure (H := ptp) (H0 := simpleOps) openDevice staleSession
               = Done (_, None) _) by (vm_compute; reflexivity).
  destruct (Configure_outcomes (H := ptp) (H0 := simpleOps) _ _ _ _ _ E)
    as (d0 & w0 & E0).
  eexists _, _, d0, w0. split; [exact E|exact E0].
Defined.


